(** * Gate attendance engine of login-track: server routes and gate screens

    The request handlers of the attendance server ([/api/gate/entry],
    [/api/gate/present], [/api/gate/bulk-out], [/api/reports],
    [/api/reports/export]) and the input handlers of the gate-entry, gate-out
    and reports screens, embedded as functions over an explicit store.
    Alongside them: the employee directory routes ([/api/employees]) with the
    role check, the account routes (login, lockout, password change and
    reset requests, user deletion) over a store of their own, the live
    dashboard ([/api/dashboard/live] and the counters of the dashboard
    screen), [/api/reports/export-absent], and the selection and
    recent-entry lists of the gate screens.

    Conventions of the embedding.
    - Instants ([Date], [getTime()]) are integers: milliseconds since the epoch.
    - Calendar dates (the [date] column, the ["YYYY-MM-DD"] strings) are integers:
      days since 1970-01-01; the order on them is the order of the strings.
    - Hours are exact rationals.  The handlers divide an integer number of
      milliseconds by [1000 * 60 * 60] and compare the quotient with [1] and
      [9]; both thresholds are exact quotients, so the comparisons on the
      rounded quotient and on the exact one agree.  The decimal rendering of
      hours ([toFixed]) is left out: a body carries the unrounded value.
    - Strings are [string], the list of the code units; [toUpperCase],
      [toLowerCase] and [trim] are JavaScript's on ASCII text and on U+00DF,
      whose uppercase form is two letters long.
    - A table is the list of its rows; [select ... where p] is [filter p],
      [limit 1] keeps the head.
    - A handler runs in a small state-and-exception monad over the store, a
      log of the storage operations it issued, and a fault schedule saying
      which storage operation (if any) throws.  A handler run in the monad
      is a request served alone; [/api/gate/entry] is also given one storage
      operation at a time, so that requests in flight together interleave.
    - The server's zone is an offset [tz] from UTC; the day loop of the
      reports is also given over a zone whose offset changes. *)

From Stdlib Require Import ZArith QArith List String Ascii Bool Arith Lia Permutation
  Sorted.
Import ListNotations.

Local Open Scope string_scope.
Local Open Scope Z_scope.

(** ** Strings

    A string is the list of its code units.  The case maps and [trim] are
    those of JavaScript on the strings made of ASCII characters and of U+00DF
    (sharp s), whose uppercase form is the two letters "SS": the uppercase
    form of a string can be longer than the string.  A statement that needs
    more of the case maps than JavaScript gives them on every string (that
    the length is kept, that lowering undoes raising) says so in a
    hypothesis. *)

Definition upperChar (c : ascii) : ascii :=
  let n := nat_of_ascii c in
  if (97 <=? n)%nat && (n <=? 122)%nat then ascii_of_nat (n - 32) else c.

(** U+00DF, LATIN SMALL LETTER SHARP S *)
Definition isSharpS (c : ascii) : bool := (nat_of_ascii c =? 223)%nat.

Definition isAsciiChar (c : ascii) : bool := (nat_of_ascii c <? 128)%nat.

Fixpoint isAscii (s : string) : bool :=
  match s with
  | EmptyString => true
  | String c s' => isAsciiChar c && isAscii s'
  end.

Definition lowerChar (c : ascii) : ascii :=
  let n := nat_of_ascii c in
  if (65 <=? n)%nat && (n <=? 90)%nat then ascii_of_nat (n + 32) else c.

Fixpoint mapString (f : ascii -> ascii) (s : string) : string :=
  match s with
  | EmptyString => EmptyString
  | String c s' => String (f c) (mapString f s')
  end.

(** [String.prototype.toUpperCase] *)
Fixpoint toUpperCase (s : string) : string :=
  match s with
  | EmptyString => EmptyString
  | String c s' =>
      if isSharpS c then String "S" (String "S" (toUpperCase s'))
      else String (upperChar c) (toUpperCase s')
  end.

(** [String.prototype.toLowerCase] *)
Definition toLowerCase : string -> string := mapString lowerChar.

(** White space removed by [String.prototype.trim], ASCII range: TAB, LF, VT,
    FF, CR and SPACE. *)
Definition isSpace (c : ascii) : bool :=
  let n := nat_of_ascii c in
  ((9 <=? n)%nat && (n <=? 13)%nat) || (n =? 32)%nat.

Fixpoint trimStart (s : string) : string :=
  match s with
  | EmptyString => EmptyString
  | String c s' => if isSpace c then trimStart s' else s
  end.

Fixpoint trimEnd (s : string) : string :=
  match s with
  | EmptyString => EmptyString
  | String c s' =>
      match trimEnd s' with
      | EmptyString => if isSpace c then EmptyString else String c EmptyString
      | t => String c t
      end
  end.

Definition trim (s : string) : string := trimEnd (trimStart s).

(** [hay.includes(needle)] *)
Fixpoint includes (hay needle : string) : bool :=
  String.prefix needle hay
  || match hay with
     | EmptyString => false
     | String _ hay' => includes hay' needle
     end.

(** JavaScript truthiness of a string-or-undefined value: [!v] holds for
    [undefined] and for the empty string. *)
Definition falsy (v : option string) : bool :=
  match v with
  | None => true
  | Some s => (s =? "")%string
  end.

(** ** Data model (tables [employees], [rosters], [attendance]) *)

Record Employee := mkEmployee {
  emp_id : string;
  emp_slpid : string;
  emp_employeeId : string;
  emp_name : string;
  emp_gender : string;
  emp_department : string;
  emp_designation : string;
  emp_dateOfJoining : string;
  emp_isActive : bool
}.

Record Roster := mkRoster {
  ros_id : string;
  ros_employeeId : string;
  ros_shiftName : string;
  ros_weekOff : string
}.

(** [att_gateOutTime = None] is the SQL null: the session is open. *)
Record Attendance := mkAttendance {
  att_id : string;
  att_employeeId : string;
  att_slpid : string;
  att_shiftName : string;
  att_department : string;
  att_date : Z;
  att_gateInTime : Z;
  att_gateOutTime : option Z;
  att_isWeekOffEntry : bool;
  att_isOvertime : bool
}.

Record Db := mkDb {
  employees : list Employee;
  rosters : list Roster;
  attendance : list Attendance
}.

Definition isNull {A} (v : option A) : bool :=
  match v with None => true | Some _ => false end.

(** ** Hours *)

Definition msPerHour : Q := inject_Z (1000 * 60 * 60).

(** [(end.getTime() - start.getTime()) / (1000 * 60 * 60)] *)
Definition hoursBetween (start finish : Z) : Q :=
  (inject_Z (finish - start) / msPerHour)%Q.

Definition Qlt_bool (x y : Q) : bool := negb (Qle_bool y x).

Definition Qmax (x y : Q) : Q := if Qle_bool x y then y else x.

(** [/api/gate/present]: [hoursWorked: Math.max(0, hoursWorked)] *)
Definition elapsedHours (start finish : Z) : Q :=
  Qmax 0 (hoursBetween start finish).

(** [hoursElapsed >= 9] (gate entry, bulk gate-out), [item.hoursWorked >= 9]
    (gate-out screen), [emp.hoursWorked >= 9] (dashboard) *)
Definition isOvertime (hours : Q) : bool := Qle_bool 9 hours.

(** [/api/reports]: [totalHours > 9 ? totalHours - 9 : 0] *)
Definition otHours (totalHours : Q) : Q :=
  if Qlt_bool 9 totalHours then (totalHours - 9)%Q else 0%Q.

(** ** Responses *)

Record ReportRow := mkReportRow {
  row_id : option string;  (* [None]: a fresh [randomUUID()] *)
  row_slpid : string;
  row_employeeName : string;
  row_employeeIdCode : string;
  row_gender : string;
  row_department : string;
  row_designation : string;
  row_weekOff : string;
  row_dateOfJoining : string;
  row_date : Z;
  row_gateInTime : option Z;
  row_gateOutTime : option Z;
  row_shiftName : string;
  row_totalHours : Q;
  row_otHours : Q;
  row_status : string
}.

(** A row of [/api/gate/present]. *)
Record PresentRow := mkPresentRow {
  pr_id : string;
  pr_attendanceId : string;
  pr_slpid : string;
  pr_name : string;
  pr_department : string;
  pr_shift : string;
  pr_gateInTime : Z;
  pr_hoursWorked : Q;
  pr_date : Z
}.

(** A row of the sheet built by [/api/reports/export]: the employee columns,
    one status cell per date of the range, and the count of present days. *)
Record MatrixRow := mkMatrixRow {
  mx_name : string;
  mx_gender : string;
  mx_slpid : string;
  mx_employeeId : string;
  mx_department : string;
  mx_designation : string;
  mx_shift : string;
  mx_weekOff : string;
  mx_dateOfJoining : string;
  mx_cells : list (Z * string);
  mx_totalPresent : nat
}.

Inductive Body :=
| JMessage (message : string)
    (* [{ message }] *)
| JAlreadyScanned (message employeeName : string) (hoursElapsed : Q)
    (* [{ message, action: "none", employeeName, hoursElapsed }] *)
| JGateOut (employeeName : string) (hoursWorked : Q)
    (* [{ success: true, action: "gate_out", message, employeeName, hoursWorked }] *)
| JWeekOff (message employeeName : string)
    (* [{ message, isWeekOff: true, employeeName }] *)
| JGateIn (message employeeName : string)
    (* [{ success: true, action: "gate_in", message, employeeName }] *)
| JBulkOut (count : nat)
    (* [{ success: true, count, message }] *)
| JPresent (rows : list PresentRow)
| JRecords (records : list ReportRow)
| JSheet (rows : list MatrixRow).

Record Response := mkResponse { status : Z; body : Body }.

(** [Response.ok] of the Fetch API: the status is in the range 200-299. *)
Definition res_ok (r : Response) : bool :=
  (200 <=? status r) && (status r <=? 299).

(** ** The handler monad: store, log of storage operations, faults *)

Inductive Table := Employees | Rosters | AttendanceT.

Inductive DbOp :=
| OpSelect (t : Table)
| OpInsert (t : Table)
| OpUpdate (t : Table).

(** [fault = Some k]: the storage operation number [k] from now (counting
    from 0) throws; [None]: the storage does not fail. *)
Record World := mkWorld {
  db : Db;
  log : list DbOp;
  fault : option nat
}.

Inductive Result (A : Type) :=
| Ok (a : A)
| Thrown.
Arguments Ok {A} a.
Arguments Thrown {A}.

Definition M (A : Type) : Type := World -> Result A * World.

Definition ret {A} (a : A) : M A := fun w => (Ok a, w).

Definition bind {A B} (m : M A) (k : A -> M B) : M B :=
  fun w =>
    match m w with
    | (Ok a, w') => k a w'
    | (Thrown, w') => (Thrown, w')
    end.

Notation "x <- m ;; k" := (bind m (fun x => k))
  (at level 61, m at next level, right associativity).
Notation "m ;;; k" := (bind m (fun _ => k))
  (at level 61, right associativity).

(** Every [await db....] goes through [storage]: it is logged, and it throws
    when the fault schedule says so. *)
Definition storage (op : DbOp) : M unit :=
  fun w =>
    match fault w with
    | Some O => (Thrown, mkWorld (db w) (log w ++ [op]) None)
    | Some (S k) => (Ok tt, mkWorld (db w) (log w ++ [op]) (Some k))
    | None => (Ok tt, mkWorld (db w) (log w ++ [op]) None)
    end.

Definition getDb : M Db := fun w => (Ok (db w), w).

Definition putDb (d : Db) : M unit :=
  fun w => (Ok tt, mkWorld d (log w) (fault w)).

Definition selectEmployees (p : Employee -> bool) : M (list Employee) :=
  storage (OpSelect Employees) ;;;
  d <- getDb ;;
  ret (filter p (employees d)).

Definition selectRosters (p : Roster -> bool) : M (list Roster) :=
  storage (OpSelect Rosters) ;;;
  d <- getDb ;;
  ret (filter p (rosters d)).

Definition selectAttendance (p : Attendance -> bool) : M (list Attendance) :=
  storage (OpSelect AttendanceT) ;;;
  d <- getDb ;;
  ret (filter p (attendance d)).

Definition limit1 {A} (rows : list A) : list A := firstn 1 rows.

(** [db.update(attendance).set({ gateOutTime, isOvertime }).where(p)] *)
Definition setGateOut (now : Z) (overtime : bool) (a : Attendance) : Attendance :=
  mkAttendance (att_id a) (att_employeeId a) (att_slpid a) (att_shiftName a)
    (att_department a) (att_date a) (att_gateInTime a) (Some now)
    (att_isWeekOffEntry a) overtime.

Definition updateRows (p : Attendance -> bool) (f : Attendance -> Attendance)
    (rows : list Attendance) : list Attendance :=
  map (fun a => if p a then f a else a) rows.

Definition updateAttendance (p : Attendance -> bool)
    (f : Attendance -> Attendance) : M unit :=
  storage (OpUpdate AttendanceT) ;;;
  d <- getDb ;;
  putDb (mkDb (employees d) (rosters d) (updateRows p f (attendance d))).

Definition insertAttendance (a : Attendance) : M unit :=
  storage (OpInsert AttendanceT) ;;;
  d <- getDb ;;
  putDb (mkDb (employees d) (rosters d) (attendance d ++ [a])).

(** [try { ... } catch (error) { res.status(500).json(...) }] *)
Definition handle (m : M Response) (onError : Response) (w : World)
    : Response * World :=
  match m w with
  | (Ok r, w') => (r, w')
  | (Thrown, w') => (onError, w')
  end.

(** [a || b] on strings: the empty string is falsy. *)
Definition orElse (s dflt : string) : string :=
  if (s =? "")%string then dflt else s.

(** [Array.prototype.sort] is stable; [before x y] says that the comparator
    does not put [y] strictly in front of [x]. *)
Fixpoint insertBy {A} (before : A -> A -> bool) (x : A) (l : list A) : list A :=
  match l with
  | [] => [x]
  | y :: l' => if before x y then x :: y :: l' else y :: insertBy before x l'
  end.

Definition sortBy {A} (before : A -> A -> bool) (l : list A) : list A :=
  fold_right (insertBy before) [] l.

(** ** Calendar *)

Definition msPerDay : Z := 24 * 60 * 60 * 1000.

Definition weekdayNames : list string :=
  ["Sunday"; "Monday"; "Tuesday"; "Wednesday"; "Thursday"; "Friday"; "Saturday"].

(** [new Date().toISOString().split("T")[0]]: the UTC calendar date. *)
Definition isoDate (t : Z) : Z := t / msPerDay.

(** [new Date(date)] for a ["YYYY-MM-DD"] string: UTC midnight of that date. *)
Definition dateInstant (date : Z) : Z := date * msPerDay.

Section Server.

(** Offset of the server's local time zone from UTC, in milliseconds, taken
    as constant (a zone without daylight saving changes). *)
Variable tz : Z.

(** [toLocaleDateString("en-US", { weekday: "long" })]; 1970-01-01 was a
    Thursday. *)
Definition weekdayLong (t : Z) : string :=
  nth (Z.to_nat ((((t + tz) / msPerDay) + 4) mod 7)) weekdayNames "".

(** [roster.length > 0 && roster[0].weekOff.toLowerCase() === dayOfWeek.toLowerCase()],
    and [ros?.weekOff?.toLowerCase() === dayOfWeek.toLowerCase()] in the reports. *)
Definition isWeekOffAt (roster : option Roster) (t : Z) : bool :=
  match roster with
  | Some r => (toLowerCase (ros_weekOff r) =? toLowerCase (weekdayLong t))%string
  | None => false
  end.

(** *** [POST /api/gate/entry]

    [now] is the instant of the call and [newId] the identifier drawn by
    [randomUUID()].  The inserted row leaves [gateInTime] and [gateOutTime] to
    the column defaults of the schema (the schema is not part of the
    sources): the current instant and null. *)
Definition gateEntryBody (now : Z) (newId : string) (slpid : option string)
    (allowWeekOff : bool) : M Response :=
  if falsy slpid then ret (mkResponse 400 (JMessage "SLPID is required")) else
  let slpid := match slpid with Some s => s | None => "" end in
  employee <- selectEmployees (fun e => (emp_slpid e =? toUpperCase slpid)%string) ;;
  match limit1 employee with
  | [] => ret (mkResponse 404 (JMessage "Employee not found"))
  | employee0 :: _ =>
    if negb (emp_isActive employee0)
    then ret (mkResponse 403 (JMessage "Employee is inactive")) else
    let today := isoDate now in
    activeEntry <- selectAttendance (fun a =>
        (att_employeeId a =? emp_id employee0)%string && isNull (att_gateOutTime a)) ;;
    match limit1 activeEntry with
    | activeEntry0 :: _ =>
      let hoursElapsed := hoursBetween (att_gateInTime activeEntry0) now in
      if Qlt_bool hoursElapsed 1 then
        ret (mkResponse 400
               (JAlreadyScanned "Card already scanned" (emp_name employee0) hoursElapsed))
      else
        let overtime := isOvertime hoursElapsed in
        updateAttendance (fun a => (att_id a =? att_id activeEntry0)%string)
                         (setGateOut now overtime) ;;;
        ret (mkResponse 200 (JGateOut (emp_name employee0) hoursElapsed))
    | [] =>
      roster <- selectRosters (fun r => (ros_employeeId r =? emp_id employee0)%string) ;;
      let roster := limit1 roster in
      let isWeekOff := isWeekOffAt (hd_error roster) now in
      if isWeekOff && negb allowWeekOff then
        ret (mkResponse 409
               (JWeekOff "Employee is on week off. Confirmation required."
                         (emp_name employee0)))
      else
        insertAttendance
          (mkAttendance newId (emp_id employee0) (emp_slpid employee0)
             (match roster with r :: _ => ros_shiftName r | [] => "General" end)
             (emp_department employee0) today now None
             (isWeekOff && allowWeekOff) false) ;;;
        ret (mkResponse 200 (JGateIn "Gate In recorded successfully" (emp_name employee0)))
    end
  end.

Definition gateEntry (now : Z) (newId : string) (slpid : option string)
    (allowWeekOff : bool) : World -> Response * World :=
  handle (gateEntryBody now newId slpid allowWeekOff)
         (mkResponse 500 (JMessage "Failed to record entry")).

(** *** [GET /api/gate/present] *)
Fixpoint presentRows (now : Z) (atts : list Attendance) : M (list PresentRow) :=
  match atts with
  | [] => ret []
  | att :: rest =>
    emp <- selectEmployees (fun e => (emp_id e =? att_employeeId att)%string) ;;
    let emp := hd_error (limit1 emp) in
    let hoursWorked := hoursBetween (att_gateInTime att) now in
    rows <- presentRows now rest ;;
    ret (mkPresentRow
           (match emp with Some e => orElse (emp_id e) "" | None => "" end)
           (att_id att) (att_slpid att)
           (match emp with Some e => orElse (emp_name e) "Unknown" | None => "Unknown" end)
           (orElse (att_department att) "")
           (orElse (att_shiftName att) "General")
           (att_gateInTime att)
           (Qmax 0 hoursWorked) (att_date att) :: rows)
  end.

Definition gatePresent (now : Z) : World -> Response * World :=
  handle
    (activeEntries <- selectAttendance (fun a => isNull (att_gateOutTime a)) ;;
     let activeEntries :=
       sortBy (fun a b => att_gateInTime b <=? att_gateInTime a) activeEntries in
     result <- presentRows now activeEntries ;;
     ret (mkResponse 200 (JPresent result)))
    (mkResponse 500 (JMessage "Failed to fetch present employees")).

(** *** [POST /api/gate/bulk-out]

    [attendanceIds = None] stands for a missing value or one that is not an
    array. *)
Fixpoint bulkOutLoop (now : Z) (attendanceIds : list string) (count : nat) : M nat :=
  match attendanceIds with
  | [] => ret count
  | attId :: rest =>
    att <- selectAttendance (fun a => (att_id a =? attId)%string) ;;
    match limit1 att with
    | att0 :: _ =>
      let hoursWorked := hoursBetween (att_gateInTime att0) now in
      updateAttendance (fun a => (att_id a =? attId)%string)
                       (setGateOut now (isOvertime hoursWorked)) ;;;
      bulkOutLoop now rest (S count)
    | [] => bulkOutLoop now rest count
    end
  end.

Definition bulkOut (now : Z) (attendanceIds : option (list string))
    : World -> Response * World :=
  handle
    (match attendanceIds with
     | None | Some [] => ret (mkResponse 400 (JMessage "No attendance IDs provided"))
     | Some ids =>
       count <- bulkOutLoop now ids 0%nat ;;
       ret (mkResponse 200 (JBulkOut count))
     end)
    (mkResponse 500 (JMessage "Failed to process bulk gate out")).

(** *** [GET /api/reports]

    [fromDate], [toDate]: the query parameters, [None] when missing or empty.
    [department]: the optional filter.  [onlyAbsent]: whether the query
    parameter equals ["true"]. *)

(** [for (let d = new Date(fromDate); d <= new Date(toDate); d.setDate(d.getDate() + 1))
      dates.push(d.toISOString().split("T")[0])]

    on the server of this section, whose zone keeps the one offset [tz]: one
    local day later is 24 hours later, so the loop walks the dates of the
    range.  [datesLoopIn] below is the loop in any zone; [datesLoopIn_fixed]
    shows that it is this one when the offset does not change, and
    [clock_change_repeats_date] what it does when the offset changes. *)
Fixpoint datesLoop (fuel : nat) (d toDate : Z) : list Z :=
  match fuel with
  | O => []
  | S fuel' => if d <=? toDate then d :: datesLoop fuel' (d + 1) toDate else []
  end.

Definition enumDates (fromDate toDate : Z) : list Z :=
  datesLoop (Z.to_nat (toDate - fromDate + 1)) fromDate toDate.

(** [if (department && emp.department !== department) return;] *)
Definition deptSkipped (department : option string) (emp : Employee) : bool :=
  negb (falsy department)
  && negb (emp_department emp =? match department with Some d => d | None => "" end)%string.

Definition findRoster (allRos : list Roster) (emp : Employee) : option Roster :=
  find (fun r => (ros_employeeId r =? emp_id emp)%string) allRos.

Definition findAtt (allAtt : list Attendance) (emp : Employee) (date : Z)
    : option Attendance :=
  find (fun a => (att_employeeId a =? emp_id emp)%string && (att_date a =? date)) allAtt.

Definition rosterWeekOff (ros : option Roster) : string :=
  match ros with Some r => orElse (ros_weekOff r) "" | None => "" end.

Definition rosterShift (ros : option Roster) : string :=
  match ros with Some r => orElse (ros_shiftName r) "General" | None => "General" end.

Definition absentRow (emp : Employee) (ros : option Roster) (date : Z) : ReportRow :=
  mkReportRow None (emp_slpid emp) (emp_name emp) (emp_employeeId emp)
    (emp_gender emp) (emp_department emp) (emp_designation emp)
    (rosterWeekOff ros) (emp_dateOfJoining emp) date None None
    (rosterShift ros) 0 0 "A".

Definition presentRow (emp : Employee) (ros : option Roster) (att : Attendance)
    : ReportRow :=
  let totalHours :=
    match att_gateOutTime att with
    | Some gateOutTime => hoursBetween (att_gateInTime att) gateOutTime
    | None => 0%Q
    end in
  mkReportRow (Some (att_id att)) (att_slpid att) (emp_name emp) (emp_employeeId emp)
    (emp_gender emp) (att_department att) (emp_designation emp)
    (rosterWeekOff ros) (emp_dateOfJoining emp) (att_date att)
    (Some (att_gateInTime att)) (att_gateOutTime att)
    (att_shiftName att) totalHours (otHours totalHours) "P".

(** The body of [dates.forEach(date => ...)]: the records pushed for one
    employee and one date. *)
Definition recordsFor (onlyAbsent : bool) (allAtt : list Attendance)
    (emp : Employee) (ros : option Roster) (date : Z) : list ReportRow :=
  let isWeekOff := isWeekOffAt ros (dateInstant date) in
  let att := findAtt allAtt emp date in
  if onlyAbsent then
    if negb isWeekOff && isNull att then [absentRow emp ros date] else []
  else
    match att with
    | Some a => [presentRow emp ros a]
    | None => if negb isWeekOff then [absentRow emp ros date] else []
    end.

(** The body of [allEmp.forEach(emp => ...)]. *)
Definition recordsOf (department : option string) (onlyAbsent : bool)
    (allRos : list Roster) (allAtt : list Attendance) (dates : list Z)
    (emp : Employee) : list ReportRow :=
  if deptSkipped department emp then [] else
  let ros := findRoster allRos emp in
  flat_map (recordsFor onlyAbsent allAtt emp ros) dates.

(** [(a, b) => new Date(b.date).getTime() - new Date(a.date).getTime()]:
    later dates first. *)
Definition byDateDesc (a b : ReportRow) : bool := row_date b <=? row_date a.

Definition reports (fromDate toDate : option Z) (department : option string)
    (onlyAbsent : bool) : World -> Response * World :=
  handle
    (match fromDate, toDate with
     | Some fromDate, Some toDate =>
       allEmp <- selectEmployees (fun e => emp_isActive e) ;;
       allRos <- selectRosters (fun _ => true) ;;
       allAtt <- selectAttendance (fun a =>
           (fromDate <=? att_date a) && (att_date a <=? toDate)) ;;
       let dates := enumDates fromDate toDate in
       let records :=
         flat_map (recordsOf department onlyAbsent allRos allAtt dates) allEmp in
       ret (mkResponse 200 (JRecords (sortBy byDateDesc records)))
     | _, _ => ret (mkResponse 400 (JMessage "Dates required"))
     end)
    (mkResponse 500 (JMessage "Failed to fetch reports")).

(** *** [GET /api/reports/export]

    The body stands for the rows handed to the spreadsheet writer. *)

(** [const att = atts.find(a => a.date === d);
     row[d] = att ? "P" : (isWeekOff ? "WO" : "A")] *)
Definition statusCell (atts : list Attendance) (ros : option Roster) (d : Z) : string :=
  match find (fun a => att_date a =? d) atts with
  | Some _ => "P"
  | None => if isWeekOffAt ros (dateInstant d) then "WO" else "A"
  end.

Definition matrixRow (allRos : list Roster) (allAtt : list Attendance)
    (dates : list Z) (emp : Employee) : MatrixRow :=
  let ros := findRoster allRos emp in
  let atts := filter (fun a => (att_employeeId a =? emp_id emp)%string) allAtt in
  let cells := map (fun d => (d, statusCell atts ros d)) dates in
  mkMatrixRow (emp_name emp) (emp_gender emp) (emp_slpid emp) (emp_employeeId emp)
    (emp_department emp) (emp_designation emp)
    (rosterShift ros) (rosterWeekOff ros) (emp_dateOfJoining emp) cells
    (List.length (filter (fun c => (snd c =? "P")%string) cells)).

(** The rows of the absents sheet ([onlyAbsent === "true"]). *)
Definition absentSheetRows (allRos : list Roster) (allAtt : list Attendance)
    (dates : list Z) (emp : Employee) : list ReportRow :=
  let ros := findRoster allRos emp in
  flat_map (fun d =>
      if negb (isWeekOffAt ros (dateInstant d)) && isNull (findAtt allAtt emp d)
      then [absentRow emp ros d] else []) dates.

Definition reportsExport (fromDate toDate : option Z) (department : option string)
    (onlyAbsent : bool) : World -> Response * World :=
  handle
    (match fromDate, toDate with
     | Some fromDate, Some toDate =>
       allEmp <- selectEmployees (fun e => emp_isActive e) ;;
       let allEmp :=
         match department with
         | Some dept =>
           if falsy department then allEmp
           else filter (fun e => (emp_department e =? dept)%string) allEmp
         | None => allEmp
         end in
       allRos <- selectRosters (fun _ => true) ;;
       allAtt <- selectAttendance (fun a =>
           (fromDate <=? att_date a) && (att_date a <=? toDate)) ;;
       let dates := enumDates fromDate toDate in
       if onlyAbsent then
         ret (mkResponse 200
                (JRecords (flat_map (absentSheetRows allRos allAtt dates) allEmp)))
       else
         ret (mkResponse 200 (JSheet (map (matrixRow allRos allAtt dates) allEmp)))
     | _, _ => ret (mkResponse 400 (JMessage "Dates required"))
     end)
    (mkResponse 500 (JMessage "Export failed")).

End Server.

(** ** Screens

    Each handler is a function of the screen state; it returns the new state
    and the request it hands to the mutation, if any.  What a toast shows is a
    [Notice].  The list of recent entries is kept apart from the rest of the
    screen state (see [EntryScreen]); haptic feedback is left out. *)

Inductive Notice :=
| NoticeGateOut (employeeName : string) (hoursWorked : Q)
    (* success: [`${data.employeeName} - Gate Out (${data.hoursWorked}h)`] *)
| NoticeGateIn (employeeName : string)
    (* success: [`${data.employeeName || "Employee"} - Gate In recorded`] *)
| NoticeInfo (message : string)
| NoticeError (message : string).

Inductive ScanMode := Manual | Camera | Scanner.

Definition isScanner (m : ScanMode) : bool :=
  match m with Scanner => true | _ => false end.

(** The argument of [entryMutation.mutate]; it is posted to [/api/gate/entry]
    as [{ slpid: slpidValue, allowWeekOff }]. *)
Record EntryRequest := mkEntryRequest {
  slpidValue : string;
  allowWeekOff : bool
}.

Record GateScreen := mkGateScreen {
  gs_slpid : string;                (* the text field *)
  gs_lastScanned : string;          (* [lastScannedRef.current] *)
  gs_scanCooldown : bool;           (* [scanCooldownRef.current] *)
  gs_scanMode : ScanMode;
  gs_showCamera : bool;
  gs_pendingEntry : option string;  (* [{ slpid }] *)
  gs_showWeekOffModal : bool;
  gs_toast : option Notice
}.

Definition handleBarCodeScanned (st : GateScreen) (data : string)
    : GateScreen * option EntryRequest :=
  if gs_scanCooldown st then (st, None) else
  (mkGateScreen (gs_slpid st) (toUpperCase data) true (gs_scanMode st) false
     (gs_pendingEntry st) (gs_showWeekOffModal st) (gs_toast st),
   Some (mkEntryRequest (toUpperCase data) false)).

Definition handleExternalScannerInput (st : GateScreen) (text : string)
    : GateScreen * option EntryRequest :=
  if (6 <=? String.length text)%nat && isScanner (gs_scanMode st) then
    (mkGateScreen "" (toUpperCase text) (gs_scanCooldown st) (gs_scanMode st)
       (gs_showCamera st) (gs_pendingEntry st) (gs_showWeekOffModal st) (gs_toast st),
     Some (mkEntryRequest (toUpperCase text) false))
  else
    (mkGateScreen text (gs_lastScanned st) (gs_scanCooldown st) (gs_scanMode st)
       (gs_showCamera st) (gs_pendingEntry st) (gs_showWeekOffModal st) (gs_toast st),
     None).

(** [setSlpid]: typing into the text field outside scanner mode. *)
Definition setSlpid (st : GateScreen) (text : string) : GateScreen :=
  mkGateScreen text (gs_lastScanned st) (gs_scanCooldown st) (gs_scanMode st)
    (gs_showCamera st) (gs_pendingEntry st) (gs_showWeekOffModal st) (gs_toast st).

Definition handleScan (st : GateScreen) : GateScreen * option EntryRequest :=
  if (trim (gs_slpid st) =? "")%string then (st, None) else
  (mkGateScreen (gs_slpid st) (toUpperCase (trim (gs_slpid st))) (gs_scanCooldown st)
     (gs_scanMode st) (gs_showCamera st) (gs_pendingEntry st)
     (gs_showWeekOffModal st) (gs_toast st),
   Some (mkEntryRequest (toUpperCase (trim (gs_slpid st))) false)).

Definition handleWeekOffAllow (st : GateScreen) : GateScreen * option EntryRequest :=
  (mkGateScreen (gs_slpid st) (gs_lastScanned st) (gs_scanCooldown st) (gs_scanMode st)
     (gs_showCamera st) (gs_pendingEntry st) false (gs_toast st),
   match gs_pendingEntry st with
   | Some pending => Some (mkEntryRequest pending true)
   | None => None
   end).

(** [resetForm]: clears the text field and the pending entry. *)
Definition resetForm (st : GateScreen) (toast : option Notice) : GateScreen :=
  mkGateScreen "" (gs_lastScanned st) (gs_scanCooldown st) (gs_scanMode st)
    (gs_showCamera st) None (gs_showWeekOffModal st) toast.

(** [entryMutation.onSuccess]; [data] is the parsed body. *)
Definition onSuccess (st : GateScreen) (data : Body) : GateScreen :=
  match data with
  | JGateOut employeeName hoursWorked =>
      resetForm st (Some (NoticeGateOut employeeName hoursWorked))
  | JGateIn _ employeeName | JAlreadyScanned _ employeeName _ | JWeekOff _ employeeName =>
      resetForm st (Some (NoticeGateIn (orElse employeeName "Employee")))
  | _ => resetForm st (Some (NoticeGateIn "Employee"))
  end.

(** [entryMutation.onError]; [message] is [error?.message]. *)
Definition onError (st : GateScreen) (message : option string) : GateScreen :=
  let text := match message with Some m => m | None => "" end in
  if includes text "week off" then
    mkGateScreen (gs_slpid st) (gs_lastScanned st) (gs_scanCooldown st) (gs_scanMode st)
      (gs_showCamera st)
      (Some (orElse (gs_lastScanned st) (toUpperCase (gs_slpid st))))
      true (gs_toast st)
  else if includes text "already scanned" then
    resetForm st (Some (NoticeInfo "Card already scanned"))
  else
    mkGateScreen (gs_slpid st) (gs_lastScanned st) (gs_scanCooldown st) (gs_scanMode st)
      (gs_showCamera st) (gs_pendingEntry st) (gs_showWeekOffModal st)
      (Some (NoticeError (orElse text "Failed to record entry"))).

(** Gate-out screen: [handleBulkGateOut] over the selected identifiers, and
    the overtime mark of [renderEmployee]. *)
Definition handleBulkGateOut (selectedIds : list string)
    : option Notice * option (list string) :=
  if (List.length selectedIds =? 0)%nat
  then (Some (NoticeError "Please select employees to Gate Out"), None)
  else (None, Some selectedIds).

Definition isOT (hoursWorked : Q) : bool := isOvertime hoursWorked.

(** Dashboard: [filteredLive.filter((emp) => emp.hoursWorked >= 9).length] *)
Definition overtimeCount (hoursWorked : list Q) : nat :=
  List.length (filter isOvertime hoursWorked).

(** Reports screen: [handleSearch] over the two picked instants; the query it
    triggers carries the two formatted dates and the department filter. *)
Definition handleSearch (fromDate toDate : Z) (departmentFilter : string)
    : option Notice * option (Z * Z * string) :=
  if toDate <? fromDate
  then (Some (NoticeError "From date cannot be after To date"), None)
  else (None,
        Some (isoDate fromDate, isoDate toDate,
              if (departmentFilter =? "All")%string then "" else departmentFilter)).

(** ** Notions used by the statements *)

(** The employee a badge code resolves to: the first row of
    [select from employees where slpid = badge.toUpperCase() limit 1]. *)
Definition lookupEmployee (d : Db) (badge : string) : option Employee :=
  hd_error (filter (fun e => (emp_slpid e =? toUpperCase badge)%string) (employees d)).

(** A session of employee [e] with a null gate-out timestamp. *)
Definition isOpenFor (e : string) (a : Attendance) : bool :=
  (att_employeeId a =? e)%string && isNull (att_gateOutTime a).

(** The open session the gate-entry handler finds for employee [e]. *)
Definition openSession (d : Db) (e : string) : option Attendance :=
  hd_error (filter (isOpenFor e) (attendance d)).

Definition rosterOf (d : Db) (e : string) : option Roster :=
  hd_error (filter (fun r => (ros_employeeId r =? e)%string) (rosters d)).

(** Number of sessions of employee [e] with a null gate-out timestamp. *)
Definition openCount (e : string) (rows : list Attendance) : nat :=
  List.length (filter (isOpenFor e) rows).

Definition atMostOneOpen (d : Db) : Prop :=
  forall e, (openCount e (attendance d) <= 1)%nat.

(** States of the store reachable from an empty ledger when every request
    runs to its response before the next one starts: gate scans and bulk
    gate-outs, under any fault schedule, with employee and roster
    maintenance in between, which rewrites the two directory tables and
    leaves the ledger alone. *)
Inductive reachableSerial (tz : Z) : Db -> Prop :=
| serial_empty : forall emps ross, reachableSerial tz (mkDb emps ross [])
| serial_directory : forall d emps ross,
    reachableSerial tz d -> reachableSerial tz (mkDb emps ross (attendance d))
| serial_scan : forall w now newId slpid allow,
    reachableSerial tz (db w) ->
    reachableSerial tz (db (snd (gateEntry tz now newId slpid allow w)))
| serial_bulk : forall w now ids,
    reachableSerial tz (db w) ->
    reachableSerial tz (db (snd (bulkOut now ids w))).

(** *** Requests in flight

    The handler of [POST /api/gate/entry] is an [async] function.  At each
    [await db....] it gives up control until the storage operation has
    resolved, and the handler of another request can run in between; no
    transaction spans the awaits.  An [EntryTask] is where a request stands
    between two awaits, with the values it has read so far. *)
Inductive EntryTask :=
| EntryStart
    (* accepted, nothing awaited yet *)
| EntryFound (employee0 : Employee)
    (* the employee is resolved and active; next: the open-session select *)
| EntryClosing (employee0 : Employee) (activeEntry0 : Attendance)
    (* an open session of an hour or more was read; next: the update *)
| EntryFresh (employee0 : Employee)
    (* no open session was read; next: the roster select *)
| EntryOpening (employee0 : Employee) (roster : list Roster)
    (* no week-off refusal; next: the insert *)
| EntryDone (r : Response)
    (* the response is sent *).

(** A request: the body, the instant its handler reads with [new Date()]
    and the identifier it draws with [randomUUID()]. *)
Record ScanRequest := mkScanRequest {
  sr_now : Z;
  sr_newId : string;
  sr_slpid : option string;
  sr_allowWeekOff : bool
}.

(** One storage operation and the code up to the next await; a storage
    operation that throws ends the request in the [catch] block. *)
Definition await (m : M EntryTask) (w : World) : EntryTask * World :=
  match m w with
  | (Ok t, w') => (t, w')
  | (Thrown, w') => (EntryDone (mkResponse 500 (JMessage "Failed to record entry")), w')
  end.

Definition entryStep (tz : Z) (rq : ScanRequest) (t : EntryTask)
    : World -> EntryTask * World :=
  let now := sr_now rq in
  match t with
  | EntryStart =>
    if falsy (sr_slpid rq)
    then fun w => (EntryDone (mkResponse 400 (JMessage "SLPID is required")), w)
    else
      let slpid := match sr_slpid rq with Some s => s | None => "" end in
      await
        (employee <- selectEmployees (fun e => (emp_slpid e =? toUpperCase slpid)%string) ;;
         ret match limit1 employee with
             | [] => EntryDone (mkResponse 404 (JMessage "Employee not found"))
             | employee0 :: _ =>
               if negb (emp_isActive employee0)
               then EntryDone (mkResponse 403 (JMessage "Employee is inactive"))
               else EntryFound employee0
             end)
  | EntryFound employee0 =>
    await
      (activeEntry <- selectAttendance (fun a =>
           (att_employeeId a =? emp_id employee0)%string && isNull (att_gateOutTime a)) ;;
       ret match limit1 activeEntry with
           | activeEntry0 :: _ =>
             let hoursElapsed := hoursBetween (att_gateInTime activeEntry0) now in
             if Qlt_bool hoursElapsed 1 then
               EntryDone
                 (mkResponse 400
                    (JAlreadyScanned "Card already scanned" (emp_name employee0)
                       hoursElapsed))
             else EntryClosing employee0 activeEntry0
           | [] => EntryFresh employee0
           end)
  | EntryClosing employee0 activeEntry0 =>
    let hoursElapsed := hoursBetween (att_gateInTime activeEntry0) now in
    let overtime := isOvertime hoursElapsed in
    await
      (updateAttendance (fun a => (att_id a =? att_id activeEntry0)%string)
                        (setGateOut now overtime) ;;;
       ret (EntryDone (mkResponse 200 (JGateOut (emp_name employee0) hoursElapsed))))
  | EntryFresh employee0 =>
    await
      (roster <- selectRosters (fun r => (ros_employeeId r =? emp_id employee0)%string) ;;
       let roster := limit1 roster in
       let isWeekOff := isWeekOffAt tz (hd_error roster) now in
       ret (if isWeekOff && negb (sr_allowWeekOff rq) then
              EntryDone
                (mkResponse 409
                   (JWeekOff "Employee is on week off. Confirmation required."
                             (emp_name employee0)))
            else EntryOpening employee0 roster))
  | EntryOpening employee0 roster =>
    let isWeekOff := isWeekOffAt tz (hd_error roster) now in
    await
      (insertAttendance
         (mkAttendance (sr_newId rq) (emp_id employee0) (emp_slpid employee0)
            (match roster with r :: _ => ros_shiftName r | [] => "General" end)
            (emp_department employee0) (isoDate now) now None
            (isWeekOff && sr_allowWeekOff rq) false) ;;;
       ret (EntryDone
              (mkResponse 200
                 (JGateIn "Gate In recorded successfully" (emp_name employee0)))))
  | EntryDone r => fun w => (EntryDone r, w)
  end.

(** A request run from [t] without another handler in between. *)
Fixpoint runEntry (tz : Z) (rq : ScanRequest) (steps : nat) (t : EntryTask)
    (w : World) : EntryTask * World :=
  match steps with
  | O => (t, w)
  | S steps' =>
    let (t', w') := entryStep tz rq t w in
    runEntry tz rq steps' t' w'
  end.

(** The server between two steps: the store and the requests accepted so
    far, each where it stands. *)
Definition Server : Type := World * list (ScanRequest * EntryTask).

(** The request number [i] runs to its next await. *)
Definition resume (tz : Z) (i : nat) (srv : Server) : Server :=
  match nth_error (snd srv) i with
  | Some (rq, t) =>
    let (t', w') := entryStep tz rq t (fst srv) in
    (w', firstn i (snd srv) ++ (rq, t') :: skipn (S i) (snd srv))%list
  | None => srv
  end.

(** The requests resumed in the order of [schedule]. *)
Definition runSchedule (tz : Z) (schedule : list nat) (srv : Server) : Server :=
  fold_left (fun srv i => resume tz i srv) schedule srv.

(** The runs of the server from an empty ledger: requests are accepted at
    any moment and resumed in any order, one await at a time.  Bulk
    gate-outs and directory maintenance are taken as whole calls, so these
    are runs of the server, not all of them. *)
Inductive running (tz : Z) : Db -> list (ScanRequest * EntryTask) -> Prop :=
| run_empty : forall emps ross, running tz (mkDb emps ross []) []
| run_directory : forall d inflight emps ross,
    running tz d inflight -> running tz (mkDb emps ross (attendance d)) inflight
| run_accept : forall d inflight rq,
    running tz d inflight -> running tz d (inflight ++ [(rq, EntryStart)])%list
| run_resume : forall w inflight i,
    running tz (db w) inflight ->
    running tz (db (fst (resume tz i (w, inflight)))) (snd (resume tz i (w, inflight)))
| run_bulk : forall w inflight now ids,
    running tz (db w) inflight ->
    running tz (db (snd (bulkOut now ids w))) inflight.

(** The states of the store the server can reach. *)
Definition reachable (tz : Z) (d : Db) : Prop :=
  exists inflight, running tz d inflight.

(** A run of scans of one badge: each call has its own instant, drawn
    identifier and override flag. *)
Fixpoint scanAll (tz : Z) (badge : string) (calls : list (Z * string * bool))
    (w : World) : list Response * World :=
  match calls with
  | [] => ([], w)
  | (now, newId, allow) :: rest =>
    let (r, w1) := gateEntry tz now newId (Some badge) allow w in
    let (rs, w2) := scanAll tz badge rest w1 in
    (r :: rs, w2)
  end.

(** The status of an (employee, date) pair as the reports classify it. *)
Definition classify (hasSession isRestDay : bool) : string :=
  if hasSession then "P" else if isRestDay then "WO" else "A".

Definition hasSessionOn (d : Db) (emp : Employee) (date : Z) : bool :=
  existsb (fun a => (att_employeeId a =? emp_id emp)%string && (att_date a =? date))
          (attendance d).

(** The weekday name of a calendar date; 1970-01-01 was a Thursday. *)
Definition weekdayOfDate (date : Z) : string :=
  nth (Z.to_nat ((date + 4) mod 7)) weekdayNames "".

(** Whether [date] is the rest day of the roster row, letter case aside. *)
Definition isRestDay (roster : option Roster) (date : Z) : bool :=
  match roster with
  | Some r => (toLowerCase (ros_weekOff r) =? toLowerCase (weekdayOfDate date))%string
  | None => false
  end.

(** The status of an (employee, date) pair: present if a session of the
    employee is dated that day, else week-off if the date is the employee's
    rest day, else absent. *)
Definition statusOf (d : Db) (emp : Employee) (date : Z) : string :=
  classify (hasSessionOn d emp date)
           (isRestDay (findRoster (rosters d) emp) date).

(** The status as the report routes compute it: the rest-day test takes the
    weekday, in the server's zone, of the instant [new Date(date)], which is
    UTC midnight of the date. *)
Definition routeStatus (tz : Z) (d : Db) (emp : Employee) (date : Z) : string :=
  classify (hasSessionOn d emp date)
           (isWeekOffAt tz (findRoster (rosters d) emp) (dateInstant date)).

(** *** The date loop in any time zone

    [for (let d = new Date(fromDate); d <= new Date(toDate);
          d.setDate(d.getDate() + 1)) dates.push(d.toISOString().split("T")[0])]

    [setDate] works on local time: it adds one day to the local date, keeps
    the local time of day and converts back.  [offsetAt t] is the offset of
    local time from UTC at the instant [t], [offsetOfLocal l] the offset the
    conversion back picks for the local time value [l] (where a local time
    occurs twice or not at all, the offset before the change). *)
Record Zone := mkZone {
  offsetAt : Z -> Z;
  offsetOfLocal : Z -> Z
}.

(** A zone that keeps one offset. *)
Definition fixedZone (tz : Z) : Zone := mkZone (fun _ => tz) (fun _ => tz).

(** A zone whose offset goes from [before] to [after] at the instant
    [change]. *)
Definition changingZone (change before after : Z) : Zone :=
  mkZone (fun t => if t <? change then before else after)
         (fun l => if l <? change + Z.max before after then before else after).

(** [d.setDate(d.getDate() + 1)] *)
Definition nextLocalDay (z : Zone) (t : Z) : Z :=
  let l := t + offsetAt z t + msPerDay in
  l - offsetOfLocal z l.

(** The loop from the instant [d]; [None] when [fuel] iterations do not
    reach its end. *)
Fixpoint datesLoopIn (z : Zone) (fuel : nat) (d toInstant : Z) : option (list Z) :=
  match fuel with
  | O => None
  | S fuel' =>
    if d <=? toInstant
    then option_map (cons (isoDate d)) (datesLoopIn z fuel' (nextLocalDay z d) toInstant)
    else Some []
  end.

(** US Eastern time around the clock change of Sunday 2024-03-10 (day
    19792), 07:00 UTC: five hours behind UTC before it, four after. *)
Definition easternSpring : Zone :=
  changingZone (19792 * msPerDay + 7 * 3600000) (- 5 * 3600000) (- 4 * 3600000).

(** The employees a report covers: active, and in the department when a
    filter is given. *)
Definition reportEmployees (d : Db) (department : option string) : list Employee :=
  filter (fun e => negb (deptSkipped department e))
         (filter (fun e => emp_isActive e) (employees d)).

(** The decision table of [POST /api/gate/entry]: the response and the store
    after a call, against the store [d] before it. *)
Inductive gateSpec (tz now : Z) (newId : string) (slpid : option string)
    (allow : bool) (d : Db) : Response -> Db -> Prop :=
| gate_validation :
    falsy slpid = true ->
    gateSpec tz now newId slpid allow d
      (mkResponse 400 (JMessage "SLPID is required")) d
| gate_storage :
    gateSpec tz now newId slpid allow d
      (mkResponse 500 (JMessage "Failed to record entry")) d
| gate_not_found : forall badge,
    slpid = Some badge ->
    lookupEmployee d badge = None ->
    gateSpec tz now newId slpid allow d
      (mkResponse 404 (JMessage "Employee not found")) d
| gate_inactive : forall badge emp,
    slpid = Some badge ->
    lookupEmployee d badge = Some emp ->
    emp_isActive emp = false ->
    gateSpec tz now newId slpid allow d
      (mkResponse 403 (JMessage "Employee is inactive")) d
| gate_duplicate : forall badge emp act,
    slpid = Some badge ->
    lookupEmployee d badge = Some emp ->
    emp_isActive emp = true ->
    openSession d (emp_id emp) = Some act ->
    now - att_gateInTime act < 3600000 ->
    gateSpec tz now newId slpid allow d
      (mkResponse 400
         (JAlreadyScanned "Card already scanned" (emp_name emp)
            (hoursBetween (att_gateInTime act) now))) d
| gate_out : forall badge emp act,
    slpid = Some badge ->
    lookupEmployee d badge = Some emp ->
    emp_isActive emp = true ->
    openSession d (emp_id emp) = Some act ->
    3600000 <= now - att_gateInTime act ->
    gateSpec tz now newId slpid allow d
      (mkResponse 200
         (JGateOut (emp_name emp) (hoursBetween (att_gateInTime act) now)))
      (mkDb (employees d) (rosters d)
         (updateRows (fun a => (att_id a =? att_id act)%string)
            (setGateOut now (32400000 <=? now - att_gateInTime act))
            (attendance d)))
| gate_week_off : forall badge emp,
    slpid = Some badge ->
    lookupEmployee d badge = Some emp ->
    emp_isActive emp = true ->
    openSession d (emp_id emp) = None ->
    isWeekOffAt tz (rosterOf d (emp_id emp)) now = true ->
    allow = false ->
    gateSpec tz now newId slpid allow d
      (mkResponse 409
         (JWeekOff "Employee is on week off. Confirmation required." (emp_name emp))) d
| gate_in : forall badge emp,
    slpid = Some badge ->
    lookupEmployee d badge = Some emp ->
    emp_isActive emp = true ->
    openSession d (emp_id emp) = None ->
    isWeekOffAt tz (rosterOf d (emp_id emp)) now && negb allow = false ->
    gateSpec tz now newId slpid allow d
      (mkResponse 200 (JGateIn "Gate In recorded successfully" (emp_name emp)))
      (mkDb (employees d) (rosters d)
         (attendance d ++
          [mkAttendance newId (emp_id emp) (emp_slpid emp)
             (match rosterOf d (emp_id emp) with
              | Some r => ros_shiftName r
              | None => "General"
              end)
             (emp_department emp) (isoDate now) now None
             (isWeekOffAt tz (rosterOf d (emp_id emp)) now && allow) false])).

(** [body.message]: the message text a response of the gate-entry route
    carries. *)
Definition bodyMessage (b : Body) : string :=
  match b with
  | JMessage message
  | JAlreadyScanned message _ _
  | JWeekOff message _
  | JGateIn message _ => message
  | _ => ""
  end.

(** The state of the gate-entry screen with the week-off confirmation open
    for the badge code last submitted. *)
Definition weekOffPrompt (st : GateScreen) : GateScreen :=
  mkGateScreen (gs_slpid st) (gs_lastScanned st) (gs_scanCooldown st) (gs_scanMode st)
    (gs_showCamera st)
    (Some (orElse (gs_lastScanned st) (toUpperCase (gs_slpid st))))
    true (gs_toast st).

(** Which statuses a report lists: the plain list leaves out the rest days
    without attendance, the only-absences list keeps the absences alone. *)
Definition listed (onlyAbsent : bool) (status : string) : bool :=
  if onlyAbsent then (status =? "A")%string else negb (status =? "WO")%string.

(** What identifies a report row in the statements: the employee code, the
    date and the status. *)
Definition rowKey (r : ReportRow) : string * Z * string :=
  (row_employeeIdCode r, row_date r, row_status r).

Definition pairKey (d : Db) (p : Employee * Z) : string * Z * string :=
  (emp_employeeId (fst p), snd p, statusOf d (fst p) (snd p)).

(** The same with the status as the routes compute it. *)
Definition routeKey (tz : Z) (d : Db) (p : Employee * Z) : string * Z * string :=
  (emp_employeeId (fst p), snd p, routeStatus tz d (fst p) (snd p)).

(** ** A sample store

    One employee, badge [SLP001], department Inbound, rest day Sunday.
    Day 19725 is Wednesday 2024-01-03 and day 19729 is Sunday 2024-01-07. *)

Definition sampleEmployee : Employee :=
  mkEmployee "u1" "SLP001" "EMP001" "E1" "Male" "Inbound" "Associate" "2023-01-15" true.

Definition sampleRoster : Roster := mkRoster "r1" "u1" "Morning" "Sunday".

Definition sampleDb : Db := mkDb [sampleEmployee] [sampleRoster] [].

Definition sampleWorld : World := mkWorld sampleDb [] None.

(** Wednesday 09:00 UTC. *)
Definition wednesday9 : Z := 19725 * msPerDay + 9 * 3600000.

(** Sunday 09:00 UTC. *)
Definition sunday9 : Z := 19729 * msPerDay + 9 * 3600000.

(** The session opened by a scan on Wednesday 09:00. *)
Definition sampleSession : Attendance :=
  mkAttendance "a1" "u1" "SLP001" "Morning" "Inbound" 19725 wednesday9 None false false.

(** The store after that scan. *)
Definition sampleWorldIn : World :=
  mkWorld (mkDb [sampleEmployee] [sampleRoster] [sampleSession]) [] None.

(** A ledger with one open session [s1] and one session [s2] that was closed
    two hours after its gate-in, not overtime. *)
Definition openRow : Attendance :=
  mkAttendance "s1" "u1" "SLP001" "Morning" "Inbound" 19725 wednesday9 None false false.

Definition closedRow : Attendance :=
  mkAttendance "s2" "u2" "SLP002" "Evening" "Outbound" 19725 wednesday9
    (Some (wednesday9 + 7200000)) false false.

Definition bulkWorld : World :=
  mkWorld (mkDb [sampleEmployee] [sampleRoster] [openRow; closedRow]) [] None.

(** Wednesday 19:00 UTC, ten hours after both gate-ins. *)
Definition wednesday19 : Z := wednesday9 + 36000000.

(** Two employees with rest day Sunday; the second was present on Thursday
    2024-01-04 (day 19726) from 09:00 to 18:00. *)
Definition secondEmployee : Employee :=
  mkEmployee "u2" "SLP002" "EMP002" "E2" "Female" "Outbound" "Associate" "2023-02-20" true.

Definition secondRoster : Roster := mkRoster "r2" "u2" "Evening" "Sunday".

Definition thursdayRow : Attendance :=
  mkAttendance "a7" "u2" "SLP002" "Evening" "Outbound" 19726
    (19726 * msPerDay + 9 * 3600000) (Some (19726 * msPerDay + 18 * 3600000))
    false true.

Definition reportWorld : World :=
  mkWorld (mkDb [sampleEmployee; secondEmployee] [sampleRoster; secondRoster]
                [thursdayRow])
          [] None.

(** Two scans of the badge of [sampleEmployee], one second apart. *)
Definition scanA : ScanRequest := mkScanRequest wednesday9 "n1" (Some "SLP001") false.
Definition scanB : ScanRequest :=
  mkScanRequest (wednesday9 + 1000) "n2" (Some "slp001") false.

(** The gate-entry screen in scanner mode, nothing typed or scanned yet. *)
Definition scannerScreen : GateScreen :=
  mkGateScreen "" "" false Scanner false None false None.

(** Five code units: "abcd" followed by U+00DF. *)
Definition sharpBadge : string := "abcd" ++ String "223" "".

(** ** Further notions for the gate routes *)

(** What identifies a session and never changes once it is recorded. *)
Definition sessionKey (a : Attendance) : string * string * Z * Z :=
  (att_id a, att_employeeId a, att_date a, att_gateInTime a).

(** A row and its later state: the same session, and closed if it was. *)
Definition evolves (a a' : Attendance) : Prop :=
  sessionKey a = sessionKey a'
  /\ att_slpid a = att_slpid a'
  /\ att_isWeekOffEntry a = att_isWeekOffEntry a'
  /\ (att_gateOutTime a <> None -> att_gateOutTime a' <> None).

(** A session closed at [now] with the overtime flag of its own gate-in. *)
Definition closeRow (now : Z) (a : Attendance) : Attendance :=
  setGateOut now (isOvertime (hoursBetween (att_gateInTime a) now)) a.

Definition listedIn (ids : list string) (a : Attendance) : bool :=
  existsb (String.eqb (att_id a)) ids.

(** The ledger with every listed session closed at [now]. *)
Definition closeListed (now : Z) (ids : list string) (rows : list Attendance)
    : list Attendance :=
  map (fun a => if listedIn ids a then closeRow now a else a) rows.

(** The row a gate-in appends. *)
Definition openedRow (tz now : Z) (newId : string) (allow : bool) (d : Db)
    (emp : Employee) : Attendance :=
  mkAttendance newId (emp_id emp) (emp_slpid emp)
    (match rosterOf d (emp_id emp) with
     | Some r => ros_shiftName r
     | None => "General"
     end)
    (emp_department emp) (isoDate now) now None
    (isWeekOffAt tz (rosterOf d (emp_id emp)) now && allow) false.

(** The hours of one report row. *)
Definition rowHoursOk (r : ReportRow) : Prop :=
  row_otHours r = otHours (row_totalHours r)
  /\ (0 <= row_otHours r)%Q
  /\ (row_gateOutTime r = None -> row_totalHours r = 0%Q)
  /\ (row_status r = "A" -> row_totalHours r = 0%Q /\ row_gateInTime r = None).

(** ** Roles and the employee routes *)

(** The fields of [req.session] the routes use. *)
Record Session := mkSession {
  sess_userId : option string;
  sess_userRole : option string
}.

(** [checkRole(roles)]: whether the middleware calls [next()]; otherwise it
    answers 403 "Unauthorized access". *)
Definition checkRole (roles : list string) (session : Session) : bool :=
  match sess_userRole session with
  | Some role =>
    let userRole := toLowerCase role in
    let normalizedRoles := map toLowerCase roles in
    negb ((userRole =? "")%string)
    && existsb (String.eqb userRole) normalizedRoles
  | None => false
  end.

Inductive DirBody :=
| DMessage (message : string)
| DEmployee (employee : Employee).

Record DirResponse := mkDirResponse { dir_status : Z; dir_body : DirBody }.

(** A route behind [checkRole(roles)]. *)
Definition guarded {R} (roles : list string) (denied : R)
    (route : World -> R * World) (session : Session) (w : World) : R * World :=
  if checkRole roles session then route w else (denied, w).

Definition unauthorized : DirResponse :=
  mkDirResponse 403 (DMessage "Unauthorized access").

(** A [TypeError] raised by the handler itself, such as [undefined.toUpperCase()]. *)
Definition throwError {A} : M A := fun w => (Thrown, w).

Definition handleDir (m : M DirResponse) (onError : DirResponse) (w : World)
    : DirResponse * World :=
  match m w with
  | (Ok r, w') => (r, w')
  | (Thrown, w') => (onError, w')
  end.

(** [db.insert(employees).values(e).returning()] *)
Definition insertEmployee (e : Employee) : M (list Employee) :=
  storage (OpInsert Employees) ;;;
  d <- getDb ;;
  putDb (mkDb (employees d ++ [e]) (rosters d) (attendance d)) ;;;
  ret [e].

Definition insertRoster (r : Roster) : M unit :=
  storage (OpInsert Rosters) ;;;
  d <- getDb ;;
  putDb (mkDb (employees d) (rosters d ++ [r]) (attendance d)).

(** [db.update(employees).set(...).where(p).returning()] *)
Definition updateEmployees (p : Employee -> bool) (f : Employee -> Employee)
    : M (list Employee) :=
  storage (OpUpdate Employees) ;;;
  d <- getDb ;;
  putDb (mkDb (map (fun e => if p e then f e else e) (employees d))
              (rosters d) (attendance d)) ;;;
  ret (map f (filter p (employees d))).

(** The body of [POST /api/employees]; an absent field is [None]. *)
Record NewEmployee := mkNewEmployee {
  ne_name : string;
  ne_slpid : option string;
  ne_employeeId : option string;
  ne_gender : string;
  ne_department : string;
  ne_designation : option string;
  ne_dateOfJoining : string;
  ne_isActive : option bool;
  ne_weekOff : option string;
  ne_shiftName : option string
}.

(** [v || dflt] for an optional string. *)
Definition orDefault (v : option string) (dflt : string) : string :=
  match v with Some s => orElse s dflt | None => dflt end.

(** [POST /api/employees].  [newId] and [rosterId] are the two identifiers
    drawn by [randomUUID()].  Of the roster row, the columns read by the
    routes modelled here are kept (identifier, employee, shift, rest day). *)
Definition createEmployeeBody (newId rosterId : string) (body : NewEmployee)
    : M DirResponse :=
  match ne_slpid body with
  | None => throwError
  | Some slpid =>
    existing <- selectEmployees (fun e => (emp_slpid e =? toUpperCase slpid)%string) ;;
    match limit1 existing with
    | _ :: _ =>
      ret (mkDirResponse 400 (DMessage "Employee with this SLPID already exists"))
    | [] =>
      match ne_employeeId body with
      | None => throwError
      | Some employeeId =>
        newEmployee <- insertEmployee
          (mkEmployee newId (toUpperCase slpid) (toUpperCase employeeId)
             (ne_name body) (ne_gender body) (ne_department body)
             (orDefault (ne_designation body) "Associate")
             (ne_dateOfJoining body)
             (match ne_isActive body with Some b => b | None => true end)) ;;
        match newEmployee with
        | newEmployee0 :: _ =>
          insertRoster
            (mkRoster rosterId (emp_id newEmployee0)
               (orDefault (ne_shiftName body) "General")
               (orDefault (ne_weekOff body) "Sunday")) ;;;
          ret (mkDirResponse 201 (DEmployee newEmployee0))
        | [] => throwError
        end
      end
    end
  end.

Definition createEmployee (newId rosterId : string) (body : NewEmployee)
    : Session -> World -> DirResponse * World :=
  guarded ["admin"; "manager"; "mis"] unauthorized
    (handleDir (createEmployeeBody newId rosterId body)
       (mkDirResponse 500 (DMessage "Failed to create employee"))).

(** The body of [PUT /api/employees/:id]; [set] leaves the column of an
    absent field as it is. *)
Record EmployeeEdit := mkEmployeeEdit {
  ed_name : option string;
  ed_gender : option string;
  ed_department : option string;
  ed_designation : option string;
  ed_isActive : option bool
}.

Definition orKeep {A} (v : option A) (old : A) : A :=
  match v with Some x => x | None => old end.

Definition applyEdit (edit : EmployeeEdit) (e : Employee) : Employee :=
  mkEmployee (emp_id e) (emp_slpid e) (emp_employeeId e)
    (orKeep (ed_name edit) (emp_name e))
    (orKeep (ed_gender edit) (emp_gender e))
    (orKeep (ed_department edit) (emp_department e))
    (orKeep (ed_designation edit) (emp_designation e))
    (emp_dateOfJoining e)
    (orKeep (ed_isActive edit) (emp_isActive e)).

(** [PUT /api/employees/:id], for a body with at least one field. *)
Definition updateEmployee (id : string) (edit : EmployeeEdit)
    : Session -> World -> DirResponse * World :=
  guarded ["admin"; "manager"; "mis"] unauthorized
    (handleDir
       (updated <- updateEmployees (fun e => (emp_id e =? id)%string) (applyEdit edit) ;;
        match updated with
        | [] => ret (mkDirResponse 404 (DMessage "Employee not found"))
        | updated0 :: _ => ret (mkDirResponse 200 (DEmployee updated0))
        end)
       (mkDirResponse 500 (DMessage "Failed to update employee"))).

(** The add-employee screen: [handleSubmit] over the form fields; the date
    of joining is the formatted date. *)
Record EmployeeForm := mkEmployeeForm {
  form_name : string;
  form_slpid : string;
  form_employeeId : string;
  form_gender : string;
  form_department : string;
  form_shiftName : string;
  form_weekOff : string;
  form_dateOfJoining : string
}.

Definition handleSubmit (form : EmployeeForm) : option Notice * option NewEmployee :=
  if (trim (form_name form) =? "")%string
     || (trim (form_slpid form) =? "")%string
     || (trim (form_employeeId form) =? "")%string
     || (form_gender form =? "")%string
     || (form_department form =? "")%string
  then (Some (NoticeError "Please fill in all fields"), None)
  else (None,
        Some (mkNewEmployee (trim (form_name form))
                (Some (toUpperCase (trim (form_slpid form))))
                (Some (toUpperCase (trim (form_employeeId form))))
                (form_gender form) (form_department form) None
                (form_dateOfJoining form) (Some true)
                (Some (form_weekOff form)) (Some (form_shiftName form)))).

(** ** Accounts: the tables [users] and [passwordResetRequests]

    The account routes run in the same kind of monad as the attendance
    routes, over their own store.  Passwords are compared as stored. *)

Record User := mkUser {
  usr_id : string;
  usr_username : string;
  usr_password : string;
  usr_name : string;
  usr_role : string;
  usr_isActive : bool;
  usr_isLocked : bool;
  usr_failedLoginAttempts : Z;
  usr_mustChangePassword : bool
}.

Record ResetRequest := mkResetRequest {
  rq_id : string;
  rq_userId : string;
  rq_username : string;
  rq_status : string;
  rq_resolvedAt : option Z;
  rq_resolvedBy : option string
}.

Record AuthDb := mkAuthDb {
  users : list User;
  resetRequests : list ResetRequest
}.

Inductive AuthOp :=
| UsersSelect
| UsersUpdate
| UsersDelete
| RequestsSelect
| RequestsInsert
| RequestsUpdate.

Record AuthWorld := mkAuthWorld {
  adb : AuthDb;
  alog : list AuthOp;
  afault : option nat
}.

Definition AM (A : Type) : Type := AuthWorld -> Result A * AuthWorld.

Definition aret {A} (a : A) : AM A := fun w => (Ok a, w).

Definition abind {A B} (m : AM A) (k : A -> AM B) : AM B :=
  fun w =>
    match m w with
    | (Ok a, w') => k a w'
    | (Thrown, w') => (Thrown, w')
    end.

Notation "x <~ m ;; k" := (abind m (fun x => k))
  (at level 61, m at next level, right associativity).

Definition astorage (op : AuthOp) : AM unit :=
  fun w =>
    match afault w with
    | Some O => (Thrown, mkAuthWorld (adb w) (alog w ++ [op]) None)
    | Some (S k) => (Ok tt, mkAuthWorld (adb w) (alog w ++ [op]) (Some k))
    | None => (Ok tt, mkAuthWorld (adb w) (alog w ++ [op]) None)
    end.

(** A read of the store. *)
Definition aquery {A} (op : AuthOp) (f : AuthDb -> A) : AM A :=
  _ <~ astorage op ;;
  fun w => (Ok (f (adb w)), w).

(** A write of the store that returns the rows it affected. *)
Definition acommand {A} (op : AuthOp) (f : AuthDb -> AuthDb * A) : AM A :=
  _ <~ astorage op ;;
  fun w => (Ok (snd (f (adb w))),
            mkAuthWorld (fst (f (adb w))) (alog w) (afault w)).

Definition selectUsers (p : User -> bool) : AM (list User) :=
  aquery UsersSelect (fun d => filter p (users d)).

Definition selectRequests (p : ResetRequest -> bool) : AM (list ResetRequest) :=
  aquery RequestsSelect (fun d => filter p (resetRequests d)).

(** [db.update(users).set(...).where(p).returning()] *)
Definition updateUsers (p : User -> bool) (g : User -> User) : AM (list User) :=
  acommand UsersUpdate (fun d =>
    (mkAuthDb (map (fun u => if p u then g u else u) (users d)) (resetRequests d),
     map g (filter p (users d)))).

Definition deleteUsers (p : User -> bool) : AM unit :=
  acommand UsersDelete (fun d =>
    (mkAuthDb (filter (fun u => negb (p u)) (users d)) (resetRequests d), tt)).

Definition insertRequest (r : ResetRequest) : AM unit :=
  acommand RequestsInsert (fun d =>
    (mkAuthDb (users d) (resetRequests d ++ [r]), tt)).

Definition updateRequests (p : ResetRequest -> bool) (g : ResetRequest -> ResetRequest)
    : AM unit :=
  acommand RequestsUpdate (fun d =>
    (mkAuthDb (users d) (map (fun r => if p r then g r else r) (resetRequests d)), tt)).

Inductive AuthBody :=
| AMessage (message : string)
| AInvalid (remaining : Z)
    (* [`Invalid credentials. ${3 - newAttempts} attempt(s) remaining.`] *)
| ALoggedIn (id username name role : string) (mustChangePassword : bool).

Record AuthResponse := mkAuthResponse { auth_status : Z; auth_body : AuthBody }.

Definition ahandle {R} (m : AM R) (onError : R) (w : AuthWorld) : R * AuthWorld :=
  match m w with
  | (Ok r, w') => (r, w')
  | (Thrown, w') => (onError, w')
  end.

Definition aguarded {R} (roles : list string) (denied : R)
    (route : AuthWorld -> R * AuthWorld) (session : Session) (w : AuthWorld)
    : R * AuthWorld :=
  if checkRole roles session then route w else (denied, w).

Definition lockedMessage : AuthBody :=
  AMessage "Your account is locked. Please contact Admin.".

Definition setAttempts (attempts : Z) (locked : bool) (u : User) : User :=
  mkUser (usr_id u) (usr_username u) (usr_password u) (usr_name u) (usr_role u)
    (usr_isActive u) locked attempts (usr_mustChangePassword u).

Definition resetAttempts (u : User) : User :=
  mkUser (usr_id u) (usr_username u) (usr_password u) (usr_name u) (usr_role u)
    (usr_isActive u) (usr_isLocked u) 0 (usr_mustChangePassword u).

(** [POST /api/auth/login]: the response and the session after the call. *)
Definition login (username password : option string) (session : Session)
    : AuthWorld -> (AuthResponse * Session) * AuthWorld :=
  ahandle
    (if falsy username || falsy password then
       aret (mkAuthResponse 400 (AMessage "Username and password are required"), session)
     else
       let username := match username with Some s => s | None => "" end in
       let password := match password with Some s => s | None => "" end in
       user <~ selectUsers (fun u => (usr_username u =? username)%string) ;;
       match limit1 user with
       | [] => aret (mkAuthResponse 401 (AMessage "Invalid credentials"), session)
       | user0 :: _ =>
         if usr_isLocked user0 then aret (mkAuthResponse 403 lockedMessage, session)
         else if negb (usr_isActive user0) then
           aret (mkAuthResponse 403 (AMessage "Account is inactive"), session)
         else if negb (usr_password user0 =? password)%string then
           let newAttempts := usr_failedLoginAttempts user0 + 1 in
           let shouldLock := 3 <=? newAttempts in
           _ <~ updateUsers (fun u => (usr_id u =? usr_id user0)%string)
                            (setAttempts newAttempts shouldLock) ;;
           if shouldLock then aret (mkAuthResponse 403 lockedMessage, session)
           else aret (mkAuthResponse 401 (AInvalid (3 - newAttempts)), session)
         else
           _ <~ updateUsers (fun u => (usr_id u =? usr_id user0)%string) resetAttempts ;;
           aret (mkAuthResponse 200
                   (ALoggedIn (usr_id user0) (usr_username user0) (usr_name user0)
                      (usr_role user0) (usr_mustChangePassword user0)),
                 mkSession (Some (usr_id user0)) (Some (toLowerCase (usr_role user0))))
       end)
    (mkAuthResponse 500 (AMessage "Internal server error"), session).

Definition denied : AuthResponse := mkAuthResponse 403 (AMessage "Unauthorized access").

Definition unlockUser (u : User) : User :=
  mkUser (usr_id u) (usr_username u) (usr_password u) (usr_name u) (usr_role u)
    (usr_isActive u) false 0 (usr_mustChangePassword u).

(** [POST /api/users/:id/unlock] *)
Definition unlock (id : string) : Session -> AuthWorld -> AuthResponse * AuthWorld :=
  aguarded ["admin"] denied
    (ahandle
       (updated <~ updateUsers (fun u => (usr_id u =? id)%string) unlockUser ;;
        match updated with
        | [] => aret (mkAuthResponse 404 (AMessage "User not found"))
        | _ :: _ => aret (mkAuthResponse 200 (AMessage "Account unlocked successfully"))
        end)
       (mkAuthResponse 500 (AMessage "Failed to unlock account"))).

Definition welcomeUser (u : User) : User :=
  mkUser (usr_id u) (usr_username u) "Welcome" (usr_name u) (usr_role u)
    (usr_isActive u) false 0 true.

(** [POST /api/users/:id/reset-password] *)
Definition resetPassword (id : string) : Session -> AuthWorld -> AuthResponse * AuthWorld :=
  aguarded ["admin"] denied
    (ahandle
       (updated <~ updateUsers (fun u => (usr_id u =? id)%string) welcomeUser ;;
        match updated with
        | [] => aret (mkAuthResponse 404 (AMessage "User not found"))
        | _ :: _ =>
          aret (mkAuthResponse 200
                  (AMessage "Password reset to 'Welcome'. User must change password on next login."))
        end)
       (mkAuthResponse 500 (AMessage "Failed to reset password"))).

Definition setPassword (password : string) (u : User) : User :=
  mkUser (usr_id u) (usr_username u) password (usr_name u) (usr_role u)
    (usr_isActive u) (usr_isLocked u) (usr_failedLoginAttempts u) false.

(** [POST /api/auth/change-password] *)
Definition changePassword (currentPassword newPassword : option string)
    (session : Session) : AuthWorld -> AuthResponse * AuthWorld :=
  ahandle
    (if falsy (sess_userId session) then
       aret (mkAuthResponse 401 (AMessage "Not authenticated"))
     else
       let userId := match sess_userId session with Some s => s | None => "" end in
       if falsy currentPassword || falsy newPassword then
         aret (mkAuthResponse 400 (AMessage "Current and new password are required"))
       else
         let currentPassword := match currentPassword with Some s => s | None => "" end in
         let newPassword := match newPassword with Some s => s | None => "" end in
         user <~ selectUsers (fun u => (usr_id u =? userId)%string) ;;
         match limit1 user with
         | [] => aret (mkAuthResponse 404 (AMessage "User not found"))
         | user0 :: _ =>
           if negb (usr_password user0 =? currentPassword)%string then
             aret (mkAuthResponse 401 (AMessage "Current password is incorrect"))
           else
             _ <~ updateUsers (fun u => (usr_id u =? userId)%string)
                              (setPassword newPassword) ;;
             aret (mkAuthResponse 200 (AMessage "Password changed successfully"))
         end)
    (mkAuthResponse 500 (AMessage "Failed to change password")).

Definition isPending (r : ResetRequest) : bool := (rq_status r =? "pending")%string.

(** [POST /api/auth/forgot-password]; [newId] is the identifier drawn by
    [randomUUID()]. *)
Definition forgotPassword (newId : string) (username : option string)
    : AuthWorld -> AuthResponse * AuthWorld :=
  ahandle
    (if falsy username then aret (mkAuthResponse 400 (AMessage "User ID is required"))
     else
       let username := match username with Some s => s | None => "" end in
       user <~ selectUsers (fun u => (usr_username u =? username)%string) ;;
       match limit1 user with
       | [] =>
         aret (mkAuthResponse 404
                 (AMessage "User ID not found. Please contact administrator."))
       | user0 :: _ =>
         existingRequest <~ selectRequests (fun r =>
             (rq_userId r =? usr_id user0)%string && isPending r) ;;
         match limit1 existingRequest with
         | _ :: _ =>
           aret (mkAuthResponse 400
                   (AMessage "A reset request is already pending. Please wait for Admin approval."))
         | [] =>
           _ <~ insertRequest
                  (mkResetRequest newId (usr_id user0) (usr_username user0)
                     "pending" None None) ;;
           aret (mkAuthResponse 200
                   (AMessage "Password reset request submitted. Please wait for Admin approval."))
         end
       end)
    (mkAuthResponse 500 (AMessage "Failed to submit reset request")).

Definition resolveRequest (status : string) (now : Z) (by_ : option string)
    (r : ResetRequest) : ResetRequest :=
  mkResetRequest (rq_id r) (rq_userId r) (rq_username r) status (Some now) by_.

(** [POST /api/password-reset-requests/:id/approve] *)
Definition approveRequest (now : Z) (id : string) (session : Session)
    : AuthWorld -> AuthResponse * AuthWorld :=
  aguarded ["admin"] denied
    (ahandle
       (request <~ selectRequests (fun r => (rq_id r =? id)%string) ;;
        match limit1 request with
        | [] => aret (mkAuthResponse 404 (AMessage "Request not found"))
        | request0 :: _ =>
          if negb (isPending request0) then
            aret (mkAuthResponse 400 (AMessage "Request already processed"))
          else
            _ <~ updateUsers (fun u => (usr_id u =? rq_userId request0)%string)
                             welcomeUser ;;
            _ <~ updateRequests (fun r => (rq_id r =? id)%string)
                   (resolveRequest "approved" now (sess_userId session)) ;;
            aret (mkAuthResponse 200
                    (AMessage "Password reset approved. User's password is now 'Welcome'."))
        end)
       (mkAuthResponse 500 (AMessage "Failed to approve reset request")))
    session.

(** [POST /api/password-reset-requests/:id/reject] *)
Definition rejectRequest (now : Z) (id : string) (session : Session)
    : AuthWorld -> AuthResponse * AuthWorld :=
  aguarded ["admin"] denied
    (ahandle
       (request <~ selectRequests (fun r => (rq_id r =? id)%string) ;;
        match limit1 request with
        | [] => aret (mkAuthResponse 404 (AMessage "Request not found"))
        | request0 :: _ =>
          if negb (isPending request0) then
            aret (mkAuthResponse 400 (AMessage "Request already processed"))
          else
            _ <~ updateRequests (fun r => (rq_id r =? id)%string)
                   (resolveRequest "rejected" now (sess_userId session)) ;;
            aret (mkAuthResponse 200 (AMessage "Password reset request rejected."))
        end)
       (mkAuthResponse 500 (AMessage "Failed to reject reset request")))
    session.

(** [DELETE /api/users/:id] *)
Definition deleteUser (id : string) (session : Session)
    : AuthWorld -> AuthResponse * AuthWorld :=
  aguarded ["admin"] denied
    (ahandle
       (if match sess_userId session with
           | Some currentUserId => (id =? currentUserId)%string
           | None => false
           end
        then aret (mkAuthResponse 400 (AMessage "You cannot delete your own account"))
        else
          _ <~ deleteUsers (fun u => (usr_id u =? id)%string) ;;
          aret (mkAuthResponse 200 (AMessage "User deleted successfully")))
       (mkAuthResponse 500 (AMessage "Failed to delete user")))
    session.

(** The account a user name resolves to at login. *)
Definition findUser (d : AuthDb) (username : string) : option User :=
  hd_error (filter (fun u => (usr_username u =? username)%string) (users d)).

Definition pendingFor (userId : string) (d : AuthDb) : list ResetRequest :=
  filter (fun r => (rq_userId r =? userId)%string && isPending r) (resetRequests d).

(** A run of login attempts for one user name, one request each. *)
Fixpoint loginAll (username : string) (passwords : list string) (session : Session)
    (w : AuthWorld) : list AuthResponse * AuthWorld :=
  match passwords with
  | [] => ([], w)
  | password :: rest =>
    let '(r, _, w1) := login (Some username) (Some password) session w in
    let (rs, w2) := loginAll username rest session w1 in
    (r :: rs, w2)
  end.

(** The account a user id resolves to. *)
Definition findUserById (d : AuthDb) (id : string) : option User :=
  hd_error (filter (fun u => (usr_id u =? id)%string) (users d)).

Definition findRequest (d : AuthDb) (id : string) : option ResetRequest :=
  hd_error (filter (fun r => (rq_id r =? id)%string) (resetRequests d)).

Definition atMostOnePending (d : AuthDb) : Prop :=
  forall userId, (List.length (pendingFor userId d) <= 1)%nat.

(** A sample account store: the administrator of the seed script, and a
    second account that is locked. *)
Definition sampleAdmin : User :=
  mkUser "a1" "admin" "admin123" "System Administrator" "admin" true false 0 false.

Definition lockedUser : User :=
  mkUser "s1" "supervisor" "super123" "John Supervisor" "supervisor" true true 3 false.

Definition sampleAuthWorld : AuthWorld :=
  mkAuthWorld (mkAuthDb [sampleAdmin; lockedUser]
                 [mkResetRequest "q1" "s1" "supervisor" "pending" None None])
              [] None.

Definition adminSession : Session := mkSession (Some "a1") (Some "admin").

(** ** Gate-out screen: the selection

    [selectedIds] is a JavaScript [Set] of attendance identifiers; it is
    held as the list of its elements in insertion order, which is the order
    [Array.from(selectedIds)] hands to the mutation. *)

Definition setHas (s : list string) (x : string) : bool :=
  existsb (String.eqb x) s.

Definition setAdd (s : list string) (x : string) : list string :=
  if setHas s x then s else (s ++ [x])%list.

Definition setDelete (s : list string) (x : string) : list string :=
  filter (fun y => negb (y =? x)%string) s.

(** [new Set(xs)] *)
Definition setOf (xs : list string) : list string := fold_left setAdd xs [].

Definition toggleSelection (selectedIds : list string) (id : string) : list string :=
  if setHas selectedIds id then setDelete selectedIds id else setAdd selectedIds id.

Definition selectAll (selectedIds : list string) (presentEmployees : list PresentRow)
    : list string :=
  if (List.length selectedIds =? List.length presentEmployees)%nat then []
  else setOf (map pr_attendanceId presentEmployees).

(** What changes the selection: a tap on a row, the select-all button, and
    the success of the gate-out mutation, which empties it. *)
Inductive SelectionEvent :=
| TapRow (id : string)
| TapSelectAll (presentEmployees : list PresentRow)
| GateOutSucceeded.

Definition selectionStep (selectedIds : list string) (e : SelectionEvent)
    : list string :=
  match e with
  | TapRow id => toggleSelection selectedIds id
  | TapSelectAll presentEmployees => selectAll selectedIds presentEmployees
  | GateOutSucceeded => []
  end.

(** ** Gate-entry screen: the recent entries

    [setRecentEntries((prev) => [newEntry, ...prev.slice(0, 9)])] *)
Definition addRecentEntry {A} (newEntry : A) (prev : list A) : list A :=
  newEntry :: firstn 9 prev.

(** An entry of the list; [re_at] is the instant [Date.now()] that the
    screen renders into [id] and [time]. *)
Record RecentEntry := mkRecentEntry {
  re_at : Z;
  re_name : string;
  re_slpid : string;
  re_status : string
}.

(** [data.employeeName]; the empty string where the body has none. *)
Definition employeeNameOf (data : Body) : string :=
  match data with
  | JGateOut employeeName _
  | JGateIn _ employeeName
  | JAlreadyScanned _ employeeName _
  | JWeekOff _ employeeName => employeeName
  | _ => ""
  end.

(** The screen with its list of recent entries. *)
Definition EntryScreen : Type := GateScreen * list RecentEntry.

(** [entryMutation.onSuccess], the whole of it: the entry it prepends, and
    [onSuccess] for the rest of the screen. *)
Definition onSuccessEntry (now : Z) (data : Body) (s : EntryScreen) : EntryScreen :=
  let st := fst s in
  let newEntry :=
    mkRecentEntry now (orElse (employeeNameOf data) "Employee")
      (orElse (gs_lastScanned st) (toUpperCase (gs_slpid st))) "allowed" in
  (onSuccess st data, addRecentEntry newEntry (snd s)).

(** [handleWeekOffDeny] *)
Definition handleWeekOffDeny (now : Z) (s : EntryScreen) : EntryScreen :=
  let st := fst s in
  let newEntry :=
    mkRecentEntry now "Employee" (toUpperCase (gs_slpid st)) "denied" in
  (resetForm
     (mkGateScreen (gs_slpid st) (gs_lastScanned st) (gs_scanCooldown st)
        (gs_scanMode st) (gs_showCamera st) (gs_pendingEntry st) false (gs_toast st))
     (Some (NoticeError "Entry denied - Week off")),
   addRecentEntry newEntry (snd s)).

(** What happens on the screen: the handlers above and those of the
    Screens section, which leave the list alone. *)
Inductive EntryEvent :=
| EvSucceeded (now : Z) (data : Body)
| EvFailed (message : option string)
| EvDenied (now : Z)
| EvAllowed
| EvTyped (text : string)
| EvScannerInput (text : string)
| EvCameraScan (data : string)
| EvSubmit.

Definition entryEvent (s : EntryScreen) (e : EntryEvent) : EntryScreen :=
  match e with
  | EvSucceeded now data => onSuccessEntry now data s
  | EvFailed message => (onError (fst s) message, snd s)
  | EvDenied now => handleWeekOffDeny now s
  | EvAllowed => (fst (handleWeekOffAllow (fst s)), snd s)
  | EvTyped text => (setSlpid (fst s) text, snd s)
  | EvScannerInput text => (fst (handleExternalScannerInput (fst s) text), snd s)
  | EvCameraScan data => (fst (handleBarCodeScanned (fst s) data), snd s)
  | EvSubmit => (fst (handleScan (fst s)), snd s)
  end.

(** The entries a run of events prepends, oldest first. *)
Fixpoint entriesOf (s : EntryScreen) (events : list EntryEvent) : list RecentEntry :=
  match events with
  | [] => []
  | e :: rest =>
    match e with
    | EvSucceeded _ _ | EvDenied _ => [hd (mkRecentEntry 0 "" "" "") (snd (entryEvent s e))]
    | _ => []
    end ++ entriesOf (entryEvent s e) rest
  end.

(** Whether an event is a scan answered with success or a denial at the
    week-off prompt. *)
Definition isOutcome (e : EntryEvent) : bool :=
  match e with
  | EvSucceeded _ _ | EvDenied _ => true
  | _ => false
  end.

(** ** The live dashboard

    *** [GET /api/dashboard/live] *)

Record LiveEmployee := mkLiveEmployee {
  le_id : string;
  le_attendanceId : string;
  le_slpid : string;
  le_name : string;
  le_department : string;
  le_shiftName : string;
  le_gender : string;
  le_gateInTime : Z;
  le_hoursWorked : Q;
  le_isWeekOffEntry : bool
}.

Record LiveData := mkLiveData {
  liveManpower : list LiveEmployee;
  allEmployees : list Employee;
  allRosters : list Roster;
  todayEntryEmpIds : list string
}.

Inductive LiveBody :=
| LMessage (message : string)
| LData (data : LiveData).

Record LiveResponse := mkLiveResponse {
  live_status : Z;
  live_body : LiveBody
}.

Definition handleLive (m : M LiveResponse) (onError : LiveResponse) (w : World)
    : LiveResponse * World :=
  match m w with
  | (Ok r, w') => (r, w')
  | (Thrown, w') => (onError, w')
  end.

(** [x?.field || dflt] *)
Definition fieldOr {A} (x : option A) (field : A -> string) (dflt : string) : string :=
  match x with
  | Some v => orElse (field v) dflt
  | None => dflt
  end.

(** One element of [liveAttendance.map((att) => ...)]; the hours are not
    clamped here. *)
Definition liveRow (now : Z) (allEmployees : list Employee) (allRosters : list Roster)
    (att : Attendance) : LiveEmployee :=
  let emp := find (fun e => (emp_id e =? att_employeeId att)%string) allEmployees in
  let roster := find (fun r => (ros_employeeId r =? att_employeeId att)%string) allRosters in
  let hoursWorked := hoursBetween (att_gateInTime att) now in
  mkLiveEmployee
    (fieldOr emp emp_id (att_employeeId att))
    (att_id att)
    (att_slpid att)
    (fieldOr emp emp_name "Unknown")
    (fieldOr emp emp_department (orElse (att_department att) ""))
    (fieldOr roster ros_shiftName (orElse (att_shiftName att) "General"))
    (fieldOr emp emp_gender "")
    (att_gateInTime att)
    hoursWorked
    (att_isWeekOffEntry att).

Definition dashboardLive (now : Z) : World -> LiveResponse * World :=
  handleLive
    (let today := isoDate now in
     allEmployees <- selectEmployees (fun e => emp_isActive e) ;;
     allRosters <- selectRosters (fun _ => true) ;;
     liveAttendance <- selectAttendance (fun a => isNull (att_gateOutTime a)) ;;
     let liveAttendance :=
       sortBy (fun a b => att_gateInTime b <=? att_gateInTime a) liveAttendance in
     todayEntries <- selectAttendance (fun a => att_date a =? today) ;;
     ret (mkLiveResponse 200
            (LData (mkLiveData
                      (map (liveRow now allEmployees allRosters) liveAttendance)
                      allEmployees
                      allRosters
                      (map att_employeeId todayEntries)))))
    (mkLiveResponse 500 (LMessage "Failed to fetch dashboard data")).

(** *** The dashboard screen *)

Definition normalizeShift (shift : string) : string :=
  if (shift =? "Morning")%string || (shift =? "A")%string then "Shift A"
  else if (shift =? "Evening")%string || (shift =? "B")%string then "Shift B"
  else if (shift =? "Night")%string || (shift =? "C")%string then "Shift C"
  else shift.

Definition normalizeDepartment (dept : string) : string :=
  if (dept =? "Return")%string then "Returns" else dept.

Definition matchDept (deptFilter department : string) : bool :=
  (deptFilter =? "All")%string || (normalizeDepartment department =? deptFilter)%string.

Definition matchShift (shiftFilter shiftName : string) : bool :=
  (shiftFilter =? "All")%string || (normalizeShift shiftName =? shiftFilter)%string.

Definition matchGender (genderFilter gender : string) : bool :=
  (genderFilter =? "All")%string
  || (toLowerCase gender =? toLowerCase genderFilter)%string.

Definition filteredLive (deptFilter shiftFilter genderFilter : string)
    (liveManpower : list LiveEmployee) : list LiveEmployee :=
  filter (fun emp =>
      matchDept deptFilter (le_department emp)
      && matchShift shiftFilter (le_shiftName emp)
      && matchGender genderFilter (le_gender emp))
    liveManpower.

(** The employees [stats] counts as absent. *)
Definition absentEmployees (deptFilter genderFilter : string) (data : LiveData)
    : list Employee :=
  filter (fun emp =>
      matchDept deptFilter (emp_department emp)
      && matchGender genderFilter (emp_gender emp)
      && negb (setHas (todayEntryEmpIds data) (emp_id emp)))
    (allEmployees data).

Record Stats := mkStats {
  st_present : nat;
  st_absent : nat;
  st_weekOffPresent : nat;
  st_overtime : nat
}.

(** [stats]; [tz] is the offset of the device's time zone and [now] the
    instant of the rendering. *)
Definition stats (tz now : Z) (deptFilter shiftFilter genderFilter : string)
    (data : LiveData) : Stats :=
  let filteredLive :=
    filteredLive deptFilter shiftFilter genderFilter (liveManpower data) in
  let present := List.length filteredLive in
  let absent := List.length (absentEmployees deptFilter genderFilter data) in
  let weekOffPresent :=
    List.length
      (filter (fun emp =>
           isWeekOffAt tz
             (find (fun r => (ros_employeeId r =? le_id emp)%string) (allRosters data))
             now)
         filteredLive) in
  let overtime := List.length (filter (fun emp => isOvertime (le_hoursWorked emp)) filteredLive) in
  mkStats present absent weekOffPresent overtime.

(** ** [GET /api/reports/export-absent]

    The rows of the sheet; the route is taken for a request that carries both
    dates. *)

Record AbsentSheetRow := mkAbsentSheetRow {
  ab_name : string;
  ab_gender : string;
  ab_slpid : string;
  ab_employeeId : string;
  ab_department : string;
  ab_designation : string;
  ab_weekOff : string;
  ab_dateOfJoining : string;
  ab_absentDate : Z;
  ab_status : string
}.

Inductive SheetBody :=
| SMessage (message : string)
| SAbsents (rows : list AbsentSheetRow).

Record SheetResponse := mkSheetResponse {
  sheet_status : Z;
  sheet_body : SheetBody
}.

Definition handleSheet (m : M SheetResponse) (onError : SheetResponse) (w : World)
    : SheetResponse * World :=
  match m w with
  | (Ok r, w') => (r, w')
  | (Thrown, w') => (onError, w')
  end.

Definition exportAbsentRows (tz : Z) (allRos : list Roster) (allAtt : list Attendance)
    (dates : list Z) (department : option string) (emp : Employee)
    : list AbsentSheetRow :=
  if deptSkipped department emp then [] else
  let ros := find (fun r => (ros_employeeId r =? emp_id emp)%string) allRos in
  flat_map (fun date =>
      let isWeekOff := isWeekOffAt tz ros (dateInstant date) in
      let hasAtt :=
        existsb (fun a => (att_employeeId a =? emp_id emp)%string
                          && (att_date a =? date)) allAtt in
      if negb isWeekOff && negb hasAtt then
        [mkAbsentSheetRow (emp_name emp) (emp_gender emp) (emp_slpid emp)
           (emp_employeeId emp) (emp_department emp) (emp_designation emp)
           (rosterWeekOff ros) (emp_dateOfJoining emp) date "A"]
      else [])
    dates.

Definition exportAbsent (tz : Z) (fromDate toDate : Z) (department : option string)
    : World -> SheetResponse * World :=
  handleSheet
    (allEmp <- selectEmployees (fun e => emp_isActive e) ;;
     allRos <- selectRosters (fun _ => true) ;;
     allAtt <- selectAttendance (fun a =>
         (fromDate <=? att_date a) && (att_date a <=? toDate)) ;;
     let dates := enumDates fromDate toDate in
     ret (mkSheetResponse 200
            (SAbsents (flat_map (exportAbsentRows tz allRos allAtt dates department)
                                allEmp))))
    (mkSheetResponse 500 (SMessage "Export failed")).

(** The columns the absents sheet of [/api/reports/export] shares with the
    sheet of [/api/reports/export-absent]. *)
Definition sheetOfRecord (r : ReportRow) : AbsentSheetRow :=
  mkAbsentSheetRow (row_employeeName r) (row_gender r) (row_slpid r)
    (row_employeeIdCode r) (row_department r) (row_designation r)
    (row_weekOff r) (row_dateOfJoining r) (row_date r) (row_status r).

Definition sheetOfResponse (r : Response) : SheetResponse :=
  mkSheetResponse (status r)
    match body r with
    | JRecords records => SAbsents (map sheetOfRecord records)
    | JMessage message => SMessage message
    | _ => SMessage ""
    end.

(** ** Strings: case mapping and trimming *)

Lemma upperChar_idem : forall c, upperChar (upperChar c) = upperChar c.
Proof. intros [[] [] [] [] [] [] [] []]; reflexivity. Qed.

Lemma isSpace_upperChar : forall c, isSpace (upperChar c) = isSpace c.
Proof. intros [[] [] [] [] [] [] [] []]; reflexivity. Qed.

Lemma isSharpS_upperChar : forall c, isSharpS (upperChar c) = isSharpS c.
Proof. intros [[] [] [] [] [] [] [] []]; reflexivity. Qed.

Lemma isSharpS_not_space : forall c, isSharpS c = true -> isSpace c = false.
Proof.
  intros [[] [] [] [] [] [] [] []]; cbv; intros H;
    first [reflexivity | discriminate H].
Qed.

Lemma isAsciiChar_not_sharp : forall c, isAsciiChar c = true -> isSharpS c = false.
Proof.
  intros [[] [] [] [] [] [] [] []]; cbv; intros H;
    first [reflexivity | discriminate H].
Qed.

Lemma toUpperCase_cons : forall c s,
  exists c' t, toUpperCase (String c s) = String c' t.
Proof.
  intros c s. cbn [toUpperCase]. destruct (isSharpS c); eauto.
Qed.

Lemma toUpperCase_idem : forall s, toUpperCase (toUpperCase s) = toUpperCase s.
Proof.
  induction s as [|c s IH]; cbn [toUpperCase].
  - reflexivity.
  - destruct (isSharpS c) eqn:E; cbn [toUpperCase].
    + change (isSharpS "S") with false. cbn iota.
      change (upperChar "S") with "S"%char. now rewrite IH.
    + now rewrite isSharpS_upperChar, E, upperChar_idem, IH.
Qed.

(** The uppercase form of an ASCII string is as long as the string. *)
Lemma toUpperCase_length : forall s,
  isAscii s = true -> String.length (toUpperCase s) = String.length s.
Proof.
  induction s as [|c s IH]; cbn [isAscii toUpperCase]; [reflexivity|].
  intros H. apply andb_true_iff in H. destruct H as [Hc Hs].
  rewrite (isAsciiChar_not_sharp c Hc). cbn [String.length]. now rewrite IH.
Qed.

Lemma toUpperCase_trimStart : forall s,
  trimStart (toUpperCase s) = toUpperCase (trimStart s).
Proof.
  induction s as [|c s IH]; cbn [toUpperCase trimStart].
  - reflexivity.
  - destruct (isSharpS c) eqn:E.
    + rewrite (isSharpS_not_space c E). cbn [trimStart toUpperCase].
      change (isSpace "S") with false. cbn iota. now rewrite E.
    + cbn [trimStart]. rewrite isSpace_upperChar.
      destruct (isSpace c); [exact IH|]. cbn [toUpperCase]. now rewrite E.
Qed.

Lemma trimEnd_nonspace : forall c s,
  isSpace c = false -> trimEnd (String c s) = String c (trimEnd s).
Proof.
  intros c s H. cbn [trimEnd]. rewrite H. now destruct (trimEnd s).
Qed.

Lemma toUpperCase_trimEnd : forall s,
  trimEnd (toUpperCase s) = toUpperCase (trimEnd s).
Proof.
  induction s as [|c s IH]; [reflexivity|].
  cbn [toUpperCase]. destruct (isSharpS c) eqn:E.
  - rewrite !trimEnd_nonspace by (reflexivity || now apply isSharpS_not_space).
    cbn [toUpperCase]. now rewrite E, IH.
  - destruct (isSpace c) eqn:Es.
    + cbn [trimEnd]. rewrite IH, isSpace_upperChar, Es.
      destruct (trimEnd s) as [|c' t]; [reflexivity|].
      destruct (toUpperCase_cons c' t) as [c'' [t' Ht]]. rewrite Ht.
      cbn [toUpperCase]. rewrite E. fold toUpperCase.
      change (if isSharpS c' then String "S" (String "S" (toUpperCase t))
              else String (upperChar c') (toUpperCase t))
        with (toUpperCase (String c' t)).
      now rewrite Ht.
    + rewrite !trimEnd_nonspace by (assumption || now rewrite isSpace_upperChar).
      cbn [toUpperCase]. now rewrite E, IH.
Qed.

Lemma toUpperCase_trim : forall s, trim (toUpperCase s) = toUpperCase (trim s).
Proof.
  intros s. unfold trim. now rewrite toUpperCase_trimStart, toUpperCase_trimEnd.
Qed.

Lemma toUpperCase_empty : forall s,
  (toUpperCase s =? "")%string = (s =? "")%string.
Proof. intros [|c s]; cbn [toUpperCase]; [|destruct (isSharpS c)]; reflexivity. Qed.

(** ** Hours: the rational comparisons as millisecond thresholds *)

Lemma Qlt_bool_hours_1 : forall start finish,
  Qlt_bool (hoursBetween start finish) 1 = (finish - start <? 3600000).
Proof.
  intros start finish. unfold Qlt_bool, Qle_bool, hoursBetween, msPerHour.
  cbn. rewrite Z.ltb_antisym. f_equal. f_equal; lia.
Qed.

Lemma isOvertime_hours : forall start finish,
  isOvertime (hoursBetween start finish) = (32400000 <=? finish - start).
Proof.
  intros start finish. unfold isOvertime, Qle_bool, hoursBetween, msPerHour.
  cbn. f_equal; lia.
Qed.

(** ** Running the handler monad *)

Lemma limit1_hd : forall {A} (l : list A),
  limit1 l = match hd_error l with Some x => [x] | None => [] end.
Proof. intros A [|x l]; reflexivity. Qed.

Lemma hd_error_limit1 : forall {A} (l : list A), hd_error (limit1 l) = hd_error l.
Proof. intros A [|x l]; reflexivity. Qed.

Lemma storage_cases : forall op w,
  (exists w1, storage op w = (Thrown, w1) /\ db w1 = db w /\ fault w <> None)
  \/ (exists f, storage op w = (Ok tt, mkWorld (db w) (log w ++ [op]) f)
               /\ (fault w = None -> f = None)).
Proof.
  intros op [d l [[|k]|]]; unfold storage; simpl.
  - left. eexists; repeat split. discriminate.
  - right. eexists; split; [reflexivity | discriminate].
  - right. eexists; split; [reflexivity | reflexivity].
Qed.

Lemma selectEmployees_cases : forall p w,
  (exists w1, selectEmployees p w = (Thrown, w1) /\ db w1 = db w /\ fault w <> None)
  \/ (exists f, selectEmployees p w
                = (Ok (filter p (employees (db w))),
                   mkWorld (db w) (log w ++ [OpSelect Employees]) f)
               /\ (fault w = None -> f = None)).
Proof.
  intros p w. unfold selectEmployees, bind.
  destruct (storage_cases (OpSelect Employees) w) as [[w1 [E [D F]]]|[f [E F]]];
    rewrite E; unfold bind, getDb, putDb, ret; simpl; [left | right]; eauto.
Qed.

Lemma selectRosters_cases : forall p w,
  (exists w1, selectRosters p w = (Thrown, w1) /\ db w1 = db w /\ fault w <> None)
  \/ (exists f, selectRosters p w
                = (Ok (filter p (rosters (db w))),
                   mkWorld (db w) (log w ++ [OpSelect Rosters]) f)
               /\ (fault w = None -> f = None)).
Proof.
  intros p w. unfold selectRosters, bind.
  destruct (storage_cases (OpSelect Rosters) w) as [[w1 [E [D F]]]|[f [E F]]];
    rewrite E; unfold bind, getDb, putDb, ret; simpl; [left | right]; eauto.
Qed.

Lemma selectAttendance_cases : forall p w,
  (exists w1, selectAttendance p w = (Thrown, w1) /\ db w1 = db w /\ fault w <> None)
  \/ (exists f, selectAttendance p w
                = (Ok (filter p (attendance (db w))),
                   mkWorld (db w) (log w ++ [OpSelect AttendanceT]) f)
               /\ (fault w = None -> f = None)).
Proof.
  intros p w. unfold selectAttendance, bind.
  destruct (storage_cases (OpSelect AttendanceT) w) as [[w1 [E [D F]]]|[f [E F]]];
    rewrite E; unfold bind, getDb, putDb, ret; simpl; [left | right]; eauto.
Qed.

Lemma updateAttendance_cases : forall p g w,
  (exists w1, updateAttendance p g w = (Thrown, w1) /\ db w1 = db w /\ fault w <> None)
  \/ (exists f, updateAttendance p g w
                = (Ok tt,
                   mkWorld (mkDb (employees (db w)) (rosters (db w))
                                 (updateRows p g (attendance (db w))))
                           (log w ++ [OpUpdate AttendanceT]) f)
               /\ (fault w = None -> f = None)).
Proof.
  intros p g w. unfold updateAttendance, bind.
  destruct (storage_cases (OpUpdate AttendanceT) w) as [[w1 [E [D F]]]|[f [E F]]];
    rewrite E; unfold bind, getDb, putDb, ret; simpl; [left | right]; eauto.
Qed.

Lemma insertAttendance_cases : forall a w,
  (exists w1, insertAttendance a w = (Thrown, w1) /\ db w1 = db w /\ fault w <> None)
  \/ (exists f, insertAttendance a w
                = (Ok tt,
                   mkWorld (mkDb (employees (db w)) (rosters (db w))
                                 (attendance (db w) ++ [a]))
                           (log w ++ [OpInsert AttendanceT]) f)
               /\ (fault w = None -> f = None)).
Proof.
  intros a w. unfold insertAttendance, bind.
  destruct (storage_cases (OpInsert AttendanceT) w) as [[w1 [E [D F]]]|[f [E F]]];
    rewrite E; unfold bind, getDb, putDb, ret; simpl; [left | right]; eauto.
Qed.

Lemma bind_run : forall {A B} (m : M A) (k : A -> M B) w,
  bind m k w = match m w with
               | (Ok a, w') => k a w'
               | (Thrown, w') => (Thrown, w')
               end.
Proof. reflexivity. Qed.

(** One storage operation of a handler: either it throws, or it yields its
    result and the handler goes on. *)
Ltac run_op :=
  rewrite bind_run;
  let w1 := fresh "w1" in
  let E := fresh "E" in
  let D := fresh "D" in
  let F := fresh "F" in
  let f := fresh "f" in
  match goal with
  | |- context [selectEmployees ?p ?w] =>
      destruct (selectEmployees_cases p w) as [[w1 [E [D F]]]|[f [E F]]]
  | |- context [selectAttendance ?p ?w] =>
      destruct (selectAttendance_cases p w) as [[w1 [E [D F]]]|[f [E F]]]
  | |- context [selectRosters ?p ?w] =>
      destruct (selectRosters_cases p w) as [[w1 [E [D F]]]|[f [E F]]]
  | |- context [updateAttendance ?p ?g ?w] =>
      destruct (updateAttendance_cases p g w) as [[w1 [E [D F]]]|[f [E F]]]
  | |- context [insertAttendance ?a ?w] =>
      destruct (insertAttendance_cases a w) as [[w1 [E [D F]]]|[f [E F]]]
  end;
  rewrite E; clear E; cbn [db log fault] in *.

Lemma gateEntry_spec : forall tz now newId slpid allow w,
  gateSpec tz now newId slpid allow (db w)
    (fst (gateEntry tz now newId slpid allow w))
    (db (snd (gateEntry tz now newId slpid allow w)))
  /\ (fault w = None ->
      status (fst (gateEntry tz now newId slpid allow w)) <> 500
      /\ fault (snd (gateEntry tz now newId slpid allow w)) = None).
Proof.
  intros tz now newId slpid allow w.
  unfold gateEntry, handle, gateEntryBody.
  destruct (falsy slpid) eqn:Hf.
  { simpl. split; [now apply gate_validation | now split]. }
  destruct slpid as [badge|]; [|discriminate].
  run_op.
  { simpl. rewrite D. split; [apply gate_storage | intros Hn; exfalso; eauto]. }
  rewrite limit1_hd.
  change (hd_error (filter (fun e => (emp_slpid e =? toUpperCase badge)%string)
                           (employees (db w))))
    with (lookupEmployee (db w) badge).
  destruct (lookupEmployee (db w) badge) as [emp|] eqn:Hl.
  2:{ simpl. split; [eapply gate_not_found; eauto | split; [discriminate | eauto]]. }
  destruct (emp_isActive emp) eqn:Ha; cbn [negb].
  2:{ simpl. split; [eapply gate_inactive; eauto | split; [discriminate | eauto]]. }
  run_op.
  { simpl. rewrite D. split; [apply gate_storage | intros Hn; exfalso; eauto]. }
  rewrite limit1_hd.
  change (hd_error (filter _ (attendance (db w))))
    with (openSession (db w) (emp_id emp)).
  destruct (openSession (db w) (emp_id emp)) as [act|] eqn:Ho.
  - rewrite Qlt_bool_hours_1, isOvertime_hours.
    destruct (now - att_gateInTime act <? 3600000) eqn:Hd.
    + simpl. split; [|split; [discriminate | eauto]].
      eapply gate_duplicate; eauto. now apply Z.ltb_lt.
    + run_op.
      { simpl. rewrite D. split; [apply gate_storage | intros Hn; exfalso; eauto]. }
      simpl. split; [|split; [discriminate | eauto]].
      eapply gate_out; eauto. now apply Z.ltb_ge.
  - run_op.
    { simpl. rewrite D. split; [apply gate_storage | intros Hn; exfalso; eauto]. }
    rewrite hd_error_limit1.
    change (hd_error (filter _ (rosters (db w))))
      with (rosterOf (db w) (emp_id emp)).
    destruct (isWeekOffAt tz (rosterOf (db w) (emp_id emp)) now && negb allow) eqn:Hw.
    + simpl. split; [|split; [discriminate | eauto]].
      apply andb_true_iff in Hw. destruct Hw as [Hw1 Hw2].
      eapply gate_week_off; eauto. now destruct allow.
    + run_op.
      { simpl. rewrite D. split; [apply gate_storage | intros Hn; exfalso; eauto]. }
      simpl. split; [|split; [discriminate | eauto]].
      rewrite limit1_hd.
      change (hd_error (filter _ (rosters (db w))))
        with (rosterOf (db w) (emp_id emp)).
      replace (match match rosterOf (db w) (emp_id emp) with Some x => [x] | None => [] end with
               | [] => "General" | r :: _ => ros_shiftName r end)
        with (match rosterOf (db w) (emp_id emp) with
              | Some r => ros_shiftName r | None => "General" end)
        by (destruct (rosterOf (db w) (emp_id emp)); reflexivity).
      eapply gate_in; eauto.
Qed.

Lemma hours_ge_1 : forall start finish,
  (1 <= hoursBetween start finish)%Q <-> 3600000 <= finish - start.
Proof.
  intros start finish. rewrite <- Qle_bool_iff.
  pose proof (Qlt_bool_hours_1 start finish) as H. unfold Qlt_bool in H.
  destruct (Qle_bool 1 (hoursBetween start finish)); simpl in H; symmetry in H.
  - apply Z.ltb_ge in H. tauto.
  - apply Z.ltb_lt in H. split; [discriminate | lia].
Qed.

Lemma hours_lt_1 : forall start finish,
  (hoursBetween start finish < 1)%Q <-> finish - start < 3600000.
Proof.
  intros start finish. split; intros H.
  - apply Z.nle_gt. intros C. apply hours_ge_1 in C.
    exact (Qlt_not_le _ _ H C).
  - apply Qnot_le_lt. intros C. apply hours_ge_1 in C. lia.
Qed.

Lemma overtime_ge_9 : forall hours, isOvertime hours = true <-> (9 <= hours)%Q.
Proof. intros hours. unfold isOvertime. apply Qle_bool_iff. Qed.

Lemma In_updateRows : forall p g a rows,
  In a rows -> p a = true -> In (g a) (updateRows p g rows).
Proof.
  intros p g a rows Hin Hp. unfold updateRows.
  apply in_map_iff. exists a. now rewrite Hp.
Qed.

Lemma updateRows_other : forall p g a rows,
  In a rows -> p a = false -> In a (updateRows p g rows).
Proof.
  intros p g a rows Hin Hp. unfold updateRows.
  apply in_map_iff. exists a. now rewrite Hp.
Qed.

Lemma hd_error_In : forall {A} (l : list A) x, hd_error l = Some x -> In x l.
Proof. intros A [|y l] x H; inversion H; now left. Qed.

Lemma openSession_In : forall d e act,
  openSession d e = Some act ->
  In act (attendance d) /\ att_employeeId act = e /\ att_gateOutTime act = None.
Proof.
  intros d e act H. apply hd_error_In in H. apply filter_In in H.
  destruct H as [Hin Hp]. unfold isOpenFor in Hp. apply andb_true_iff in Hp.
  destruct Hp as [He Hn]. apply String.eqb_eq in He.
  destruct (att_gateOutTime act); [discriminate | auto].
Qed.

Lemma falsy_nonempty : forall badge, badge <> "" -> falsy (Some badge) = false.
Proof. intros badge H. simpl. now apply String.eqb_neq. Qed.

(** ** The gate decision engine *)

(** After inverting the decision table against known facts about the store:
    identify the employee and the session the table names with the known
    ones, and discard the rows that contradict the facts. *)
Ltac gate_same :=
  repeat match goal with
  | H : Some ?a = Some ?b |- _ =>
      first [ is_var a; injection H as -> | is_var b; injection H as <- ]
  | H1 : ?x = Some _, H2 : ?x = None |- _ => rewrite H1 in H2; discriminate
  | H1 : ?x = Some ?a, H2 : ?x = Some ?b |- _ => rewrite H1 in H2
  end.

Ltac gate_inv Hs :=
  inversion Hs; subst; gate_same;
  try discriminate; try lia; try (simpl in *; congruence).

(** C2: a scan of an employee whose open session is at least one hour old
    is a gate-out: the response carries the employee name and the elapsed
    hours, and the store afterwards has the session's gate-out timestamp set
    to the instant of the scan and its overtime flag set to (elapsed >= 9
    hours); all other rows are as before. *)
Theorem gate_out_after_one_hour :
  forall tz now newId allow badge w emp act,
    fault w = None ->
    badge <> "" ->
    lookupEmployee (db w) badge = Some emp ->
    emp_isActive emp = true ->
    openSession (db w) (emp_id emp) = Some act ->
    (1 <= hoursBetween (att_gateInTime act) now)%Q ->
    fst (gateEntry tz now newId (Some badge) allow w)
      = mkResponse 200
          (JGateOut (emp_name emp) (hoursBetween (att_gateInTime act) now))
    /\ db (snd (gateEntry tz now newId (Some badge) allow w))
      = mkDb (employees (db w)) (rosters (db w))
          (updateRows (fun a => (att_id a =? att_id act)%string)
             (setGateOut now (isOvertime (hoursBetween (att_gateInTime act) now)))
             (attendance (db w)))
    /\ In (setGateOut now (isOvertime (hoursBetween (att_gateInTime act) now)) act)
          (attendance (db (snd (gateEntry tz now newId (Some badge) allow w))))
    /\ att_gateOutTime
         (setGateOut now (isOvertime (hoursBetween (att_gateInTime act) now)) act)
       = Some now
    /\ (att_isOvertime
          (setGateOut now (isOvertime (hoursBetween (att_gateInTime act) now)) act)
        = true <-> (9 <= hoursBetween (att_gateInTime act) now)%Q).
Proof.
  intros tz now newId allow badge w emp act Hf Hb Hl Ha Ho Hh.
  destruct (gateEntry_spec tz now newId (Some badge) allow w) as [Hs Hk].
  destruct (Hk Hf) as [H500 _]. apply hours_ge_1 in Hh.
  assert (Hr : fst (gateEntry tz now newId (Some badge) allow w)
      = mkResponse 200
          (JGateOut (emp_name emp) (hoursBetween (att_gateInTime act) now))
    /\ db (snd (gateEntry tz now newId (Some badge) allow w))
      = mkDb (employees (db w)) (rosters (db w))
          (updateRows (fun a => (att_id a =? att_id act)%string)
             (setGateOut now (isOvertime (hoursBetween (att_gateInTime act) now)))
             (attendance (db w)))).
  { rewrite isOvertime_hours.
    remember (fst (gateEntry tz now newId (Some badge) allow w)) as r eqn:Er.
    remember (db (snd (gateEntry tz now newId (Some badge) allow w))) as d' eqn:Ed.
    clear Er Ed Hk.
    gate_inv Hs.
    - rewrite (falsy_nonempty _ Hb) in *. discriminate.
    - now split. }
  destruct Hr as [Hr Hd]. repeat split; auto.
  - rewrite Hd. simpl. apply In_updateRows.
    + now apply (openSession_In _ _ _ Ho).
    + apply String.eqb_refl.
  - intros H. now apply overtime_ge_9.
  - intros H. now apply overtime_ge_9.
Qed.

Lemma gate_out_after_one_hour_witness :
  fst (gateEntry 0 (wednesday9 + 33300000) "a2" (Some "slp001") false sampleWorldIn)
    = mkResponse 200
        (JGateOut "E1" (hoursBetween wednesday9 (wednesday9 + 33300000)))
  /\ attendance
       (db (snd (gateEntry 0 (wednesday9 + 33300000) "a2" (Some "slp001") false
                   sampleWorldIn)))
     = [setGateOut (wednesday9 + 33300000) true sampleSession].
Proof.
  pose proof (gate_out_after_one_hour 0 (wednesday9 + 33300000) "a2" false "slp001"
                sampleWorldIn sampleEmployee sampleSession) as H.
  destruct H as [Hr [Hd _]].
  - reflexivity.
  - discriminate.
  - reflexivity.
  - reflexivity.
  - reflexivity.
  - apply Qle_bool_iff. reflexivity.
  - split; [exact Hr | rewrite Hd; reflexivity].
Defined.

(** One scan inside the duplicate window. *)
Lemma gateEntry_duplicate : forall tz now newId allow badge w emp act,
  fault w = None ->
  badge <> "" ->
  lookupEmployee (db w) badge = Some emp ->
  emp_isActive emp = true ->
  openSession (db w) (emp_id emp) = Some act ->
  (hoursBetween (att_gateInTime act) now < 1)%Q ->
  fst (gateEntry tz now newId (Some badge) allow w)
    = mkResponse 400
        (JAlreadyScanned "Card already scanned" (emp_name emp)
           (hoursBetween (att_gateInTime act) now))
  /\ db (snd (gateEntry tz now newId (Some badge) allow w)) = db w
  /\ fault (snd (gateEntry tz now newId (Some badge) allow w)) = None.
Proof.
  intros tz now newId allow badge w emp act Hf Hb Hl Ha Ho Hh.
  destruct (gateEntry_spec tz now newId (Some badge) allow w) as [Hs Hk].
  destruct (Hk Hf) as [H500 Hf']. apply hours_lt_1 in Hh.
  split; [|split; [|exact Hf']].
  - remember (fst (gateEntry tz now newId (Some badge) allow w)) as r eqn:Er.
    remember (db (snd (gateEntry tz now newId (Some badge) allow w))) as d' eqn:Ed.
    clear Er Ed Hk Hf'. gate_inv Hs.
    rewrite (falsy_nonempty _ Hb) in *. discriminate.
  - remember (fst (gateEntry tz now newId (Some badge) allow w)) as r eqn:Er.
    remember (db (snd (gateEntry tz now newId (Some badge) allow w))) as d' eqn:Ed.
    clear Er Ed Hk Hf'. gate_inv Hs.
Qed.

(** C3: a scan of an employee whose open session is less than one hour old
    answers "Card already scanned" and leaves the store as it was; any run of
    scans of that badge, each less than one hour after the session's gate-in,
    answers so every time and leaves the ledger unchanged. *)
Theorem duplicate_scan_window :
  forall tz badge emp act calls w,
    fault w = None ->
    badge <> "" ->
    lookupEmployee (db w) badge = Some emp ->
    emp_isActive emp = true ->
    openSession (db w) (emp_id emp) = Some act ->
    Forall (fun c => (hoursBetween (att_gateInTime act) (fst (fst c)) < 1)%Q) calls ->
    fst (scanAll tz badge calls w)
      = map (fun c =>
               mkResponse 400
                 (JAlreadyScanned "Card already scanned" (emp_name emp)
                    (hoursBetween (att_gateInTime act) (fst (fst c)))))
            calls
    /\ db (snd (scanAll tz badge calls w)) = db w.
Proof.
  intros tz badge emp act calls.
  induction calls as [|[[now newId] allow] calls IH];
    intros w Hf Hb Hl Ha Ho Hall.
  - now split.
  - inversion Hall as [|c cs Hc Hcs]; subst. simpl in Hc.
    destruct (gateEntry_duplicate tz now newId allow badge w emp act
                Hf Hb Hl Ha Ho Hc) as [Hr [Hd Hf']].
    simpl. destruct (gateEntry tz now newId (Some badge) allow w) as [r w1].
    simpl in Hr, Hd, Hf'.
    specialize (IH w1). rewrite Hd in IH. destruct (IH Hf' Hb Hl Ha Ho Hcs) as [IH1 IH2].
    destruct (scanAll tz badge calls w1) as [rs w2]. simpl in *.
    split; congruence.
Qed.

Lemma duplicate_scan_window_witness :
  fst (scanAll 0 "slp001"
         [(wednesday9 + 1800000, "a2", false); (wednesday9 + 3599999, "a3", true)]
         sampleWorldIn)
    = [mkResponse 400
         (JAlreadyScanned "Card already scanned" "E1"
            (hoursBetween wednesday9 (wednesday9 + 1800000)));
       mkResponse 400
         (JAlreadyScanned "Card already scanned" "E1"
            (hoursBetween wednesday9 (wednesday9 + 3599999)))]
  /\ db (snd (scanAll 0 "slp001"
                [(wednesday9 + 1800000, "a2", false); (wednesday9 + 3599999, "a3", true)]
                sampleWorldIn))
     = db sampleWorldIn.
Proof.
  apply (duplicate_scan_window 0 "slp001" sampleEmployee sampleSession
           [(wednesday9 + 1800000, "a2", false); (wednesday9 + 3599999, "a3", true)]
           sampleWorldIn).
  - reflexivity.
  - discriminate.
  - reflexivity.
  - reflexivity.
  - reflexivity.
  - repeat constructor.
Defined.

(** C4: a fresh scan on the employee's rest day without the override flag
    answers "confirmation required" and creates no session; the same badge
    resubmitted with the flag, still on the rest day, is a gate-in that
    appends one open session whose week-off-entry flag is true. *)
Theorem week_off_confirmation :
  forall tz now now' newId newId' badge w emp ros,
    fault w = None ->
    badge <> "" ->
    lookupEmployee (db w) badge = Some emp ->
    emp_isActive emp = true ->
    openSession (db w) (emp_id emp) = None ->
    rosterOf (db w) (emp_id emp) = Some ros ->
    toLowerCase (ros_weekOff ros) = toLowerCase (weekdayLong tz now) ->
    toLowerCase (ros_weekOff ros) = toLowerCase (weekdayLong tz now') ->
    fst (gateEntry tz now newId (Some badge) false w)
      = mkResponse 409
          (JWeekOff "Employee is on week off. Confirmation required." (emp_name emp))
    /\ db (snd (gateEntry tz now newId (Some badge) false w)) = db w
    /\ fst (gateEntry tz now' newId' (Some badge) true
              (snd (gateEntry tz now newId (Some badge) false w)))
       = mkResponse 200 (JGateIn "Gate In recorded successfully" (emp_name emp))
    /\ attendance
         (db (snd (gateEntry tz now' newId' (Some badge) true
                     (snd (gateEntry tz now newId (Some badge) false w)))))
       = (attendance (db w) ++
          [mkAttendance newId' (emp_id emp) (emp_slpid emp) (ros_shiftName ros)
             (emp_department emp) (isoDate now') now' None true false])%list.
Proof.
  intros tz now now' newId newId' badge w emp ros Hf Hb Hl Ha Ho Hr Hw Hw'.
  assert (Hoff : forall t, toLowerCase (ros_weekOff ros) = toLowerCase (weekdayLong tz t) ->
                 isWeekOffAt tz (rosterOf (db w) (emp_id emp)) t = true).
  { intros t Ht. rewrite Hr. simpl. rewrite Ht. apply String.eqb_refl. }
  destruct (gateEntry_spec tz now newId (Some badge) false w) as [Hs Hk].
  destruct (Hk Hf) as [H500 Hf1].
  assert (H1 : fst (gateEntry tz now newId (Some badge) false w)
      = mkResponse 409
          (JWeekOff "Employee is on week off. Confirmation required." (emp_name emp))
    /\ db (snd (gateEntry tz now newId (Some badge) false w)) = db w).
  { remember (fst (gateEntry tz now newId (Some badge) false w)) as r eqn:Er.
    remember (db (snd (gateEntry tz now newId (Some badge) false w))) as d' eqn:Ed.
    clear Er Ed Hk Hf1. pose proof (Hoff now Hw) as Hon.
    gate_inv Hs.
    - rewrite (falsy_nonempty _ Hb) in *. discriminate.
    - now split.
    - rewrite Hon in *. discriminate. }
  destruct H1 as [H1 H2]. split; [exact H1|]. split; [exact H2|].
  set (w1 := snd (gateEntry tz now newId (Some badge) false w)) in *.
  destruct (gateEntry_spec tz now' newId' (Some badge) true w1) as [Hs' Hk'].
  destruct (Hk' Hf1) as [H500' _].
  remember (fst (gateEntry tz now' newId' (Some badge) true w1)) as r eqn:Er.
  remember (db (snd (gateEntry tz now' newId' (Some badge) true w1))) as d' eqn:Ed.
  clear Er Ed Hk'. rewrite H2 in Hs'. pose proof (Hoff now' Hw') as Hon.
  gate_inv Hs'.
  - rewrite (falsy_nonempty _ Hb) in *. discriminate.
  - rewrite Hon, Hr. now split.
Qed.

Lemma week_off_confirmation_witness :
  fst (gateEntry 0 sunday9 "a1" (Some "SLP001") false sampleWorld)
    = mkResponse 409
        (JWeekOff "Employee is on week off. Confirmation required." "E1")
  /\ db (snd (gateEntry 0 sunday9 "a1" (Some "SLP001") false sampleWorld))
     = db sampleWorld
  /\ fst (gateEntry 0 (sunday9 + 5000) "a2" (Some "SLP001") true
            (snd (gateEntry 0 sunday9 "a1" (Some "SLP001") false sampleWorld)))
     = mkResponse 200 (JGateIn "Gate In recorded successfully" "E1")
  /\ attendance
       (db (snd (gateEntry 0 (sunday9 + 5000) "a2" (Some "SLP001") true
                   (snd (gateEntry 0 sunday9 "a1" (Some "SLP001") false sampleWorld)))))
     = [mkAttendance "a2" "u1" "SLP001" "Morning" "Inbound" 19729 (sunday9 + 5000)
          None true false].
Proof.
  apply (week_off_confirmation 0 sunday9 (sunday9 + 5000) "a1" "a2" "SLP001"
           sampleWorld sampleEmployee sampleRoster).
  - reflexivity.
  - discriminate.
  - reflexivity.
  - reflexivity.
  - reflexivity.
  - reflexivity.
  - reflexivity.
  - reflexivity.
Defined.

(** ** At most one open session per employee *)

Lemma openCount_app : forall e rows a,
  openCount e (rows ++ [a])
  = (openCount e rows + (if isOpenFor e a then 1 else 0))%nat.
Proof.
  intros e rows a. unfold openCount. rewrite filter_app, length_app. simpl.
  destruct (isOpenFor e a); reflexivity.
Qed.

Lemma isOpenFor_setGateOut : forall e now overtime a,
  isOpenFor e (setGateOut now overtime a) = false.
Proof. intros e now overtime a. unfold isOpenFor. simpl. apply andb_false_r. Qed.

(** Closing rows never raises the number of open sessions of anyone. *)
Lemma openCount_updateRows : forall e p now overtime rows,
  (openCount e (updateRows p (setGateOut now overtime) rows) <= openCount e rows)%nat.
Proof.
  intros e p now overtime rows. unfold openCount, updateRows.
  induction rows as [|a rows IH]; simpl; [lia|].
  destruct (p a).
  - rewrite isOpenFor_setGateOut. destruct (isOpenFor e a); simpl; lia.
  - destruct (isOpenFor e a); simpl; lia.
Qed.

Lemma openSession_None_count : forall d e,
  openSession d e = None -> openCount e (attendance d) = 0%nat.
Proof.
  intros d e H. unfold openSession in H. unfold openCount.
  destruct (filter (isOpenFor e) (attendance d)); [reflexivity | discriminate].
Qed.

Lemma gateSpec_preserves : forall tz now newId slpid allow d r d',
  gateSpec tz now newId slpid allow d r d' ->
  atMostOneOpen d -> atMostOneOpen d'.
Proof.
  intros tz now newId slpid allow d r d' Hs Hinv.
  inversion Hs; subst; auto.
  - intros e. simpl.
    eapply Nat.le_trans; [apply openCount_updateRows | apply Hinv].
  - intros e. simpl. rewrite openCount_app. unfold isOpenFor at 1. simpl.
    rewrite andb_true_r.
    destruct (String.eqb_spec (emp_id emp) e) as [<-|Hne].
    + rewrite openSession_None_count by assumption. lia.
    + specialize (Hinv e). lia.
Qed.

Lemma bulkOutLoop_closes : forall now ids count w e,
  (openCount e (attendance (db (snd (bulkOutLoop now ids count w))))
   <= openCount e (attendance (db w)))%nat.
Proof.
  intros now ids. induction ids as [|attId ids IH]; intros count w e; simpl.
  - lia.
  - run_op.
    { simpl. rewrite D. lia. }
    rewrite limit1_hd.
    destruct (hd_error (filter (fun a => (att_id a =? attId)%string)
                               (attendance (db w)))) as [att0|].
    + run_op.
      { simpl. rewrite D. simpl. lia. }
      eapply Nat.le_trans; [apply IH|]. simpl. apply openCount_updateRows.
    + eapply Nat.le_trans; [apply IH|]. simpl. lia.
Qed.

Lemma bulkOut_closes : forall now ids w e,
  (openCount e (attendance (db (snd (bulkOut now ids w))))
   <= openCount e (attendance (db w)))%nat.
Proof.
  intros now ids w e. unfold bulkOut, handle.
  destruct ids as [[|attId ids]|]; try (simpl; lia).
  rewrite bind_run.
  pose proof (bulkOutLoop_closes now (attId :: ids) 0%nat w e) as H.
  destruct (bulkOutLoop now (attId :: ids) 0%nat w) as [[count|] w']; exact H.
Qed.

(** Requests served one at a time: from an empty ledger, whatever scans and
    bulk gate-outs are run to their response one after the other (and
    whatever storage faults occur), every employee has at most one session
    with a null gate-out timestamp. *)
Lemma one_open_session_when_serial :
  forall tz,
    (forall d, reachableSerial tz d -> atMostOneOpen d)
    /\ (forall now newId slpid allow w,
          atMostOneOpen (db w) ->
          atMostOneOpen (db (snd (gateEntry tz now newId slpid allow w))))
    /\ (forall now ids w,
          atMostOneOpen (db w) ->
          atMostOneOpen (db (snd (bulkOut now ids w)))).
Proof.
  intros tz.
  assert (Hscan : forall now newId slpid allow w,
             atMostOneOpen (db w) ->
             atMostOneOpen (db (snd (gateEntry tz now newId slpid allow w)))).
  { intros now newId slpid allow w Hinv.
    destruct (gateEntry_spec tz now newId slpid allow w) as [Hs _].
    eapply gateSpec_preserves; eauto. }
  assert (Hbulk : forall now ids w,
             atMostOneOpen (db w) ->
             atMostOneOpen (db (snd (bulkOut now ids w)))).
  { intros now ids w Hinv e.
    eapply Nat.le_trans; [apply bulkOut_closes | apply Hinv]. }
  split; [|split; assumption].
  intros d Hreach. induction Hreach as [emps ross | d emps ross _ IH | | ]; auto.
  intros e. simpl. unfold openCount. simpl. lia.
Qed.

(** ** Requests in flight *)

Lemma runEntry_done : forall tz rq n r w,
  runEntry tz rq n (EntryDone r) w = (EntryDone r, w).
Proof. intros tz rq n. induction n as [|n IH]; intros r w; [reflexivity | apply IH]. Qed.

(** Run without another handler in between, the steps of a request are the
    route handler. *)
Lemma entry_steps_serial : forall tz rq w,
  runEntry tz rq 4 EntryStart w
  = (EntryDone (fst (gateEntry tz (sr_now rq) (sr_newId rq) (sr_slpid rq)
                       (sr_allowWeekOff rq) w)),
     snd (gateEntry tz (sr_now rq) (sr_newId rq) (sr_slpid rq)
            (sr_allowWeekOff rq) w)).
Proof.
  intros tz rq w. unfold gateEntry, handle, gateEntryBody.
  cbn [runEntry entryStep].
  destruct (falsy (sr_slpid rq)); [reflexivity|].
  unfold await. rewrite !bind_run.
  destruct (selectEmployees _ w) as [[employee|] w1]; [|reflexivity].
  cbn [ret]. destruct (limit1 employee) as [|employee0 rest]; [reflexivity|].
  destruct (emp_isActive employee0); cbn [negb]; [|reflexivity].
  cbn [entryStep]. unfold await. rewrite !bind_run.
  destruct (selectAttendance _ w1) as [[activeEntry|] w2]; [|reflexivity].
  cbn [ret]. destruct (limit1 activeEntry) as [|activeEntry0 rest'].
  - cbn [entryStep]. unfold await. rewrite !bind_run.
    destruct (selectRosters _ w2) as [[roster|] w3]; [|reflexivity].
    cbn [ret].
    destruct (isWeekOffAt tz (hd_error (limit1 roster)) (sr_now rq)
              && negb (sr_allowWeekOff rq)); [reflexivity|].
    cbn [entryStep runEntry]. unfold await. rewrite !bind_run.
    destruct (insertAttendance _ w3) as [[u|] w4]; reflexivity.
  - destruct (Qlt_bool _ 1); [reflexivity|].
    cbn [entryStep]. unfold await. rewrite !bind_run.
    destruct (updateAttendance _ _ w2) as [[u|] w3]; reflexivity.
Qed.

Lemma resume_last : forall tz w inflight rq t,
  resume tz (List.length inflight) (w, (inflight ++ [(rq, t)])%list)
  = (snd (entryStep tz rq t w),
     (inflight ++ [(rq, fst (entryStep tz rq t w))])%list).
Proof.
  intros tz w inflight rq t. unfold resume. cbn [fst snd].
  rewrite nth_error_app2, Nat.sub_diag by apply Nat.le_refl. cbn [nth_error].
  destruct (entryStep tz rq t w) as [t' w']. cbn [fst snd]. f_equal.
  rewrite firstn_app, Nat.sub_diag, firstn_all, app_nil_r. cbn [firstn].
  rewrite skipn_app, skipn_all2 by (apply Nat.le_succ_diag_r).
  replace (S (List.length inflight) - List.length inflight)%nat with 1%nat by lia.
  reflexivity.
Qed.

Lemma running_runEntry : forall tz rq n t w inflight,
  running tz (db w) (inflight ++ [(rq, t)])%list ->
  running tz (db (snd (runEntry tz rq n t w)))
             (inflight ++ [(rq, fst (runEntry tz rq n t w))])%list.
Proof.
  intros tz rq n. induction n as [|n IH]; intros t w inflight H; [exact H|].
  cbn [runEntry].
  pose proof (run_resume tz w _ (List.length inflight) H) as H'.
  rewrite resume_last in H'. cbn [fst snd] in H'.
  destruct (entryStep tz rq t w) as [t' w']. cbn [fst snd] in H'.
  now apply IH.
Qed.

(** The runs in which requests are served one at a time are runs of the
    server. *)
Lemma reachableSerial_reachable : forall tz d,
  reachableSerial tz d -> reachable tz d.
Proof.
  intros tz d H. induction H as [emps ross | d emps ross _ [fl IH]
                                 | w now newId slpid allow _ [fl IH]
                                 | w now ids _ [fl IH]].
  - exists []. constructor.
  - exists fl. now constructor.
  - exists (fl ++ [(mkScanRequest now newId slpid allow,
                    fst (runEntry tz (mkScanRequest now newId slpid allow) 4
                           EntryStart w))])%list.
    pose proof (running_runEntry tz (mkScanRequest now newId slpid allow) 4
                  EntryStart w fl (run_accept tz _ _ _ IH)) as H.
    rewrite entry_steps_serial in H. cbn [fst snd sr_now sr_newId sr_slpid
                                            sr_allowWeekOff] in H.
    rewrite entry_steps_serial. exact H.
  - exists fl. now constructor.
Qed.

Lemma runSchedule_running : forall tz schedule w inflight,
  running tz (db w) inflight ->
  running tz (db (fst (runSchedule tz schedule (w, inflight))))
             (snd (runSchedule tz schedule (w, inflight))).
Proof.
  intros tz schedule. unfold runSchedule.
  induction schedule as [|i schedule IH]; intros w inflight H; [exact H|].
  cbn [fold_left].
  pose proof (run_resume tz w inflight i H) as H'.
  destruct (resume tz i (w, inflight)) as [w' inflight']. now apply IH.
Qed.

(** C1 (the code at the failing input): two scans of one badge in flight
    together.  Employee u1 has no open session and it is not the rest day.
    Each handler reads the employee, then the open sessions (none), then the
    roster; only then does the first insert its session, and the second
    inserts another.  Both requests are answered 200 gate-in and u1 has two
    sessions with a null gate-out timestamp, in a state the server reaches
    from an empty ledger.  Served one after the other, the second scan is
    answered "Card already scanned". *)
Theorem concurrent_scans_open_two_sessions :
  let start : Server := (sampleWorld, [(scanA, EntryStart); (scanB, EntryStart)]) in
  let finish := runSchedule 0 [0; 0; 0; 1; 1; 1; 0; 1]%nat start in
  map snd (snd finish)
    = [EntryDone (mkResponse 200 (JGateIn "Gate In recorded successfully" "E1"));
       EntryDone (mkResponse 200 (JGateIn "Gate In recorded successfully" "E1"))]
  /\ map (fun a => (att_id a, att_employeeId a, att_gateOutTime a))
         (attendance (db (fst finish)))
     = [("n1", "u1", None); ("n2", "u1", None)]
  /\ openCount "u1" (attendance (db (fst finish))) = 2%nat
  /\ reachable 0 (db (fst finish))
  /\ ~ atMostOneOpen (db (fst finish))
  /\ fst (gateEntry 0 (sr_now scanB) (sr_newId scanB) (sr_slpid scanB)
            (sr_allowWeekOff scanB)
            (snd (gateEntry 0 (sr_now scanA) (sr_newId scanA) (sr_slpid scanA)
                    (sr_allowWeekOff scanA) sampleWorld)))
     = mkResponse 400
         (JAlreadyScanned "Card already scanned" "E1"
            (hoursBetween wednesday9 (wednesday9 + 1000))).
Proof.
  intros start finish.
  assert (Hrun : running 0 (db (fst finish)) (snd finish)).
  { apply runSchedule_running. cbn [sampleWorld db sampleDb].
    apply (run_accept 0 _ [(scanA, EntryStart)]).
    apply (run_accept 0 _ []). constructor. }
  split; [reflexivity|]. split; [reflexivity|]. split; [reflexivity|].
  split; [now exists (snd finish)|]. split; [|reflexivity].
  intros H. specialize (H "u1").
  change (openCount "u1" (attendance (db (fst finish)))) with 2%nat in H. lia.
Qed.

(** ** Hours and overtime *)

Lemma elapsedHours_clamp : forall start finish,
  elapsedHours start finish
  = if finish <? start then 0%Q else hoursBetween start finish.
Proof.
  intros start finish. unfold elapsedHours, Qmax.
  replace (Qle_bool 0 (hoursBetween start finish)) with (0 <=? finish - start).
  - destruct (Z.ltb_spec finish start) as [H|H].
    + destruct (Z.leb_spec 0 (finish - start)); [lia | reflexivity].
    + destruct (Z.leb_spec 0 (finish - start)); [reflexivity | lia].
  - unfold Qle_bool, hoursBetween, msPerHour. cbn. f_equal. lia.
Qed.

Lemma hoursBetween_nonneg : forall start finish,
  start <= finish -> (0 <= hoursBetween start finish)%Q.
Proof.
  intros start finish H. unfold Qle, hoursBetween, msPerHour. cbn. lia.
Qed.

(** The handler under a fault-free storage: the failing branch of a storage
    operation is absurd. *)
Ltac run_ok Hf :=
  run_op;
  [ exfalso; eauto
  | match goal with
    | F : _ -> ?f = None |- _ => specialize (F Hf); subst f
    end ].

Lemma presentRows_hours : forall now atts w,
  fault w = None ->
  exists rows w',
    presentRows now atts w = (Ok rows, w')
    /\ fault w' = None
    /\ map pr_hoursWorked rows
       = map (fun a => elapsedHours (att_gateInTime a) now) atts
    /\ map pr_attendanceId rows = map att_id atts.
Proof.
  intros now atts. induction atts as [|att atts IH]; intros w Hf.
  - exists [], w. now repeat split.
  - cbn [presentRows]. run_ok Hf. rewrite bind_run.
    destruct (IH (mkWorld (db w) (log w ++ [OpSelect Employees]) None) eq_refl)
      as [rows [w' [E [Hf' [Hh Hi]]]]].
    rewrite E. eexists _, w'. split; [reflexivity|].
    split; [exact Hf'|]. cbn [map pr_hoursWorked pr_attendanceId].
    now rewrite Hh, Hi.
Qed.

(** The open-session list: one row per session with a null gate-out
    timestamp, latest gate-in first, each with its clamped elapsed hours. *)
Lemma gatePresent_hours : forall now w,
  fault w = None ->
  exists rows,
    fst (gatePresent now w) = mkResponse 200 (JPresent rows)
    /\ map pr_hoursWorked rows
       = map (fun a => elapsedHours (att_gateInTime a) now)
             (sortBy (fun a b => att_gateInTime b <=? att_gateInTime a)
                     (filter (fun a => isNull (att_gateOutTime a)) (attendance (db w)))).
Proof.
  intros now w Hf. unfold gatePresent, handle. run_ok Hf. rewrite bind_run.
  destruct (presentRows_hours now
              (sortBy (fun a b => att_gateInTime b <=? att_gateInTime a)
                 (filter (fun a => isNull (att_gateOutTime a)) (attendance (db w))))
              (mkWorld (db w) (log w ++ [OpSelect AttendanceT]) None) eq_refl)
    as [rows [w' [E [_ [Hh _]]]]].
  rewrite E. exists rows. now split.
Qed.

(** The hours of the open-session list are the difference of the two
    instants in hours, clamped below at 0; the overtime test is
    [hours >= 9], true at exactly 9 hours and false at 8.999 hours. *)
Lemma hours_and_overtime :
  (forall start finish,
      elapsedHours start finish
      = (if finish <? start then 0%Q else hoursBetween start finish)
      /\ (0 <= elapsedHours start finish)%Q)
  /\ (forall hours, isOvertime hours = true <-> (9 <= hours)%Q)
  /\ (forall hours, isOT hours = isOvertime hours)
  /\ isOvertime 9 = true
  /\ isOvertime (8999 # 1000) = false
  /\ (forall start,
        isOvertime (elapsedHours start (start + 32400000)) = true
        /\ isOvertime (elapsedHours start (start + 32396400)) = false)
  /\ (forall now w,
        fault w = None ->
        exists rows,
          fst (gatePresent now w) = mkResponse 200 (JPresent rows)
          /\ map pr_hoursWorked rows
             = map (fun a => elapsedHours (att_gateInTime a) now)
                   (sortBy (fun a b => att_gateInTime b <=? att_gateInTime a)
                      (filter (fun a => isNull (att_gateOutTime a))
                              (attendance (db w))))).
Proof.
  split; [|split; [|split; [|split; [|split; [|split; [|apply gatePresent_hours]]]]]].
  - intros start finish. split; [apply elapsedHours_clamp|].
    rewrite elapsedHours_clamp. destruct (Z.ltb_spec finish start).
    + apply Qle_refl.
    + now apply hoursBetween_nonneg.
  - apply overtime_ge_9.
  - reflexivity.
  - reflexivity.
  - reflexivity.
  - intros start. rewrite !elapsedHours_clamp.
    destruct (Z.ltb_spec (start + 32400000) start); [lia|].
    destruct (Z.ltb_spec (start + 32396400) start); [lia|].
    rewrite !isOvertime_hours. split.
    + apply Z.leb_le. lia.
    + apply Z.leb_gt. lia.
Qed.

(** C5 (the code at the failing input): the hours are clamped in one place
    only.  A session was opened on Wednesday 09:00 and the server's clock
    then reads 08:30.  The open-session list shows 0 hours for it, as the
    claim says; the scan of the badge is answered with -0.5 hours elapsed,
    the live dashboard lists -0.5 hours worked, and after a bulk gate-out at
    that instant the report shows -0.5 total hours.  On every route the
    difference of two instants is negative whenever the second lies before
    the first; the overtime test of the claim holds: true at exactly 9 hours,
    false at 8.999. *)
Theorem close_time_hours_not_clamped :
  let early := wednesday9 - 1800000 in
  (exists rows,
      fst (gatePresent early sampleWorldIn) = mkResponse 200 (JPresent rows)
      /\ map pr_hoursWorked rows = [0%Q])
  /\ (exists hoursElapsed,
        fst (gateEntry 0 early "n2" (Some "SLP001") false sampleWorldIn)
          = mkResponse 400 (JAlreadyScanned "Card already scanned" "E1" hoursElapsed)
        /\ (hoursElapsed == - (1 # 2))%Q)
  /\ (exists data,
        fst (dashboardLive early sampleWorldIn) = mkLiveResponse 200 (LData data)
        /\ Forall (fun r => (le_hoursWorked r == - (1 # 2))%Q) (liveManpower data)
        /\ liveManpower data <> [])
  /\ (exists records,
        fst (reports 0 (Some 19725) (Some 19725) None false
               (snd (bulkOut early (Some ["a1"]) sampleWorldIn)))
          = mkResponse 200 (JRecords records)
        /\ Forall (fun r => (row_totalHours r == - (1 # 2))%Q) records
        /\ records <> [])
  /\ (forall start finish,
        finish < start ->
        (hoursBetween start finish < 0)%Q
        /\ (elapsedHours start finish == 0)%Q)
  /\ isOvertime 9 = true
  /\ isOvertime (8999 # 1000) = false.
Proof.
  intros early.
  split; [eexists; split; reflexivity|].
  split; [eexists; split; [reflexivity | reflexivity]|].
  split; [eexists; split; [reflexivity|]; split;
            [repeat constructor | discriminate]|].
  split; [eexists; split; [reflexivity|]; split;
            [repeat constructor | discriminate]|].
  split; [|split; reflexivity].
  intros start finish H. split.
  - unfold hoursBetween, msPerHour, Qlt, Qdiv, Qmult, Qinv, inject_Z. cbn. lia.
  - rewrite elapsedHours_clamp. apply Z.ltb_lt in H. rewrite H. reflexivity.
Qed.

(** ** Bulk gate-out *)

Lemma existsb_updateRows_id : forall attId p g rows,
  (forall a, att_id (g a) = att_id a) ->
  existsb (fun a => (att_id a =? attId)%string) (updateRows p g rows)
  = existsb (fun a => (att_id a =? attId)%string) rows.
Proof.
  intros attId p g rows Hg. unfold updateRows.
  induction rows as [|a rows IH]; simpl; [reflexivity|].
  rewrite IH. destruct (p a); [rewrite Hg|]; reflexivity.
Qed.

Lemma hd_error_filter_existsb : forall {A} (p : A -> bool) rows,
  existsb p rows = match hd_error (filter p rows) with Some _ => true | None => false end.
Proof.
  intros A p rows. induction rows as [|a rows IH]; simpl; [reflexivity|].
  destruct (p a); simpl; [reflexivity | exact IH].
Qed.

(** What the loop counts: the identifiers, with repetitions, that resolve to
    a row of the ledger, open or not. *)
Lemma bulkOutLoop_count : forall now ids count w,
  fault w = None ->
  fst (bulkOutLoop now ids count w)
  = Ok (count + List.length
                  (filter (fun i => existsb (fun a => (att_id a =? i)%string)
                                            (attendance (db w))) ids))%nat.
Proof.
  intros now ids. induction ids as [|attId ids IH]; intros count w Hf; simpl.
  - now rewrite Nat.add_0_r.
  - run_ok Hf. rewrite limit1_hd, hd_error_filter_existsb.
    destruct (hd_error (filter (fun a => (att_id a =? attId)%string)
                               (attendance (db w)))) as [att0|].
    + run_ok (eq_refl (@None nat)). rewrite IH by reflexivity. simpl.
      f_equal. rewrite Nat.add_succ_r. f_equal. f_equal. f_equal.
      apply filter_ext. intros i. now apply existsb_updateRows_id.
    + rewrite IH by reflexivity. reflexivity.
Qed.

(** The count reported by a bulk gate-out: every identifier of the request
    that resolves to a row, whether or not that row was open, and as many
    times as it is listed. *)
Lemma bulkOut_count : forall now attId ids w,
  fault w = None ->
  fst (bulkOut now (Some (attId :: ids)) w)
  = mkResponse 200
      (JBulkOut (List.length
                   (filter (fun i => existsb (fun a => (att_id a =? i)%string)
                                             (attendance (db w)))
                           (attId :: ids)))).
Proof.
  intros now attId ids w Hf. unfold bulkOut, handle. rewrite bind_run.
  pose proof (bulkOutLoop_count now (attId :: ids) 0%nat w Hf) as H.
  destruct (bulkOutLoop now (attId :: ids) 0%nat w) as [[count|] w'];
    simpl in H; [|discriminate].
  injection H as ->. reflexivity.
Qed.

(** C6 (the code at the failing input): with [s1] open and [s2] already
    closed, a bulk gate-out of [s1; s2; s1] and an unknown identifier reports
    3 closures although one session was open, and rewrites the closed
    session's gate-out timestamp and overtime flag. *)
Theorem bulk_out_recloses_and_recounts :
  fst (bulkOut wednesday19 (Some ["s1"; "s2"; "s1"; "zz"]) bulkWorld)
    = mkResponse 200 (JBulkOut 3)
  /\ openCount "u1" (attendance (db bulkWorld)) = 1%nat
  /\ openCount "u2" (attendance (db bulkWorld)) = 0%nat
  /\ attendance (db (snd (bulkOut wednesday19 (Some ["s1"; "s2"; "s1"; "zz"]) bulkWorld)))
     = [setGateOut wednesday19 true openRow; setGateOut wednesday19 true closedRow]
  /\ att_gateOutTime closedRow = Some (wednesday9 + 7200000)
  /\ att_isOvertime closedRow = false.
Proof. repeat split; reflexivity. Qed.

(** ** Reports *)

Lemma datesLoop_seq : forall toDate fuel d,
  Z.of_nat fuel <= toDate - d + 1 ->
  datesLoop fuel d toDate = map (fun i => d + Z.of_nat i) (seq 0 fuel).
Proof.
  intros toDate fuel. induction fuel as [|fuel IH]; intros d H; [reflexivity|].
  cbn [datesLoop]. destruct (Z.leb_spec d toDate) as [_|Hgt]; [|lia].
  rewrite IH by lia. cbn [seq map]. rewrite Z.add_0_r. f_equal.
  rewrite <- seq_shift, map_map. apply map_ext. intros i. lia.
Qed.

Lemma enumDates_seq : forall fromDate toDate,
  enumDates fromDate toDate
  = map (fun i => fromDate + Z.of_nat i) (seq 0 (Z.to_nat (toDate - fromDate + 1))).
Proof.
  intros fromDate toDate. unfold enumDates.
  destruct (Z.to_nat (toDate - fromDate + 1)) eqn:E; [reflexivity|].
  apply datesLoop_seq. lia.
Qed.

Lemma enumDates_length : forall fromDate toDate,
  List.length (enumDates fromDate toDate) = Z.to_nat (toDate - fromDate + 1).
Proof.
  intros fromDate toDate. now rewrite enumDates_seq, length_map, length_seq.
Qed.

Lemma enumDates_In : forall fromDate toDate d,
  In d (enumDates fromDate toDate) <-> fromDate <= d <= toDate.
Proof.
  intros fromDate toDate d. rewrite enumDates_seq, in_map_iff. split.
  - intros [i [<- Hi]]. apply in_seq in Hi. lia.
  - intros H. exists (Z.to_nat (d - fromDate)). split; [lia|].
    apply in_seq. lia.
Qed.

Lemma insertBy_perm : forall {A} (before : A -> A -> bool) x l,
  Permutation (insertBy before x l) (x :: l).
Proof.
  intros A before x l. induction l as [|y l IH]; simpl; [reflexivity|].
  destruct (before x y); [reflexivity|].
  rewrite IH. apply perm_swap.
Qed.

Lemma sortBy_perm : forall {A} (before : A -> A -> bool) l,
  Permutation (sortBy before l) l.
Proof.
  intros A before l. unfold sortBy. induction l as [|x l IH]; simpl; [reflexivity|].
  rewrite insertBy_perm. now constructor.
Qed.

Lemma filter_all : forall {A} (l : list A), filter (fun _ => true) l = l.
Proof. intros A l. induction l as [|x l IH]; simpl; congruence. Qed.

Lemma find_filter : forall {A} (p q : A -> bool) l,
  find p (filter q l) = find (fun a => q a && p a) l.
Proof.
  intros A p q l. induction l as [|x l IH]; simpl; [reflexivity|].
  destruct (q x); simpl; [destruct (p x); auto | exact IH].
Qed.

Lemma find_ext' : forall {A} (p q : A -> bool) l,
  (forall a, p a = q a) -> find p l = find q l.
Proof.
  intros A p q l H. induction l as [|x l IH]; simpl; [reflexivity|].
  now rewrite H, IH.
Qed.

Lemma find_existsb : forall {A} (p : A -> bool) l,
  existsb p l = match find p l with Some _ => true | None => false end.
Proof.
  intros A p l. induction l as [|x l IH]; simpl; [reflexivity|].
  destruct (p x); [reflexivity | exact IH].
Qed.

(** The session a report finds for an employee and a date of the range is
    the first session of that employee dated that day in the whole ledger. *)
Lemma findAtt_in_range : forall fromDate toDate rows emp date,
  fromDate <= date <= toDate ->
  findAtt (filter (fun a => (fromDate <=? att_date a) && (att_date a <=? toDate)) rows)
          emp date
  = findAtt rows emp date.
Proof.
  intros fromDate toDate rows emp date H. unfold findAtt. rewrite find_filter.
  apply find_ext'. intros a.
  destruct (att_employeeId a =? emp_id emp)%string; simpl; [|apply andb_false_r].
  destruct (Z.eqb_spec (att_date a) date) as [->|]; [|apply andb_false_r].
  rewrite andb_true_r. apply andb_true_iff. split; apply Z.leb_le; lia.
Qed.

Lemma findAtt_hasSession : forall d emp date,
  hasSessionOn d emp date
  = match findAtt (attendance d) emp date with Some _ => true | None => false end.
Proof. intros d emp date. unfold hasSessionOn, findAtt. apply find_existsb. Qed.

Lemma findAtt_date : forall rows emp date a,
  findAtt rows emp date = Some a -> att_date a = date.
Proof.
  intros rows emp date a H. apply find_some in H. destruct H as [_ H].
  apply andb_true_iff in H. destruct H as [_ H]. now apply Z.eqb_eq.
Qed.

(** One employee and one date of the range: the rows pushed are the listed
    part of the pair's classification. *)
Lemma recordsFor_key : forall tz onlyAbsent fromDate toDate d emp date,
  fromDate <= date <= toDate ->
  map rowKey
    (recordsFor tz onlyAbsent
       (filter (fun a => (fromDate <=? att_date a) && (att_date a <=? toDate))
               (attendance d))
       emp (findRoster (rosters d) emp) date)
  = filter (fun k => listed onlyAbsent (snd k)) [routeKey tz d (emp, date)].
Proof.
  intros tz onlyAbsent fromDate toDate d emp date H.
  unfold recordsFor, routeKey, routeStatus. rewrite (findAtt_in_range _ _ _ _ _ H).
  rewrite findAtt_hasSession. cbn [fst snd].
  destruct (findAtt (attendance d) emp date) as [a|] eqn:Hfind;
    destruct (isWeekOffAt tz (findRoster (rosters d) emp) (dateInstant date));
    destruct onlyAbsent; try reflexivity;
    cbn; unfold rowKey; cbn; now rewrite (findAtt_date _ _ _ _ Hfind).
Qed.

Lemma flat_map_listed : forall {A B K} (k : B -> K) (f : A -> list B)
    (p : K -> bool) (g : A -> K) l,
  (forall x, In x l -> map k (f x) = filter p [g x]) ->
  map k (flat_map f l) = filter p (map g l).
Proof.
  intros A B K k f p g l H. induction l as [|x l IH]; [reflexivity|].
  cbn [flat_map map]. rewrite map_app, H by now left.
  rewrite IH by (intros y Hy; apply H; now right).
  cbn [filter]. destruct (p (g x)); reflexivity.
Qed.

Lemma recordsOf_key : forall tz department onlyAbsent fromDate toDate d emps,
  map rowKey
    (flat_map
       (recordsOf tz department onlyAbsent (rosters d)
          (filter (fun a => (fromDate <=? att_date a) && (att_date a <=? toDate))
                  (attendance d))
          (enumDates fromDate toDate))
       emps)
  = filter (fun k => listed onlyAbsent (snd k))
      (map (routeKey tz d)
         (list_prod (filter (fun e => negb (deptSkipped department e)) emps)
                    (enumDates fromDate toDate))).
Proof.
  intros tz department onlyAbsent fromDate toDate d emps.
  induction emps as [|emp emps IH]; [reflexivity|].
  cbn [flat_map filter]. rewrite map_app, IH. unfold recordsOf at 1.
  destruct (deptSkipped department emp); cbn [negb]; [reflexivity|].
  cbn [list_prod]. rewrite map_app, filter_app. f_equal.
  rewrite map_map.
  apply (flat_map_listed rowKey _ (fun k => listed onlyAbsent (snd k))
                         (fun date => routeKey tz d (emp, date))).
  intros date Hin. apply enumDates_In in Hin.
  now apply recordsFor_key.
Qed.

Lemma statusCell_routeStatus : forall tz fromDate toDate d emp date,
  fromDate <= date <= toDate ->
  statusCell tz
    (filter (fun a => (att_employeeId a =? emp_id emp)%string)
       (filter (fun a => (fromDate <=? att_date a) && (att_date a <=? toDate))
               (attendance d)))
    (findRoster (rosters d) emp) date
  = routeStatus tz d emp date.
Proof.
  intros tz fromDate toDate d emp date H. unfold statusCell, routeStatus.
  rewrite find_filter.
  change (find _ (filter ?q (attendance d)))
    with (findAtt (filter q (attendance d)) emp date).
  rewrite (findAtt_in_range _ _ _ _ _ H), findAtt_hasSession.
  destruct (findAtt (attendance d) emp date); reflexivity.
Qed.

Lemma export_department_filter : forall department (emps : list Employee),
  match department with
  | Some dept =>
    if falsy department then emps
    else filter (fun e => (emp_department e =? dept)%string) emps
  | None => emps
  end
  = filter (fun e => negb (deptSkipped department e)) emps.
Proof.
  intros [dept|] emps; unfold deptSkipped.
  - destruct (falsy (Some dept)); cbn [negb andb].
    + now rewrite filter_all.
    + apply filter_ext. intros e. now rewrite negb_involutive.
  - cbn. now rewrite filter_all.
Qed.

(** ** The date loop and the rest day, by time zone *)

Lemma isoDate_dateInstant : forall d, isoDate (dateInstant d) = d.
Proof. intros d. unfold isoDate, dateInstant. now apply Z.div_mul. Qed.

Lemma nextLocalDay_fixed : forall tz d,
  nextLocalDay (fixedZone tz) (dateInstant d) = dateInstant (d + 1).
Proof. intros tz d. unfold nextLocalDay, fixedZone, dateInstant. cbn. lia. Qed.

Lemma dateInstant_leb : forall d d',
  (dateInstant d <=? dateInstant d') = (d <=? d').
Proof.
  intros d d'. unfold dateInstant, msPerDay.
  destruct (Z.leb_spec d d'); [apply Z.leb_le | apply Z.leb_gt]; lia.
Qed.

(** On a server whose zone keeps one offset, the loop of the report routes
    ends and yields the dates of the range, each once, in ascending order. *)
Lemma datesLoopIn_fixed : forall tz toDate fuel fromDate,
  (Z.to_nat (toDate - fromDate + 1) < fuel)%nat ->
  datesLoopIn (fixedZone tz) fuel (dateInstant fromDate) (dateInstant toDate)
  = Some (enumDates fromDate toDate).
Proof.
  intros tz toDate fuel. unfold enumDates.
  induction fuel as [|fuel IH]; intros fromDate H; [lia|].
  cbn [datesLoopIn]. rewrite dateInstant_leb.
  destruct (Z.leb_spec fromDate toDate) as [Hle|Hgt].
  - rewrite nextLocalDay_fixed, IH by lia. rewrite isoDate_dateInstant.
    replace (Z.to_nat (toDate - fromDate + 1))
      with (S (Z.to_nat (toDate - (fromDate + 1) + 1))) by lia.
    cbn [datesLoop option_map].
    destruct (Z.leb_spec fromDate toDate); [reflexivity | lia].
  - replace (Z.to_nat (toDate - fromDate + 1)) with 0%nat by lia. reflexivity.
Qed.

(** Across a change of the offset the loop is not the walk of the range: on
    a server on US Eastern time, the range 2024-03-09 .. 2024-03-12 yields
    the 9th, the 10th twice and the 11th, and never the 12th. *)
Example clock_change_repeats_date :
  datesLoopIn easternSpring 10 (dateInstant 19791) (dateInstant 19794)
  = Some [19791; 19792; 19792; 19793]
  /\ enumDates 19791 19794 = [19791; 19792; 19793; 19794].
Proof. split; reflexivity. Qed.

Lemma weekdayLong_at_date : forall tz date,
  0 <= tz < msPerDay ->
  weekdayLong tz (dateInstant date) = weekdayOfDate date.
Proof.
  intros tz date H. unfold weekdayLong, weekdayOfDate, dateInstant.
  replace ((date * msPerDay + tz) / msPerDay) with date; [reflexivity|].
  rewrite Z.div_add_l by (unfold msPerDay; lia).
  rewrite Z.div_small by exact H. lia.
Qed.

(** At or east of Greenwich, the rest-day test of the report routes is
    whether the date is the rest day. *)
Lemma routeStatus_statusOf : forall tz d emp date,
  0 <= tz < msPerDay ->
  routeStatus tz d emp date = statusOf d emp date.
Proof.
  intros tz d emp date H. unfold routeStatus, statusOf, isWeekOffAt, isRestDay.
  now rewrite weekdayLong_at_date.
Qed.

(** West of Greenwich the test is shifted by a day: on a server seven hours
    behind UTC, an employee whose rest day is Sunday and who has no session
    is classified "A" on Sunday 2024-01-07 and "WO" on Monday 2024-01-08. *)
Example west_of_greenwich_rest_day_shifts :
  statusOf sampleDb sampleEmployee 19729 = "WO"
  /\ statusOf sampleDb sampleEmployee 19730 = "A"
  /\ routeStatus (- 7 * 3600000) sampleDb sampleEmployee 19729 = "A"
  /\ routeStatus (- 7 * 3600000) sampleDb sampleEmployee 19730 = "WO".
Proof. repeat split; reflexivity. Qed.

(** C7 (as the code has it): on a server whose zone keeps one offset, at or
    east of Greenwich and less than a day ahead of it, and with a fault-free
    storage, the report lists, for the active employees (of the department,
    when one is given) and the dates of the range, one row per (employee,
    date) pair whose status is listed: "P" when a session of that employee is
    dated that day, else "A" when the date is not the employee's rest day; a
    rest day without a session ("WO") gets no row, and with only-absences just
    the "A" rows remain.  It has N x M rows when no pair is "WO".  The sheet
    of the export has, for each employee, one cell for each date, holding
    "P", "WO" or "A".  The dates are those of the range because, with one
    offset, the routes' loop over the dates ends and yields them. *)
Theorem report_rows_by_classification :
  forall tz fromDate toDate department onlyAbsent w,
    fault w = None ->
    0 <= tz < msPerDay ->
    exists records sheet,
      fst (reports tz (Some fromDate) (Some toDate) department onlyAbsent w)
        = mkResponse 200 (JRecords records)
      /\ Permutation (map rowKey records)
           (filter (fun k => listed onlyAbsent (snd k))
              (map (pairKey (db w))
                 (list_prod (reportEmployees (db w) department)
                            (enumDates fromDate toDate))))
      /\ List.length (list_prod (reportEmployees (db w) department)
                                (enumDates fromDate toDate))
         = (List.length (reportEmployees (db w) department)
            * Z.to_nat (toDate - fromDate + 1))%nat
      /\ (onlyAbsent = false ->
          (forall emp date,
              In emp (reportEmployees (db w) department) ->
              In date (enumDates fromDate toDate) ->
              statusOf (db w) emp date <> "WO") ->
          List.length records
          = (List.length (reportEmployees (db w) department)
             * Z.to_nat (toDate - fromDate + 1))%nat)
      /\ fst (reportsExport tz (Some fromDate) (Some toDate) department false w)
         = mkResponse 200 (JSheet sheet)
      /\ map mx_cells sheet
         = map (fun emp =>
                  map (fun date => (date, statusOf (db w) emp date))
                      (enumDates fromDate toDate))
               (reportEmployees (db w) department)
      /\ (forall fuel,
            (Z.to_nat (toDate - fromDate + 1) < fuel)%nat ->
            datesLoopIn (fixedZone tz) fuel (dateInstant fromDate) (dateInstant toDate)
            = Some (enumDates fromDate toDate)).
Proof.
  intros tz fromDate toDate department onlyAbsent w Hf Htz.
  assert (Hlen : List.length (list_prod (reportEmployees (db w) department)
                                        (enumDates fromDate toDate))
                 = (List.length (reportEmployees (db w) department)
                    * Z.to_nat (toDate - fromDate + 1))%nat).
  { now rewrite length_prod, enumDates_length. }
  assert (Hkey : forall p, routeKey tz (db w) p = pairKey (db w) p).
  { intros p. unfold routeKey, pairKey. now rewrite routeStatus_statusOf. }
  unfold reports, reportsExport, handle.
  do 3 (run_ok Hf || run_ok (eq_refl (@None nat))).
  do 3 (run_ok Hf || run_ok (eq_refl (@None nat))).
  cbn [fst ret]. rewrite filter_all, export_department_filter.
  do 2 eexists. split; [reflexivity|].
  assert (Hperm : Permutation
            (map rowKey
               (sortBy byDateDesc
                  (flat_map
                     (recordsOf tz department onlyAbsent (rosters (db w))
                        (filter (fun a => (fromDate <=? att_date a)
                                          && (att_date a <=? toDate))
                                (attendance (db w)))
                        (enumDates fromDate toDate))
                     (filter (fun e => emp_isActive e) (employees (db w))))))
            (filter (fun k => listed onlyAbsent (snd k))
               (map (pairKey (db w))
                  (list_prod (reportEmployees (db w) department)
                             (enumDates fromDate toDate))))).
  { rewrite <- (map_ext _ _ Hkey). unfold reportEmployees.
    rewrite <- recordsOf_key. apply Permutation_map, sortBy_perm. }
  split; [exact Hperm|]. split; [exact Hlen|].
  split; [|split; [reflexivity|split]].
  - intros -> Hno. rewrite <- Hlen.
    apply Permutation_length in Hperm. rewrite length_map in Hperm.
    rewrite Hperm. rewrite <- (length_map (pairKey (db w))). f_equal.
    apply forallb_filter_id. apply forallb_forall. intros k Hk.
    apply in_map_iff in Hk. destruct Hk as [[emp date] [<- Hin]].
    apply in_prod_iff in Hin. destruct Hin as [He Hd].
    unfold listed, pairKey. cbn [fst snd].
    apply negb_true_iff. apply String.eqb_neq. now apply Hno.
  - rewrite map_map. unfold reportEmployees. apply map_ext_in.
    intros emp _. unfold matrixRow. cbn [mx_cells].
    apply map_ext_in. intros date Hin. apply enumDates_In in Hin.
    f_equal. rewrite <- (routeStatus_statusOf tz) by exact Htz.
    now apply statusCell_routeStatus.
  - intros fuel Hfuel. now apply datesLoopIn_fixed.
Qed.

Lemma report_rows_by_classification_witness :
  exists records sheet,
    fst (reports 19800000 (Some 19725) (Some 19727) None false reportWorld)
      = mkResponse 200 (JRecords records)
    /\ Permutation (map rowKey records)
         (filter (fun k => listed false (snd k))
            (map (pairKey (db reportWorld))
               (list_prod (reportEmployees (db reportWorld) None)
                          (enumDates 19725 19727))))
    /\ List.length (list_prod (reportEmployees (db reportWorld) None)
                              (enumDates 19725 19727))
       = (List.length (reportEmployees (db reportWorld) None)
          * Z.to_nat (19727 - 19725 + 1))%nat
    /\ (false = false ->
        (forall emp date,
            In emp (reportEmployees (db reportWorld) None) ->
            In date (enumDates 19725 19727) ->
            statusOf (db reportWorld) emp date <> "WO") ->
        List.length records
        = (List.length (reportEmployees (db reportWorld) None)
           * Z.to_nat (19727 - 19725 + 1))%nat)
    /\ fst (reportsExport 19800000 (Some 19725) (Some 19727) None false reportWorld)
       = mkResponse 200 (JSheet sheet)
    /\ map mx_cells sheet
       = map (fun emp =>
                map (fun date => (date, statusOf (db reportWorld) emp date))
                    (enumDates 19725 19727))
             (reportEmployees (db reportWorld) None)
    /\ (forall fuel,
          (Z.to_nat (19727 - 19725 + 1) < fuel)%nat ->
          datesLoopIn (fixedZone 19800000) fuel (dateInstant 19725) (dateInstant 19727)
          = Some (enumDates 19725 19727)).
Proof.
  apply (report_rows_by_classification 19800000 19725 19727 None false reportWorld).
  - reflexivity.
  - unfold msPerDay. lia.
Defined.

(** The three-day report over the two sample employees: six rows, later
    dates first, "A, A, A" for the first employee and "A, P, A" for the
    second. *)
Example report_three_days :
  match body (fst (reports 0 (Some 19725) (Some 19727) None false reportWorld)) with
  | JRecords records => map rowKey records
  | _ => []
  end
  = [("EMP001", 19727, "A"); ("EMP002", 19727, "A");
     ("EMP001", 19726, "A"); ("EMP002", 19726, "P");
     ("EMP001", 19725, "A"); ("EMP002", 19725, "A")].
Proof. reflexivity. Qed.

(** C7 (the claim as stated fails): one active employee and a one-day range
    that is the employee's rest day give a report with no row, not 1 x 1. *)
Lemma report_rest_day_counterexample :
  exists records,
    fst (reports 0 (Some 19729) (Some 19729) None false sampleWorld)
      = mkResponse 200 (JRecords records)
    /\ List.length records
       <> (List.length (reportEmployees (db sampleWorld) None)
           * List.length (enumDates 19729 19729))%nat.
Proof. exists []. split; [reflexivity | discriminate]. Qed.

(** ** Outcomes and channels *)

Lemma prefix_append : forall needle post, String.prefix needle (needle ++ post) = true.
Proof.
  induction needle as [|c needle IH]; intros post; simpl.
  - now destruct post.
  - destruct (ascii_dec c c); [apply IH | congruence].
Qed.

Lemma includes_unfold : forall hay needle,
  includes hay needle
  = String.prefix needle hay
    || match hay with
       | EmptyString => false
       | String _ hay' => includes hay' needle
       end.
Proof. intros [|c hay] needle; reflexivity. Qed.

Lemma includes_append : forall pre needle post,
  includes (pre ++ needle ++ post) needle = true.
Proof.
  induction pre as [|c pre IH]; intros needle post.
  - simpl append. now rewrite includes_unfold, prefix_append.
  - simpl. rewrite IH. apply orb_true_r.
Qed.

(** C8 (as the code has it): every response of the gate-entry route is one
    of: gate-in or gate-out with status 200; "Card already scanned" with
    status 400; "Employee is on week off. Confirmation required." with status
    409; or a message with status 400, 404, 403 or 500.  So the response is
    [ok] exactly for gate-in and gate-out, and the two decision outcomes reach
    the screen through [onError] as the failures do.  [onError] tells them
    apart by the message text of the error: applied to the error of that very
    response it opens the week-off confirmation for the one, shows the
    informational notice "Card already scanned" for the other, and an error
    notice for each failure.

    The error is raised by [apiRequest], which is not among the sources;
    [errorText] is the message it gives the error of a response, taken as a
    parameter: what is asked of it is that the two phrases [onError] looks for
    occur in it exactly when they occur in the message text of the body. *)
Theorem gate_entry_channels :
  forall (errorText : Response -> string) tz now newId slpid allow w st,
    (forall r,
        includes (errorText r) "week off"
          = includes (bodyMessage (body r)) "week off"
        /\ includes (errorText r) "already scanned"
           = includes (bodyMessage (body r)) "already scanned") ->
    let r := fst (gateEntry tz now newId slpid allow w) in
    match body r with
    | JGateIn message _ =>
        status r = 200 /\ message = "Gate In recorded successfully"
    | JGateOut _ _ => status r = 200
    | JAlreadyScanned message _ _ =>
        status r = 400
        /\ message = "Card already scanned"
        /\ onError st (Some (errorText r))
           = resetForm st (Some (NoticeInfo "Card already scanned"))
    | JWeekOff message _ =>
        status r = 409
        /\ message = "Employee is on week off. Confirmation required."
        /\ onError st (Some (errorText r)) = weekOffPrompt st
    | JMessage message =>
        ((status r = 400 /\ message = "SLPID is required")
         \/ (status r = 404 /\ message = "Employee not found")
         \/ (status r = 403 /\ message = "Employee is inactive")
         \/ (status r = 500 /\ message = "Failed to record entry"))
        /\ gs_toast (onError st (Some (errorText r)))
           = Some (NoticeError (orElse (errorText r) "Failed to record entry"))
        /\ gs_showWeekOffModal (onError st (Some (errorText r)))
           = gs_showWeekOffModal st
    | _ => False
    end
    /\ (res_ok r = true <->
        match body r with JGateIn _ _ | JGateOut _ _ => True | _ => False end).
Proof.
  intros errorText tz now newId slpid allow w st Htext r.
  destruct (gateEntry_spec tz now newId slpid allow w) as [Hs _]. fold r in Hs.
  assert (Hweek := fun r => proj1 (Htext r)).
  assert (Hscan := fun r => proj2 (Htext r)).
  remember (db (snd (gateEntry tz now newId slpid allow w))) as d' eqn:Ed.
  clear Ed. clearbody r.
  split.
  - unfold onError.
    inversion Hs; subst; cbn [body status]; rewrite ?Hweek, ?Hscan;
      cbn [body bodyMessage]; repeat split; auto 6.
  - inversion Hs; unfold res_ok; simpl; split; intros Hok;
      try discriminate; try contradiction; auto.
Qed.

Lemma gate_entry_channels_witness :
  let r := fst (gateEntry 0 (wednesday9 + 1800000) "a2" (Some "SLP001") false
                  sampleWorldIn) in
  status r = 400
  /\ bodyMessage (body r) = "Card already scanned"
  /\ onError scannerScreen (Some (bodyMessage (body r)))
     = resetForm scannerScreen (Some (NoticeInfo "Card already scanned")).
Proof.
  intros r.
  destruct (gate_entry_channels (fun r => bodyMessage (body r)) 0
              (wednesday9 + 1800000) "a2" (Some "SLP001") false sampleWorldIn
              scannerScreen (fun r => conj eq_refl eq_refl)) as [H _].
  exact H.
Defined.

(** C8 (the claim as stated fails): a scan half an hour after the gate-in
    is answered with status 400, the status of a validation failure, and the
    response is not [ok]. *)
Lemma duplicate_scan_rejected_counterexample :
  fst (gateEntry 0 (wednesday9 + 1800000) "a2" (Some "SLP001") false sampleWorldIn)
    = mkResponse 400
        (JAlreadyScanned "Card already scanned" "E1"
           (hoursBetween wednesday9 (wednesday9 + 1800000)))
  /\ res_ok (fst (gateEntry 0 (wednesday9 + 1800000) "a2" (Some "SLP001") false
                    sampleWorldIn)) = false
  /\ status (fst (gateEntry 0 (wednesday9 + 1800000) "a2" (Some "SLP001") false
                    sampleWorldIn))
     = status (fst (gateEntry 0 (wednesday9 + 1800000) "a2" None false sampleWorldIn))
  /\ res_ok (fst (gateEntry 0 sunday9 "a1" (Some "SLP001") false sampleWorld)) = false.
Proof. repeat split; reflexivity. Qed.

(** ** Validation *)

Lemma enumDates_inverted : forall fromDate toDate,
  toDate < fromDate -> enumDates fromDate toDate = [].
Proof.
  intros fromDate toDate H. unfold enumDates.
  replace (Z.to_nat (toDate - fromDate + 1)) with 0%nat by lia. reflexivity.
Qed.

Lemma recordsOf_no_dates : forall tz department onlyAbsent allRos allAtt emps,
  flat_map (recordsOf tz department onlyAbsent allRos allAtt []) emps = [].
Proof.
  intros tz department onlyAbsent allRos allAtt emps.
  induction emps as [|emp emps IH]; [reflexivity|].
  cbn [flat_map]. rewrite IH. unfold recordsOf.
  destruct (deptSkipped department emp); reflexivity.
Qed.

(** C9 (as the code has it): a missing or empty badge code, a missing or
    empty list of session identifiers, and a missing from- or to-date are
    rejected with status 400 before any storage operation: the store, the log
    of storage operations and the fault schedule are as before.  A range with
    fromDate after toDate is not rejected by the report route: it reads the
    three tables, writes nothing and answers with an empty list; the check
    for it is in the reports screen, whose search shows an error and sends no
    query, as the gate-out screen does for an empty selection. *)
Theorem validation_before_storage :
  (forall tz now newId slpid allow w,
      falsy slpid = true ->
      gateEntry tz now newId slpid allow w
      = (mkResponse 400 (JMessage "SLPID is required"), w))
  /\ (forall now w,
        bulkOut now None w
        = (mkResponse 400 (JMessage "No attendance IDs provided"), w)
        /\ bulkOut now (Some []) w
           = (mkResponse 400 (JMessage "No attendance IDs provided"), w))
  /\ (forall tz fromDate toDate department onlyAbsent w,
        fromDate = None \/ toDate = None ->
        reports tz fromDate toDate department onlyAbsent w
        = (mkResponse 400 (JMessage "Dates required"), w))
  /\ (forall tz fromDate toDate department onlyAbsent w,
        fault w = None ->
        toDate < fromDate ->
        reports tz (Some fromDate) (Some toDate) department onlyAbsent w
        = (mkResponse 200 (JRecords []),
           mkWorld (db w)
             (log w ++ [OpSelect Employees] ++ [OpSelect Rosters]
                    ++ [OpSelect AttendanceT])
             None))
  /\ (forall fromDate toDate departmentFilter,
        toDate < fromDate ->
        handleSearch fromDate toDate departmentFilter
        = (Some (NoticeError "From date cannot be after To date"), None))
  /\ handleBulkGateOut []
     = (Some (NoticeError "Please select employees to Gate Out"), None).
Proof.
  split; [|split; [|split; [|split; [|split]]]].
  - intros tz now newId slpid allow w H.
    unfold gateEntry, handle, gateEntryBody. rewrite H. reflexivity.
  - intros now w. split; reflexivity.
  - intros tz fromDate toDate department onlyAbsent w [-> | ->];
      [|destruct fromDate]; reflexivity.
  - intros tz fromDate toDate department onlyAbsent w Hf Hlt.
    unfold reports, handle. do 3 (run_ok Hf || run_ok (eq_refl (@None nat))).
    rewrite (enumDates_inverted _ _ Hlt), recordsOf_no_dates.
    cbn. now rewrite <- !app_assoc.
  - intros fromDate toDate departmentFilter H. unfold handleSearch.
    now apply Z.ltb_lt in H as ->.
  - reflexivity.
Qed.

(** C9 (the claim as stated fails): a report over a range whose from-date
    is after its to-date is answered with status 200 and an empty list, after
    three reads of the storage. *)
Lemma inverted_range_counterexample :
  reports 0 (Some 19729) (Some 19725) None false sampleWorld
  = (mkResponse 200 (JRecords []),
     mkWorld sampleDb
       [OpSelect Employees; OpSelect Rosters; OpSelect AttendanceT] None)
  /\ res_ok (fst (reports 0 (Some 19729) (Some 19725) None false sampleWorld)) = true
  /\ log (snd (reports 0 (Some 19729) (Some 19725) None false sampleWorld))
     <> log sampleWorld.
Proof. repeat split; try reflexivity. discriminate. Qed.

(** ** Badge entry *)

(** The server resolves a badge code and its uppercase form alike. *)
Lemma gateEntry_uppercase : forall tz now newId allow s w,
  gateEntry tz now newId (Some (toUpperCase s)) allow w
  = gateEntry tz now newId (Some s) allow w.
Proof.
  intros tz now newId allow s w. unfold gateEntry, gateEntryBody.
  cbn [falsy]. rewrite toUpperCase_empty, toUpperCase_idem. reflexivity.
Qed.

(** C10 (the claim as stated fails): in scanner mode the length test is
    applied to the text as received and the conversion to uppercase comes
    after it.  The five code units "abcd" + U+00DF are not submitted, while
    their uppercase form "ABCDSS", six letters, is. *)
Example sharp_s_scanner_counterexample :
  toUpperCase sharpBadge = "ABCDSS"
  /\ snd (handleExternalScannerInput scannerScreen sharpBadge) = None
  /\ snd (handleExternalScannerInput scannerScreen (toUpperCase sharpBadge))
     = Some (mkEntryRequest "ABCDSS" false)
  /\ snd (handleExternalScannerInput scannerScreen (toUpperCase sharpBadge))
     <> snd (handleExternalScannerInput scannerScreen sharpBadge).
Proof. repeat split; try reflexivity. discriminate. Qed.

(** C10 (amended): in each of the three input modes the badge code is
    converted to uppercase before it is submitted: every request carries an
    uppercase badge code and a false override flag, and the server answers a
    code and its uppercase form alike.  Scanning or typing a code [s] or its
    uppercase form yields the same request (or none in both cases); so does
    receiving it from the external scanner when the uppercase form of [s] is
    as long as [s], which holds for every ASCII code. *)
Theorem badge_entry_uppercase :
  forall st s,
    snd (handleBarCodeScanned st (toUpperCase s)) = snd (handleBarCodeScanned st s)
    /\ (String.length (toUpperCase s) = String.length s ->
        snd (handleExternalScannerInput st (toUpperCase s))
        = snd (handleExternalScannerInput st s))
    /\ (isAscii s = true -> String.length (toUpperCase s) = String.length s)
    /\ snd (handleScan (setSlpid st (toUpperCase s))) = snd (handleScan (setSlpid st s))
    /\ (forall req,
          In (Some req)
             [snd (handleBarCodeScanned st s);
              snd (handleExternalScannerInput st s);
              snd (handleScan (setSlpid st s))] ->
          toUpperCase (slpidValue req) = slpidValue req
          /\ allowWeekOff req = false)
    /\ (forall tz now newId allow w,
          gateEntry tz now newId (Some (toUpperCase s)) allow w
          = gateEntry tz now newId (Some s) allow w).
Proof.
  intros st s. split; [|split; [|split; [|split; [|split]]]].
  - unfold handleBarCodeScanned. destruct (gs_scanCooldown st); simpl;
      [reflexivity | now rewrite toUpperCase_idem].
  - intros Hlen. unfold handleExternalScannerInput. rewrite Hlen.
    destruct ((6 <=? String.length s)%nat && isScanner (gs_scanMode st)); simpl;
      [now rewrite toUpperCase_idem | reflexivity].
  - apply toUpperCase_length.
  - unfold handleScan, setSlpid. cbn [gs_slpid].
    rewrite toUpperCase_trim, toUpperCase_empty.
    destruct (trim s =? "")%string; simpl;
      [reflexivity | now rewrite toUpperCase_idem].
  - intros req [H | [H | [H | []]]]; revert H.
    + unfold handleBarCodeScanned. destruct (gs_scanCooldown st); simpl;
        [discriminate|]. intros H. injection H as <-. simpl.
      now rewrite toUpperCase_idem.
    + unfold handleExternalScannerInput.
      destruct ((6 <=? String.length s)%nat && isScanner (gs_scanMode st)); simpl;
        [|discriminate]. intros H. injection H as <-. simpl.
      now rewrite toUpperCase_idem.
    + unfold handleScan, setSlpid. cbn [gs_slpid].
      destruct (trim s =? "")%string; simpl; [discriminate|].
      intros H. injection H as <-. simpl. now rewrite toUpperCase_idem.
  - intros tz now newId allow w. apply gateEntry_uppercase.
Qed.

Lemma badge_entry_uppercase_witness :
  String.length (toUpperCase "slp001") = String.length "slp001"
  /\ snd (handleExternalScannerInput scannerScreen (toUpperCase "slp001"))
     = snd (handleExternalScannerInput scannerScreen "slp001")
  /\ snd (handleExternalScannerInput scannerScreen "slp001")
     = Some (mkEntryRequest "SLP001" false).
Proof.
  destruct (badge_entry_uppercase scannerScreen "slp001") as [_ [H _]].
  split; [reflexivity | split; [apply H; reflexivity | reflexivity]].
Defined.

(** ** The gate-entry screen around a scan *)

(** After a typed code was answered with the week-off rejection, allowing
    the entry resubmits the same badge code with the override flag set. *)
Lemma week_off_resubmission : forall st s req pre post,
  snd (handleScan (setSlpid st s)) = Some req ->
  snd (handleWeekOffAllow
         (onError (fst (handleScan (setSlpid st s)))
                  (Some (pre ++ "week off" ++ post))))
  = Some (mkEntryRequest (slpidValue req) true).
Proof.
  intros st s req pre post. unfold handleScan, setSlpid. cbn [gs_slpid].
  destruct (trim s =? "")%string eqn:E; cbn [fst snd]; [discriminate|].
  intros H. injection H as <-. unfold onError. rewrite includes_append.
  unfold handleWeekOffAllow. cbn. unfold orElse.
  now rewrite toUpperCase_empty, E.
Qed.

(** A scanned code is resubmitted likewise. *)
Lemma week_off_resubmission_scanned : forall st data pre post,
  gs_scanCooldown st = false ->
  data <> "" ->
  snd (handleWeekOffAllow
         (onError (fst (handleBarCodeScanned st data))
                  (Some (pre ++ "week off" ++ post))))
  = Some (mkEntryRequest (toUpperCase data) true).
Proof.
  intros st data pre post Hc Hd. unfold handleBarCodeScanned. rewrite Hc.
  cbn [fst]. unfold onError. rewrite includes_append.
  unfold handleWeekOffAllow. cbn. unfold orElse.
  rewrite toUpperCase_empty. now apply String.eqb_neq in Hd as ->.
Qed.

(** What the screen shows for the two success bodies. *)
Lemma onSuccess_notice : forall st message employeeName hoursWorked,
  gs_toast (onSuccess st (JGateOut employeeName hoursWorked))
  = Some (NoticeGateOut employeeName hoursWorked)
  /\ gs_toast (onSuccess st (JGateIn message employeeName))
     = Some (NoticeGateIn (orElse employeeName "Employee")).
Proof. intros st message employeeName hoursWorked. split; reflexivity. Qed.

(** The scenario of one working day: the sample employee scans in on
    Wednesday at 09:00, scans again at 09:30 and then at 18:15, 9.25 hours
    after the gate-in. *)
Example working_day_scenario :
  let '(r1, w1) := gateEntry 0 wednesday9 "a1" (Some "slp001") false sampleWorld in
  let '(r2, w2) := gateEntry 0 (wednesday9 + 1800000) "a2" (Some "SLP001") false w1 in
  let '(r3, w3) := gateEntry 0 (wednesday9 + 33300000) "a3" (Some "SLP001") false w2 in
  r1 = mkResponse 200 (JGateIn "Gate In recorded successfully" "E1")
  /\ db w1 = db sampleWorldIn
  /\ r2 = mkResponse 400
            (JAlreadyScanned "Card already scanned" "E1"
               (hoursBetween wednesday9 (wednesday9 + 1800000)))
  /\ db w2 = db w1
  /\ r3 = mkResponse 200
            (JGateOut "E1" (hoursBetween wednesday9 (wednesday9 + 33300000)))
  /\ (hoursBetween wednesday9 (wednesday9 + 33300000) == 37 # 4)%Q
  /\ attendance (db w3) = [setGateOut (wednesday9 + 33300000) true sampleSession].
Proof. vm_compute. repeat split; reflexivity. Qed.

(** ** The ledger keeps its history *)

Lemma evolves_refl : forall a, evolves a a.
Proof. intros a. now repeat split. Qed.

Lemma evolves_trans : forall a b c, evolves a b -> evolves b c -> evolves a c.
Proof.
  intros a b c [K1 [S1 [W1 C1]]] [K2 [S2 [W2 C2]]].
  repeat split; try congruence. auto.
Qed.

Lemma evolves_setGateOut : forall now overtime a, evolves a (setGateOut now overtime a).
Proof. intros now overtime a. repeat split. simpl. discriminate. Qed.

Lemma Forall2_evolves_refl : forall rows, Forall2 evolves rows rows.
Proof. induction rows; constructor; auto using evolves_refl. Qed.

Lemma Forall2_evolves_trans : forall l1 l2 l3,
  Forall2 evolves l1 l2 -> Forall2 evolves l2 l3 -> Forall2 evolves l1 l3.
Proof.
  intros l1 l2 l3 H12. revert l3.
  induction H12 as [|a b l1 l2 Hab _ IH]; intros l3 H23; inversion H23; subst.
  - constructor.
  - constructor; [eapply evolves_trans; eauto | auto].
Qed.

Lemma Forall2_evolves_updateRows : forall p now overtime rows,
  Forall2 evolves rows (updateRows p (setGateOut now overtime) rows).
Proof.
  intros p now overtime rows. unfold updateRows.
  induction rows as [|a rows IH]; simpl; constructor; auto.
  destruct (p a); [apply evolves_setGateOut | apply evolves_refl].
Qed.

Lemma bulkOutLoop_history : forall now ids count w,
  employees (db (snd (bulkOutLoop now ids count w))) = employees (db w)
  /\ rosters (db (snd (bulkOutLoop now ids count w))) = rosters (db w)
  /\ Forall2 evolves (attendance (db w))
       (attendance (db (snd (bulkOutLoop now ids count w)))).
Proof.
  intros now ids. induction ids as [|attId ids IH]; intros count w; simpl.
  - repeat split. apply Forall2_evolves_refl.
  - run_op.
    { simpl. rewrite D. repeat split. apply Forall2_evolves_refl. }
    rewrite limit1_hd.
    destruct (hd_error (filter (fun a => (att_id a =? attId)%string)
                               (attendance (db w)))) as [att0|].
    + run_op.
      { simpl. rewrite D. simpl. repeat split. apply Forall2_evolves_refl. }
      match goal with
      | |- context [bulkOutLoop now ids ?c ?w'] =>
          destruct (IH c w') as [He [Hr Ha]]
      end.
      rewrite He, Hr. simpl in *. repeat split.
      eapply Forall2_evolves_trans; [apply Forall2_evolves_updateRows | exact Ha].
    + match goal with
      | |- context [bulkOutLoop now ids ?c ?w'] =>
          destruct (IH c w') as [He [Hr Ha]]
      end.
      rewrite He, Hr. simpl in *. now repeat split.
Qed.

(** X1: whatever the request and whatever storage faults occur, a gate scan
    and a bulk gate-out leave the employee and roster tables alone, never
    delete or reorder sessions, never change the identifier, employee, date,
    gate-in time, badge snapshot or week-off flag of a recorded session, and
    never reopen a closed one; a scan appends at most one row and a bulk
    gate-out appends none. *)
Theorem ledger_keeps_history :
  forall tz now newId slpid allow ids w,
    (employees (db (snd (gateEntry tz now newId slpid allow w))) = employees (db w)
     /\ rosters (db (snd (gateEntry tz now newId slpid allow w))) = rosters (db w)
     /\ exists kept extra,
          attendance (db (snd (gateEntry tz now newId slpid allow w)))
            = (kept ++ extra)%list
          /\ Forall2 evolves (attendance (db w)) kept
          /\ (List.length extra <= 1)%nat)
    /\ (employees (db (snd (bulkOut now ids w))) = employees (db w)
        /\ rosters (db (snd (bulkOut now ids w))) = rosters (db w)
        /\ Forall2 evolves (attendance (db w))
             (attendance (db (snd (bulkOut now ids w))))).
Proof.
  intros tz now newId slpid allow ids w. split.
  - destruct (gateEntry_spec tz now newId slpid allow w) as [Hs _].
    remember (fst (gateEntry tz now newId slpid allow w)) as r eqn:Er.
    remember (db (snd (gateEntry tz now newId slpid allow w))) as d' eqn:Ed.
    clear Er Ed.
    inversion Hs; subst; cbn [employees rosters attendance];
      (split; [reflexivity|]); (split; [reflexivity|]).
    1-5,7: exists (attendance (db w)), []; rewrite app_nil_r;
      repeat split; auto using Forall2_evolves_refl.
    + eexists _, []. rewrite app_nil_r. repeat split; auto.
      apply Forall2_evolves_updateRows.
    + eexists _, [_]. repeat split; auto using Forall2_evolves_refl.
  - unfold bulkOut, handle.
    destruct ids as [[|attId ids]|];
      try (simpl; repeat split; apply Forall2_evolves_refl).
    rewrite bind_run.
    pose proof (bulkOutLoop_history now (attId :: ids) 0%nat w) as H.
    destruct (bulkOutLoop now (attId :: ids) 0%nat w) as [[count|] w']; exact H.
Qed.

(** ** Scans in sequence *)

(** A fresh scan that needs no confirmation is a gate-in. *)
Lemma gateEntry_opens : forall tz now newId allow badge w emp,
  fault w = None ->
  badge <> "" ->
  lookupEmployee (db w) badge = Some emp ->
  emp_isActive emp = true ->
  openSession (db w) (emp_id emp) = None ->
  isWeekOffAt tz (rosterOf (db w) (emp_id emp)) now && negb allow = false ->
  fst (gateEntry tz now newId (Some badge) allow w)
    = mkResponse 200 (JGateIn "Gate In recorded successfully" (emp_name emp))
  /\ db (snd (gateEntry tz now newId (Some badge) allow w))
     = mkDb (employees (db w)) (rosters (db w))
         (attendance (db w) ++ [openedRow tz now newId allow (db w) emp])
  /\ fault (snd (gateEntry tz now newId (Some badge) allow w)) = None.
Proof.
  intros tz now newId allow badge w emp Hf Hb Hl Ha Ho Hw.
  destruct (gateEntry_spec tz now newId (Some badge) allow w) as [Hs Hk].
  destruct (Hk Hf) as [H500 Hf']. split; [|split; [|exact Hf']].
  - remember (fst (gateEntry tz now newId (Some badge) allow w)) as r eqn:Er.
    remember (db (snd (gateEntry tz now newId (Some badge) allow w))) as d' eqn:Ed.
    clear Er Ed Hk Hf'. gate_inv Hs; try reflexivity.
    + rewrite (falsy_nonempty _ Hb) in *. discriminate.
    + match goal with
      | H : isWeekOffAt _ _ _ = true |- _ => rewrite H in Hw
      end. discriminate.
  - remember (fst (gateEntry tz now newId (Some badge) allow w)) as r eqn:Er.
    remember (db (snd (gateEntry tz now newId (Some badge) allow w))) as d' eqn:Ed.
    clear Er Ed Hk Hf'. gate_inv Hs; try reflexivity.
    + rewrite (falsy_nonempty _ Hb) in *. discriminate.
    + match goal with
      | H : isWeekOffAt _ _ _ = true |- _ => rewrite H in Hw
      end. discriminate.
Qed.

(** A scan at least one hour into the open session closes it. *)
Lemma gateEntry_closes : forall tz now newId allow badge w emp act,
  fault w = None ->
  badge <> "" ->
  lookupEmployee (db w) badge = Some emp ->
  emp_isActive emp = true ->
  openSession (db w) (emp_id emp) = Some act ->
  3600000 <= now - att_gateInTime act ->
  fst (gateEntry tz now newId (Some badge) allow w)
    = mkResponse 200
        (JGateOut (emp_name emp) (hoursBetween (att_gateInTime act) now))
  /\ db (snd (gateEntry tz now newId (Some badge) allow w))
     = mkDb (employees (db w)) (rosters (db w))
         (updateRows (fun a => (att_id a =? att_id act)%string)
            (setGateOut now (isOvertime (hoursBetween (att_gateInTime act) now)))
            (attendance (db w))).
Proof.
  intros tz now newId allow badge w emp act Hf Hb Hl Ha Ho Hh.
  destruct (gateEntry_spec tz now newId (Some badge) allow w) as [Hs Hk].
  destruct (Hk Hf) as [H500 _]. rewrite isOvertime_hours.
  remember (fst (gateEntry tz now newId (Some badge) allow w)) as r eqn:Er.
  remember (db (snd (gateEntry tz now newId (Some badge) allow w))) as d' eqn:Ed.
  clear Er Ed Hk. gate_inv Hs.
  - rewrite (falsy_nonempty _ Hb) in *. discriminate.
  - now split.
Qed.

Lemma updateRows_fresh : forall i g rows,
  (forall a, In a rows -> att_id a <> i) ->
  updateRows (fun a => (att_id a =? i)%string) g rows = rows.
Proof.
  intros i g rows H. unfold updateRows.
  induction rows as [|a rows IH]; simpl; [reflexivity|].
  rewrite IH by (intros b Hb; apply H; now right).
  destruct (String.eqb_spec (att_id a) i) as [E|_]; [|reflexivity].
  exfalso. apply (H a); [now left | exact E].
Qed.

Lemma openSession_None_filter : forall d e,
  openSession d e = None -> filter (isOpenFor e) (attendance d) = [].
Proof.
  intros d e H. unfold openSession in H.
  destruct (filter (isOpenFor e) (attendance d)); [reflexivity | discriminate].
Qed.

(** X2: gate-in followed by a scan at least one hour later closes exactly
    the session that was opened.  For an active employee without an open
    session, a scan that needs no week-off confirmation, with a session
    identifier not yet in the ledger, appends one open row; the next scan of
    the badge, one hour or more later, answers gate-out with the time between
    the two scans, and the ledger is then the old ledger followed by that one
    row, closed at the second instant with overtime = (elapsed >= 9 hours);
    the employee has no open session left. *)
Theorem gate_in_then_gate_out :
  forall tz now now' newId newId' allow allow' badge w emp,
    fault w = None ->
    badge <> "" ->
    lookupEmployee (db w) badge = Some emp ->
    emp_isActive emp = true ->
    openSession (db w) (emp_id emp) = None ->
    isWeekOffAt tz (rosterOf (db w) (emp_id emp)) now && negb allow = false ->
    (forall a, In a (attendance (db w)) -> att_id a <> newId) ->
    3600000 <= now' - now ->
    fst (gateEntry tz now newId (Some badge) allow w)
      = mkResponse 200 (JGateIn "Gate In recorded successfully" (emp_name emp))
    /\ fst (gateEntry tz now' newId' (Some badge) allow'
              (snd (gateEntry tz now newId (Some badge) allow w)))
       = mkResponse 200 (JGateOut (emp_name emp) (hoursBetween now now'))
    /\ attendance
         (db (snd (gateEntry tz now' newId' (Some badge) allow'
                     (snd (gateEntry tz now newId (Some badge) allow w)))))
       = (attendance (db w)
          ++ [closeRow now' (openedRow tz now newId allow (db w) emp)])%list
    /\ openSession
         (db (snd (gateEntry tz now' newId' (Some badge) allow'
                     (snd (gateEntry tz now newId (Some badge) allow w)))))
         (emp_id emp)
       = None.
Proof.
  intros tz now now' newId newId' allow allow' badge w emp
         Hf Hb Hl Ha Ho Hw Hfresh Hh.
  destruct (gateEntry_opens tz now newId allow badge w emp Hf Hb Hl Ha Ho Hw)
    as [Hr1 [Hd1 Hf1]].
  split; [exact Hr1|].
  set (w1 := snd (gateEntry tz now newId (Some badge) allow w)) in *.
  set (row := openedRow tz now newId allow (db w) emp) in *.
  assert (Hl1 : lookupEmployee (db w1) badge = Some emp) by now rewrite Hd1.
  assert (Ho1 : openSession (db w1) (emp_id emp) = Some row).
  { rewrite Hd1. unfold openSession. cbn [attendance].
    rewrite filter_app, (openSession_None_filter _ _ Ho). cbn.
    unfold isOpenFor. cbn. now rewrite String.eqb_refl. }
  destruct (gateEntry_closes tz now' newId' allow' badge w1 emp row
              Hf1 Hb Hl1 Ha Ho1 Hh) as [Hr2 Hd2].
  split; [exact Hr2|]. rewrite Hd2, Hd1. cbn [attendance].
  assert (Hrows : updateRows (fun a => (att_id a =? att_id row)%string)
                    (setGateOut now' (isOvertime (hoursBetween (att_gateInTime row) now')))
                    (attendance (db w) ++ [row])
                  = (attendance (db w) ++ [closeRow now' row])%list).
  { unfold updateRows. rewrite map_app. fold (updateRows
      (fun a => (att_id a =? att_id row)%string)
      (setGateOut now' (isOvertime (hoursBetween (att_gateInTime row) now')))
      (attendance (db w))).
    rewrite updateRows_fresh by exact Hfresh. cbn [map].
    now rewrite String.eqb_refl. }
  rewrite Hrows. split; [reflexivity|].
  unfold openSession. cbn [attendance].
  rewrite filter_app, (openSession_None_filter _ _ Ho). cbn.
  unfold isOpenFor. cbn. now rewrite andb_false_r.
Qed.

Lemma gate_in_then_gate_out_witness :
  fst (gateEntry 0 wednesday9 "a1" (Some "slp001") false sampleWorld)
    = mkResponse 200 (JGateIn "Gate In recorded successfully" "E1")
  /\ fst (gateEntry 0 (wednesday9 + 33300000) "a2" (Some "slp001") false
            (snd (gateEntry 0 wednesday9 "a1" (Some "slp001") false sampleWorld)))
     = mkResponse 200 (JGateOut "E1" (hoursBetween wednesday9 (wednesday9 + 33300000)))
  /\ attendance
       (db (snd (gateEntry 0 (wednesday9 + 33300000) "a2" (Some "slp001") false
                   (snd (gateEntry 0 wednesday9 "a1" (Some "slp001") false
                           sampleWorld)))))
     = ([] ++ [closeRow (wednesday9 + 33300000)
                 (openedRow 0 wednesday9 "a1" false (db sampleWorld) sampleEmployee)])%list
  /\ openSession
       (db (snd (gateEntry 0 (wednesday9 + 33300000) "a2" (Some "slp001") false
                   (snd (gateEntry 0 wednesday9 "a1" (Some "slp001") false
                           sampleWorld)))))
       "u1"
     = None.
Proof.
  apply (gate_in_then_gate_out 0 wednesday9 (wednesday9 + 33300000) "a1" "a2"
           false false "slp001" sampleWorld sampleEmployee).
  - reflexivity.
  - discriminate.
  - reflexivity.
  - reflexivity.
  - reflexivity.
  - reflexivity.
  - intros a [].
  - vm_compute. discriminate.
Defined.

(** X3: after a gate-in, every further scan of the badge less than one hour
    later is answered "Card already scanned" and changes nothing: the session
    stays open. *)
Theorem gate_in_then_duplicate :
  forall tz now now' newId newId' allow allow' badge w emp,
    fault w = None ->
    badge <> "" ->
    lookupEmployee (db w) badge = Some emp ->
    emp_isActive emp = true ->
    openSession (db w) (emp_id emp) = None ->
    isWeekOffAt tz (rosterOf (db w) (emp_id emp)) now && negb allow = false ->
    now' - now < 3600000 ->
    fst (gateEntry tz now' newId' (Some badge) allow'
           (snd (gateEntry tz now newId (Some badge) allow w)))
      = mkResponse 400
          (JAlreadyScanned "Card already scanned" (emp_name emp)
             (hoursBetween now now'))
    /\ db (snd (gateEntry tz now' newId' (Some badge) allow'
                  (snd (gateEntry tz now newId (Some badge) allow w))))
       = db (snd (gateEntry tz now newId (Some badge) allow w))
    /\ openSession
         (db (snd (gateEntry tz now newId (Some badge) allow w))) (emp_id emp)
       = Some (openedRow tz now newId allow (db w) emp).
Proof.
  intros tz now now' newId newId' allow allow' badge w emp
         Hf Hb Hl Ha Ho Hw Hh.
  destruct (gateEntry_opens tz now newId allow badge w emp Hf Hb Hl Ha Ho Hw)
    as [Hr1 [Hd1 Hf1]].
  set (w1 := snd (gateEntry tz now newId (Some badge) allow w)) in *.
  set (row := openedRow tz now newId allow (db w) emp) in *.
  assert (Hl1 : lookupEmployee (db w1) badge = Some emp) by now rewrite Hd1.
  assert (Ho1 : openSession (db w1) (emp_id emp) = Some row).
  { rewrite Hd1. unfold openSession. cbn [attendance].
    rewrite filter_app, (openSession_None_filter _ _ Ho). cbn.
    unfold isOpenFor. cbn. now rewrite String.eqb_refl. }
  assert (Hlt : (hoursBetween (att_gateInTime row) now' < 1)%Q)
    by now apply hours_lt_1.
  destruct (gateEntry_duplicate tz now' newId' allow' badge w1 emp row
              Hf1 Hb Hl1 Ha Ho1 Hlt) as [Hr2 [Hd2 _]].
  repeat split; assumption.
Qed.

Lemma gate_in_then_duplicate_witness :
  fst (gateEntry 0 (wednesday9 + 1800000) "a2" (Some "slp001") true
         (snd (gateEntry 0 wednesday9 "a1" (Some "slp001") false sampleWorld)))
    = mkResponse 400
        (JAlreadyScanned "Card already scanned" "E1"
           (hoursBetween wednesday9 (wednesday9 + 1800000)))
  /\ db (snd (gateEntry 0 (wednesday9 + 1800000) "a2" (Some "slp001") true
                (snd (gateEntry 0 wednesday9 "a1" (Some "slp001") false sampleWorld))))
     = db (snd (gateEntry 0 wednesday9 "a1" (Some "slp001") false sampleWorld))
  /\ openSession
       (db (snd (gateEntry 0 wednesday9 "a1" (Some "slp001") false sampleWorld))) "u1"
     = Some (openedRow 0 wednesday9 "a1" false (db sampleWorld) sampleEmployee).
Proof.
  apply (gate_in_then_duplicate 0 wednesday9 (wednesday9 + 1800000) "a1" "a2"
           false true "slp001" sampleWorld sampleEmployee).
  - reflexivity.
  - discriminate.
  - reflexivity.
  - reflexivity.
  - reflexivity.
  - reflexivity.
  - vm_compute. reflexivity.
Defined.

(** ** Rejected scans *)

(** X4: a badge code that resolves to no employee is answered 404, and the
    badge of a deactivated employee 403; neither changes the store, so a
    deactivated employee who is still inside keeps the open session: it
    cannot be closed by scanning. *)
Theorem unknown_or_inactive_badge :
  forall tz now newId allow badge w,
    fault w = None ->
    badge <> "" ->
    (lookupEmployee (db w) badge = None ->
     gateEntry tz now newId (Some badge) allow w
     = (mkResponse 404 (JMessage "Employee not found"),
        mkWorld (db w) (log w ++ [OpSelect Employees]) None))
    /\ (forall emp,
          lookupEmployee (db w) badge = Some emp ->
          emp_isActive emp = false ->
          gateEntry tz now newId (Some badge) allow w
          = (mkResponse 403 (JMessage "Employee is inactive"),
             mkWorld (db w) (log w ++ [OpSelect Employees]) None)).
Proof.
  intros tz now newId allow badge w Hf Hb. split.
  - intros Hl. unfold gateEntry, handle, gateEntryBody.
    rewrite (falsy_nonempty _ Hb). run_ok Hf.
    rewrite limit1_hd.
    change (hd_error (filter _ (employees (db w))))
      with (lookupEmployee (db w) badge).
    now rewrite Hl.
  - intros emp Hl Ha. unfold gateEntry, handle, gateEntryBody.
    rewrite (falsy_nonempty _ Hb). run_ok Hf.
    rewrite limit1_hd.
    change (hd_error (filter _ (employees (db w))))
      with (lookupEmployee (db w) badge).
    now rewrite Hl, Ha.
Qed.

Lemma unknown_or_inactive_badge_witness :
  (lookupEmployee (db sampleWorld) "SLP999" = None ->
   gateEntry 0 wednesday9 "a1" (Some "SLP999") false sampleWorld
   = (mkResponse 404 (JMessage "Employee not found"),
      mkWorld (db sampleWorld) (log sampleWorld ++ [OpSelect Employees]) None))
  /\ (forall emp,
        lookupEmployee (db sampleWorld) "SLP999" = Some emp ->
        emp_isActive emp = false ->
        gateEntry 0 wednesday9 "a1" (Some "SLP999") false sampleWorld
        = (mkResponse 403 (JMessage "Employee is inactive"),
           mkWorld (db sampleWorld) (log sampleWorld ++ [OpSelect Employees]) None)).
Proof.
  apply (unknown_or_inactive_badge 0 wednesday9 "a1" false "SLP999" sampleWorld).
  - reflexivity.
  - discriminate.
Defined.

(** X5: under any fault schedule, a scan that is not answered with a
    success status leaves the store exactly as it was; in particular a
    storage failure (status 500) never leaves a half-written session. *)
Theorem only_success_changes_store :
  forall tz now newId slpid allow w,
    res_ok (fst (gateEntry tz now newId slpid allow w)) = false ->
    db (snd (gateEntry tz now newId slpid allow w)) = db w.
Proof.
  intros tz now newId slpid allow w.
  destruct (gateEntry_spec tz now newId slpid allow w) as [Hs _].
  remember (fst (gateEntry tz now newId slpid allow w)) as r eqn:Er.
  remember (db (snd (gateEntry tz now newId slpid allow w))) as d' eqn:Ed.
  clear Er Ed. inversion Hs; subst; auto; unfold res_ok; simpl; discriminate.
Qed.

Lemma only_success_changes_store_witness :
  db (snd (gateEntry 0 wednesday9 "a1" (Some "slp001") false
             (mkWorld sampleDb [] (Some 3%nat))))
  = db (mkWorld sampleDb [] (Some 3%nat)).
Proof.
  apply (only_success_changes_store 0 wednesday9 "a1" (Some "slp001") false
           (mkWorld sampleDb [] (Some 3%nat))).
  reflexivity.
Defined.

(** A storage failure at the insert, the last of four operations of a
    gate-in: the answer is 500 and no session was written. *)
Example failed_insert_writes_nothing :
  gateEntry 0 wednesday9 "a1" (Some "slp001") false (mkWorld sampleDb [] (Some 3%nat))
  = (mkResponse 500 (JMessage "Failed to record entry"),
     mkWorld sampleDb
       [OpSelect Employees; OpSelect AttendanceT; OpSelect Rosters;
        OpInsert AttendanceT] None).
Proof. reflexivity. Qed.

(** ** Sorting by a key *)

Lemma Forall_insertBy : forall {A} (P : A -> Prop) before x l,
  P x -> Forall P l -> Forall P (insertBy before x l).
Proof.
  intros A P before x l Hx Hl.
  rewrite (insertBy_perm before x l). now constructor.
Qed.

Lemma insertBy_key_sorted : forall {A} (key : A -> Z) x l,
  StronglySorted (fun a b => key b <= key a) l ->
  StronglySorted (fun a b => key b <= key a)
    (insertBy (fun a b => key b <=? key a) x l).
Proof.
  intros A key x l Hs. induction Hs as [|y l Hs IH Hy]; simpl.
  - repeat constructor.
  - destruct (Z.leb_spec (key y) (key x)) as [Hle|Hgt].
    + constructor; [now constructor|]. constructor; [exact Hle|].
      eapply Forall_impl; [|exact Hy]. intros z Hz. simpl in Hz. lia.
    + constructor; [exact IH|]. apply Forall_insertBy; [lia | exact Hy].
Qed.

(** The stable insertion sort with the comparator "later key first" yields
    a list in which the keys never increase. *)
Lemma sortBy_key_sorted : forall {A} (key : A -> Z) l,
  StronglySorted (fun a b => key b <= key a)
    (sortBy (fun a b => key b <=? key a) l).
Proof.
  intros A key l. unfold sortBy. induction l as [|x l IH]; simpl.
  - constructor.
  - now apply insertBy_key_sorted.
Qed.

Lemma StronglySorted_map_key : forall {A} (key : A -> Z) l,
  StronglySorted (fun a b => key b <= key a) l ->
  StronglySorted (fun t t' => t' <= t) (map key l).
Proof.
  intros A key l H. induction H as [|x l _ IH Hx]; simpl; constructor; auto.
  apply Forall_map. exact Hx.
Qed.

(** ** The open-session list *)

Lemma presentRows_spec : forall now atts w,
  fault w = None ->
  exists rows w',
    presentRows now atts w = (Ok rows, w')
    /\ fault w' = None
    /\ db w' = db w
    /\ map pr_attendanceId rows = map att_id atts
    /\ map pr_gateInTime rows = map att_gateInTime atts
    /\ map pr_hoursWorked rows
       = map (fun a => elapsedHours (att_gateInTime a) now) atts.
Proof.
  intros now atts. induction atts as [|att atts IH]; intros w Hf.
  - exists [], w. now repeat split.
  - cbn [presentRows]. run_ok Hf. rewrite bind_run.
    destruct (IH (mkWorld (db w) (log w ++ [OpSelect Employees]) None) eq_refl)
      as [rows [w' [E [Hf' [Hd [Hi [Hg Hh]]]]]]].
    rewrite E. eexists _, w'. split; [reflexivity|].
    split; [exact Hf'|]. split; [exact Hd|].
    cbn [map pr_hoursWorked pr_attendanceId pr_gateInTime].
    now rewrite Hi, Hg, Hh.
Qed.

Lemma elapsedHours_nonneg : forall start finish,
  (0 <= elapsedHours start finish)%Q.
Proof.
  intros start finish. rewrite elapsedHours_clamp.
  destruct (Z.ltb_spec finish start); [apply Qle_refl|].
  now apply hoursBetween_nonneg.
Qed.

(** X6: with a fault-free storage, the open-session route lists exactly the
    sessions with a null gate-out timestamp, each once, the latest gate-in
    first, with hours that are never negative; it does not change the
    store. *)
Theorem open_session_list :
  forall now w,
    fault w = None ->
    exists rows,
      fst (gatePresent now w) = mkResponse 200 (JPresent rows)
      /\ Permutation (map pr_attendanceId rows)
           (map att_id
              (filter (fun a => isNull (att_gateOutTime a)) (attendance (db w))))
      /\ StronglySorted (fun t t' => t' <= t) (map pr_gateInTime rows)
      /\ Forall (fun r => (0 <= pr_hoursWorked r)%Q) rows
      /\ db (snd (gatePresent now w)) = db w.
Proof.
  intros now w Hf. unfold gatePresent, handle. run_ok Hf. rewrite bind_run.
  set (sorted := sortBy (fun a b => att_gateInTime b <=? att_gateInTime a)
                   (filter (fun a => isNull (att_gateOutTime a)) (attendance (db w)))).
  destruct (presentRows_spec now sorted
              (mkWorld (db w) (log w ++ [OpSelect AttendanceT]) None) eq_refl)
    as [rows [w' [E [_ [Hd [Hi [Hg Hh]]]]]]].
  rewrite E. exists rows. cbn [fst snd ret]. split; [reflexivity|].
  split; [|split; [|split; [|exact Hd]]].
  - rewrite Hi. apply Permutation_map. apply sortBy_perm.
  - rewrite Hg. apply StronglySorted_map_key. apply sortBy_key_sorted.
  - apply Forall_forall. intros r Hr.
    assert (Hin : In (pr_hoursWorked r) (map pr_hoursWorked rows))
      by now apply in_map.
    rewrite Hh in Hin. apply in_map_iff in Hin. destruct Hin as [a [<- _]].
    apply elapsedHours_nonneg.
Qed.

Lemma open_session_list_witness :
  exists rows,
    fst (gatePresent wednesday19 bulkWorld) = mkResponse 200 (JPresent rows)
    /\ Permutation (map pr_attendanceId rows)
         (map att_id
            (filter (fun a => isNull (att_gateOutTime a)) (attendance (db bulkWorld))))
    /\ StronglySorted (fun t t' => t' <= t) (map pr_gateInTime rows)
    /\ Forall (fun r => (0 <= pr_hoursWorked r)%Q) rows
    /\ db (snd (gatePresent wednesday19 bulkWorld)) = db bulkWorld.
Proof. apply (open_session_list wednesday19 bulkWorld). reflexivity. Defined.

(** ** Bulk gate-out as a function of the ledger *)

Lemma NoDup_map_inj : forall {A B} (f : A -> B) l a b,
  NoDup (map f l) -> In a l -> In b l -> f a = f b -> a = b.
Proof.
  intros A B f l a b Hnd. induction l as [|x l IH]; intros Ha Hb E; [contradiction|].
  simpl in Hnd. inversion Hnd as [|y ys Hnot Hnd']; subst.
  destruct Ha as [<-|Ha], Hb as [<-|Hb]; auto.
  - exfalso. apply Hnot. rewrite E. now apply in_map.
  - exfalso. apply Hnot. rewrite <- E. now apply in_map.
Qed.

Lemma closeListed_ids : forall now ids rows,
  map att_id (closeListed now ids rows) = map att_id rows.
Proof.
  intros now ids rows. unfold closeListed. rewrite map_map.
  apply map_ext. intros a. now destruct (listedIn ids a).
Qed.

Lemma closeRow_idem : forall now a, closeRow now (closeRow now a) = closeRow now a.
Proof. reflexivity. Qed.

Lemma closeListed_cons : forall now attId ids rows,
  closeListed now ids (closeListed now [attId] rows)
  = closeListed now (attId :: ids) rows.
Proof.
  intros now attId ids rows. unfold closeListed. rewrite map_map.
  apply map_ext. intros a. unfold listedIn. cbn [existsb].
  rewrite orb_false_r.
  destruct (att_id a =? attId)%string; cbn [orb].
  - change (att_id (closeRow now a)) with (att_id a).
    destruct (existsb (String.eqb (att_id a)) ids); reflexivity.
  - reflexivity.
Qed.

(** One turn of the loop on a ledger with distinct identifiers. *)
Lemma bulk_step_closeListed : forall now attId rows,
  NoDup (map att_id rows) ->
  match hd_error (filter (fun a => (att_id a =? attId)%string) rows) with
  | Some att0 =>
      updateRows (fun a => (att_id a =? attId)%string)
        (setGateOut now (isOvertime (hoursBetween (att_gateInTime att0) now))) rows
  | None => rows
  end
  = closeListed now [attId] rows.
Proof.
  intros now attId rows Hnd. unfold closeListed, listedIn. cbn [existsb].
  destruct (hd_error (filter (fun a => (att_id a =? attId)%string) rows))
    as [att0|] eqn:E.
  - apply hd_error_In in E. apply filter_In in E. destruct E as [Hin0 Hid0].
    apply String.eqb_eq in Hid0. unfold updateRows. apply map_ext_in.
    intros a Hin. rewrite orb_false_r.
    destruct (String.eqb_spec (att_id a) attId) as [Hid|_]; [|reflexivity].
    assert (a = att0) as -> by (eapply NoDup_map_inj; eauto; congruence).
    reflexivity.
  - rewrite <- (map_id rows) at 1. apply map_ext_in. intros a Hin.
    rewrite orb_false_r.
    destruct (String.eqb_spec (att_id a) attId) as [Hid|_]; [|reflexivity].
    exfalso.
    assert (Hf : In a (filter (fun a => (att_id a =? attId)%string) rows)).
    { apply filter_In. split; [exact Hin | now apply String.eqb_eq]. }
    destruct (filter (fun a => (att_id a =? attId)%string) rows);
      [contradiction | discriminate].
Qed.

Lemma bulkOutLoop_closeListed : forall now ids count w,
  fault w = None ->
  NoDup (map att_id (attendance (db w))) ->
  db (snd (bulkOutLoop now ids count w))
  = mkDb (employees (db w)) (rosters (db w))
      (closeListed now ids (attendance (db w))).
Proof.
  intros now ids. induction ids as [|attId ids IH]; intros count w Hf Hnd.
  - cbn. unfold closeListed, listedIn. cbn. rewrite map_id. now destruct (db w).
  - cbn [bulkOutLoop]. run_ok Hf. rewrite limit1_hd.
    pose proof (bulk_step_closeListed now attId (attendance (db w)) Hnd) as Hstep.
    destruct (hd_error (filter (fun a => (att_id a =? attId)%string)
                               (attendance (db w)))) as [att0|].
    + run_ok (eq_refl (@None nat)). rewrite IH; cbn [db fault attendance employees rosters].
      * now rewrite Hstep, closeListed_cons.
      * reflexivity.
      * now rewrite Hstep, closeListed_ids.
    + rewrite IH; cbn [db fault attendance employees rosters];
        [|reflexivity|exact Hnd].
      rewrite <- closeListed_cons, <- Hstep. reflexivity.
Qed.

(** X7: with a fault-free storage and a ledger whose session identifiers
    are distinct, a bulk gate-out sets, for every session whose identifier is
    listed (open or not), the gate-out timestamp to the instant of the call
    and the overtime flag to (instant - its gate-in >= 9 hours), and leaves
    every other session, the employees and the rosters as they were. *)
Theorem bulk_out_closes_listed :
  forall now attId ids w,
    fault w = None ->
    NoDup (map att_id (attendance (db w))) ->
    db (snd (bulkOut now (Some (attId :: ids)) w))
      = mkDb (employees (db w)) (rosters (db w))
          (closeListed now (attId :: ids) (attendance (db w)))
    /\ (forall a, In a (attendance (db w)) ->
          listedIn (attId :: ids) a = true ->
          In (closeRow now a)
             (attendance (db (snd (bulkOut now (Some (attId :: ids)) w)))))
    /\ (forall a, In a (attendance (db w)) ->
          listedIn (attId :: ids) a = false ->
          In a (attendance (db (snd (bulkOut now (Some (attId :: ids)) w))))).
Proof.
  intros now attId ids w Hf Hnd.
  assert (Hd : db (snd (bulkOut now (Some (attId :: ids)) w))
               = mkDb (employees (db w)) (rosters (db w))
                   (closeListed now (attId :: ids) (attendance (db w)))).
  { unfold bulkOut, handle. rewrite bind_run.
    pose proof (bulkOutLoop_closeListed now (attId :: ids) 0%nat w Hf Hnd) as H.
    destruct (bulkOutLoop now (attId :: ids) 0%nat w) as [[count|] w']; exact H. }
  split; [exact Hd|]. rewrite Hd. cbn [attendance]. unfold closeListed. split.
  - intros a Hin Hl. apply in_map_iff. exists a. now rewrite Hl.
  - intros a Hin Hl. apply in_map_iff. exists a. now rewrite Hl.
Qed.

Lemma bulk_out_closes_listed_witness :
  db (snd (bulkOut wednesday19 (Some ["s2"; "zz"]) bulkWorld))
    = mkDb (employees (db bulkWorld)) (rosters (db bulkWorld))
        (closeListed wednesday19 ["s2"; "zz"] (attendance (db bulkWorld)))
  /\ (forall a, In a (attendance (db bulkWorld)) ->
        listedIn ["s2"; "zz"] a = true ->
        In (closeRow wednesday19 a)
           (attendance (db (snd (bulkOut wednesday19 (Some ["s2"; "zz"]) bulkWorld)))))
  /\ (forall a, In a (attendance (db bulkWorld)) ->
        listedIn ["s2"; "zz"] a = false ->
        In a (attendance (db (snd (bulkOut wednesday19 (Some ["s2"; "zz"]) bulkWorld))))).
Proof.
  apply (bulk_out_closes_listed wednesday19 "s2" ["zz"] bulkWorld).
  - reflexivity.
  - repeat constructor; simpl; intuition discriminate.
Defined.

(** ** Reports: order, purity, hours *)

Lemma reports_db : forall tz fromDate toDate department onlyAbsent w,
  db (snd (reports tz fromDate toDate department onlyAbsent w)) = db w.
Proof.
  intros tz fromDate toDate department onlyAbsent w. unfold reports, handle.
  destruct fromDate as [f|], toDate as [t|]; try reflexivity.
  run_op; [simpl; now rewrite D|].
  run_op; [simpl; now rewrite D|].
  run_op; [simpl; now rewrite D|].
  reflexivity.
Qed.

Lemma reportsExport_db : forall tz fromDate toDate department onlyAbsent w,
  db (snd (reportsExport tz fromDate toDate department onlyAbsent w)) = db w.
Proof.
  intros tz fromDate toDate department onlyAbsent w. unfold reportsExport, handle.
  destruct fromDate as [f|], toDate as [t|]; try reflexivity.
  run_op; [simpl; now rewrite D|].
  run_op; [simpl; now rewrite D|].
  run_op; [simpl; now rewrite D|].
  destruct onlyAbsent; reflexivity.
Qed.

(** X9: the report routes only read: under any fault schedule the store
    after a report or an export is the store before it.  With a fault-free
    storage the rows of a report come latest date first. *)
Theorem report_reads_only_and_orders :
  forall tz fromDate toDate department onlyAbsent w,
    db (snd (reports tz fromDate toDate department onlyAbsent w)) = db w
    /\ db (snd (reportsExport tz fromDate toDate department onlyAbsent w)) = db w
    /\ (fault w = None ->
        forall f t, fromDate = Some f -> toDate = Some t ->
        exists records,
          fst (reports tz fromDate toDate department onlyAbsent w)
            = mkResponse 200 (JRecords records)
          /\ StronglySorted (fun d d' => d' <= d) (map row_date records)).
Proof.
  intros tz fromDate toDate department onlyAbsent w.
  split; [apply reports_db|]. split; [apply reportsExport_db|].
  intros Hf f t -> ->. unfold reports, handle.
  do 3 (run_ok Hf || run_ok (eq_refl (@None nat))).
  eexists. split; [reflexivity|].
  apply StronglySorted_map_key.
  change byDateDesc with (fun a b : ReportRow => row_date b <=? row_date a).
  apply sortBy_key_sorted.
Qed.

Lemma otHours_nonneg : forall total, (0 <= otHours total)%Q.
Proof.
  intros total. unfold otHours, Qlt_bool.
  destruct (Qle_bool total 9) eqn:E; simpl; [apply Qle_refl|].
  assert (H : ~ (total <= 9)%Q) by (rewrite <- Qle_bool_iff, E; discriminate).
  apply Qnot_le_lt in H. unfold Qle, Qlt, Qminus, Qplus, Qopp in *. simpl in *. lia.
Qed.

Lemma otHours_positive : forall total, (0 < otHours total)%Q <-> (9 < total)%Q.
Proof.
  intros total. unfold otHours, Qlt_bool.
  destruct (Qle_bool total 9) eqn:E; simpl.
  - apply Qle_bool_iff in E. split; intros H.
    + exfalso. exact (Qlt_irrefl 0 H).
    + exfalso. exact (Qlt_not_le _ _ H E).
  - assert (H : ~ (total <= 9)%Q) by (rewrite <- Qle_bool_iff, E; discriminate).
    apply Qnot_le_lt in H. split; intros _; [exact H|].
    unfold Qle, Qlt, Qminus, Qplus, Qopp in *. simpl in *. lia.
Qed.

Lemma recordsFor_hours : forall tz onlyAbsent allAtt emp ros date,
  Forall rowHoursOk (recordsFor tz onlyAbsent allAtt emp ros date).
Proof.
  intros tz onlyAbsent allAtt emp ros date. unfold recordsFor.
  assert (Habs : rowHoursOk (absentRow emp ros date)).
  { unfold rowHoursOk, absentRow. cbn. repeat split; try reflexivity.
    apply Qle_refl. }
  assert (Hpres : forall a, rowHoursOk (presentRow emp ros a)).
  { intros a. unfold rowHoursOk, presentRow. cbn. repeat split.
    - apply otHours_nonneg.
    - intros H. now rewrite H.
    - discriminate.
    - discriminate. }
  destruct onlyAbsent.
  - destruct (negb _ && _); auto.
  - destruct (findAtt allAtt emp date); [auto|]. destruct (negb _); auto.
Qed.

(** X10: in every report, the overtime hours of a row are total hours minus
    9 when the total exceeds 9 and 0 otherwise, never negative; a row whose
    session has no gate-out yet shows 0 total hours, and an absent row shows
    0 hours and no gate-in. *)
Theorem report_hours :
  forall tz fromDate toDate department onlyAbsent w records,
    fst (reports tz fromDate toDate department onlyAbsent w)
      = mkResponse 200 (JRecords records) ->
    Forall rowHoursOk records
    /\ (forall total, (0 < otHours total)%Q <-> (9 < total)%Q).
Proof.
  intros tz fromDate toDate department onlyAbsent w records H.
  split; [|apply otHours_positive].
  unfold reports, handle in H.
  destruct fromDate as [f|], toDate as [t|]; try discriminate.
  revert H.
  run_op; [discriminate|]. run_op; [discriminate|]. run_op; [discriminate|].
  cbn [fst ret]. intros H. injection H as <-.
  rewrite (sortBy_perm byDateDesc _). apply Forall_flat_map.
  apply Forall_forall. intros emp _. unfold recordsOf.
  destruct (deptSkipped department emp); [constructor|].
  apply Forall_flat_map. apply Forall_forall. intros date _.
  apply recordsFor_hours.
Qed.

Lemma report_hours_witness :
  Forall rowHoursOk
    (sortBy byDateDesc
       (flat_map
          (recordsOf 0 None false (rosters (db reportWorld))
             (filter (fun a => (19725 <=? att_date a) && (att_date a <=? 19727))
                     (attendance (db reportWorld)))
             (enumDates 19725 19727))
          (filter (fun e => emp_isActive e) (employees (db reportWorld)))))
  /\ (forall total, (0 < otHours total)%Q <-> (9 < total)%Q).
Proof.
  apply (report_hours 0 (Some 19725) (Some 19727) None false reportWorld).
  reflexivity.
Defined.

(** ** The export sheet: days present *)

Lemma statusCell_present : forall tz atts ros date,
  (statusCell tz atts ros date =? "P")%string
  = match find (fun a => att_date a =? date) atts with
    | Some _ => true
    | None => false
    end.
Proof.
  intros tz atts ros date. unfold statusCell.
  destruct (find (fun a => att_date a =? date) atts); [reflexivity|].
  now destruct (isWeekOffAt tz ros (dateInstant date)).
Qed.

Lemma matrixRow_totalPresent : forall tz fromDate toDate d emp,
  mx_totalPresent
    (matrixRow tz (rosters d)
       (filter (fun a => (fromDate <=? att_date a) && (att_date a <=? toDate))
               (attendance d))
       (enumDates fromDate toDate) emp)
  = List.length (filter (hasSessionOn d emp) (enumDates fromDate toDate)).
Proof.
  intros tz fromDate toDate d emp. unfold matrixRow. cbn [mx_totalPresent].
  set (dates := enumDates fromDate toDate).
  assert (Hin : forall date, In date dates -> fromDate <= date <= toDate)
    by (intros date H; now apply enumDates_In).
  clearbody dates. induction dates as [|date dates IH]; [reflexivity|].
  cbn [map filter snd]. rewrite statusCell_present, find_filter.
  change (find _ (filter ?q (attendance d)))
    with (findAtt (filter q (attendance d)) emp date).
  rewrite findAtt_in_range by (apply Hin; now left).
  rewrite findAtt_hasSession.
  destruct (findAtt (attendance d) emp date); cbn [List.length];
    rewrite IH by (intros x Hx; apply Hin; now right); reflexivity.
Qed.

(** X11: on a server whose zone keeps one offset, so that the route's loop
    over the dates ends and yields the dates of the range, "Total Present" of
    an employee in the export sheet is the number of dates of the range on
    which the ledger has at least one session of that employee; several
    sessions on one day count once, and it never exceeds the number of
    days. *)
Theorem export_total_present :
  forall tz fromDate toDate department w,
    fault w = None ->
    exists sheet,
      fst (reportsExport tz (Some fromDate) (Some toDate) department false w)
        = mkResponse 200 (JSheet sheet)
      /\ map mx_totalPresent sheet
         = map (fun emp =>
                  List.length (filter (hasSessionOn (db w) emp)
                                      (enumDates fromDate toDate)))
               (reportEmployees (db w) department)
      /\ Forall (fun m => (mx_totalPresent m <= Z.to_nat (toDate - fromDate + 1))%nat)
                sheet
      /\ (forall fuel,
            (Z.to_nat (toDate - fromDate + 1) < fuel)%nat ->
            datesLoopIn (fixedZone tz) fuel (dateInstant fromDate) (dateInstant toDate)
            = Some (enumDates fromDate toDate)).
Proof.
  intros tz fromDate toDate department w Hf.
  unfold reportsExport, handle.
  do 3 (run_ok Hf || run_ok (eq_refl (@None nat))).
  cbn [fst ret]. rewrite filter_all, export_department_filter.
  eexists. split; [reflexivity|].
  assert (Hmap : map mx_totalPresent
            (map (matrixRow tz (rosters (db w))
                    (filter (fun a => (fromDate <=? att_date a) && (att_date a <=? toDate))
                            (attendance (db w)))
                    (enumDates fromDate toDate))
                 (filter (fun e => negb (deptSkipped department e))
                         (filter (fun e => emp_isActive e) (employees (db w)))))
          = map (fun emp =>
                   List.length (filter (hasSessionOn (db w) emp)
                                       (enumDates fromDate toDate)))
                (reportEmployees (db w) department)).
  { rewrite map_map. unfold reportEmployees. apply map_ext. intros emp.
    apply matrixRow_totalPresent. }
  split; [exact Hmap|].
  split; [|intros fuel Hfuel; now apply datesLoopIn_fixed].
  apply Forall_forall. intros m Hm.
  assert (Hin : In (mx_totalPresent m)
                   (map (fun emp =>
                           List.length (filter (hasSessionOn (db w) emp)
                                               (enumDates fromDate toDate)))
                        (reportEmployees (db w) department))).
  { rewrite <- Hmap. now apply in_map. }
  apply in_map_iff in Hin. destruct Hin as [emp [<- _]].
  rewrite <- enumDates_length. apply filter_length_le.
Qed.

Lemma export_total_present_witness :
  exists sheet,
    fst (reportsExport 0 (Some 19725) (Some 19727) None false reportWorld)
      = mkResponse 200 (JSheet sheet)
    /\ map mx_totalPresent sheet
       = map (fun emp =>
                List.length (filter (hasSessionOn (db reportWorld) emp)
                                    (enumDates 19725 19727)))
             (reportEmployees (db reportWorld) None)
    /\ Forall (fun m => (mx_totalPresent m <= Z.to_nat (19727 - 19725 + 1))%nat) sheet
    /\ (forall fuel,
          (Z.to_nat (19727 - 19725 + 1) < fuel)%nat ->
          datesLoopIn (fixedZone 0) fuel (dateInstant 19725) (dateInstant 19727)
          = Some (enumDates 19725 19727)).
Proof.
  apply (export_total_present 0 19725 19727 None reportWorld). reflexivity.
Defined.

(** ** Weekdays *)

(** X12: the weekday name of an instant is always one of the seven names
    and repeats every seven days, for instants before 1970 too. *)
Theorem weekday_cycle :
  forall tz t,
    In (weekdayLong tz t) weekdayNames
    /\ weekdayLong tz (t + 7 * msPerDay) = weekdayLong tz t
    /\ weekdayLong tz (t - 7 * msPerDay) = weekdayLong tz t.
Proof.
  intros tz t. unfold weekdayLong. split; [|split].
  - apply nth_In.
    assert (H : 0 <= ((t + tz) / msPerDay + 4) mod 7 < 7)
      by (apply Z.mod_pos_bound; lia).
    change (List.length weekdayNames) with 7%nat. lia.
  - f_equal. f_equal.
    replace (t + 7 * msPerDay + tz) with (t + tz + 7 * msPerDay) by lia.
    rewrite Z.div_add by (unfold msPerDay; lia).
    replace ((t + tz) / msPerDay + 7 + 4) with ((t + tz) / msPerDay + 4 + 1 * 7) by lia.
    apply Z.mod_add. lia.
  - f_equal. f_equal.
    replace (t - 7 * msPerDay + tz) with (t + tz + (-7) * msPerDay) by lia.
    rewrite Z.div_add by (unfold msPerDay; lia).
    replace ((t + tz) / msPerDay + -7 + 4) with ((t + tz) / msPerDay + 4 + (-1) * 7) by lia.
    apply Z.mod_add. lia.
Qed.

(** ** Roles and the employee routes *)

Lemma lowerChar_upperChar : forall c, lowerChar (upperChar c) = lowerChar c.
Proof. intros [[] [] [] [] [] [] [] []]; reflexivity. Qed.

(** On an ASCII string, lowering undoes raising. *)
Lemma toLowerCase_toUpperCase : forall s,
  isAscii s = true -> toLowerCase (toUpperCase s) = toLowerCase s.
Proof.
  unfold toLowerCase. induction s as [|c s IH]; cbn [isAscii toUpperCase mapString].
  - reflexivity.
  - intros H. apply andb_true_iff in H. destruct H as [Hc Hs].
    rewrite (isAsciiChar_not_sharp c Hc). cbn [mapString].
    now rewrite lowerChar_upperChar, IH.
Qed.

Lemma insertEmployee_cases : forall e w,
  (exists w1, insertEmployee e w = (Thrown, w1) /\ db w1 = db w /\ fault w <> None)
  \/ (exists f, insertEmployee e w
                = (Ok [e],
                   mkWorld (mkDb (employees (db w) ++ [e]) (rosters (db w))
                                 (attendance (db w)))
                           (log w ++ [OpInsert Employees]) f)
               /\ (fault w = None -> f = None)).
Proof.
  intros e w. unfold insertEmployee. rewrite bind_run.
  destruct (storage_cases (OpInsert Employees) w) as [[w1 [E [D F]]]|[f [E F]]];
    rewrite E; unfold bind, getDb, putDb, ret; simpl; [left | right]; eauto.
Qed.

Lemma insertRoster_cases : forall r w,
  (exists w1, insertRoster r w = (Thrown, w1) /\ db w1 = db w /\ fault w <> None)
  \/ (exists f, insertRoster r w
                = (Ok tt,
                   mkWorld (mkDb (employees (db w)) (rosters (db w) ++ [r])
                                 (attendance (db w)))
                           (log w ++ [OpInsert Rosters]) f)
               /\ (fault w = None -> f = None)).
Proof.
  intros r w. unfold insertRoster. rewrite bind_run.
  destruct (storage_cases (OpInsert Rosters) w) as [[w1 [E [D F]]]|[f [E F]]];
    rewrite E; unfold bind, getDb, putDb, ret; simpl; [left | right]; eauto.
Qed.

Lemma updateEmployees_cases : forall p g w,
  (exists w1, updateEmployees p g w = (Thrown, w1) /\ db w1 = db w /\ fault w <> None)
  \/ (exists f, updateEmployees p g w
                = (Ok (map g (filter p (employees (db w)))),
                   mkWorld (mkDb (map (fun e => if p e then g e else e)
                                      (employees (db w)))
                                 (rosters (db w)) (attendance (db w)))
                           (log w ++ [OpUpdate Employees]) f)
               /\ (fault w = None -> f = None)).
Proof.
  intros p g w. unfold updateEmployees. rewrite bind_run.
  destruct (storage_cases (OpUpdate Employees) w) as [[w1 [E [D F]]]|[f [E F]]];
    rewrite E; unfold bind, getDb, putDb, ret; simpl; [left | right]; eauto.
Qed.

Ltac run_dir_op :=
  rewrite bind_run;
  let w1 := fresh "w1" in
  let E := fresh "E" in
  let D := fresh "D" in
  let F := fresh "F" in
  let f := fresh "f" in
  match goal with
  | |- context [insertEmployee ?e ?w] =>
      destruct (insertEmployee_cases e w) as [[w1 [E [D F]]]|[f [E F]]]
  | |- context [insertRoster ?r ?w] =>
      destruct (insertRoster_cases r w) as [[w1 [E [D F]]]|[f [E F]]]
  | |- context [updateEmployees ?p ?g ?w] =>
      destruct (updateEmployees_cases p g w) as [[w1 [E [D F]]]|[f [E F]]]
  end;
  rewrite E; clear E; cbn [db log fault] in *.

Ltac run_dir_ok Hf :=
  run_dir_op;
  [ exfalso; eauto
  | match goal with
    | F : _ -> ?f = None |- _ => specialize (F Hf); subst f
    end ].

Lemma lookupEmployee_None_filter : forall d badge,
  lookupEmployee d badge = None ->
  filter (fun e => (emp_slpid e =? toUpperCase badge)%string) (employees d) = [].
Proof.
  intros d badge H. unfold lookupEmployee in H.
  destruct (filter _ (employees d)); [reflexivity | discriminate].
Qed.

(** X13: an authorized request with a badge code that no employee has yet
    creates the employee and a roster row: the answer is 201 with the new
    employee, whose badge code is the uppercase of the one given; from then
    on the gate resolves that badge code, in any letter case, to the new
    employee, whose roster has the given shift and rest day or the defaults
    "General" and "Sunday"; the ledger is untouched. *)
Theorem created_employee_resolves :
  forall newId rosterId body session w slpid employeeId,
    fault w = None ->
    checkRole ["admin"; "manager"; "mis"] session = true ->
    ne_slpid body = Some slpid ->
    ne_employeeId body = Some employeeId ->
    lookupEmployee (db w) slpid = None ->
    rosterOf (db w) newId = None ->
    exists emp,
      fst (createEmployee newId rosterId body session w)
        = mkDirResponse 201 (DEmployee emp)
      /\ emp_id emp = newId
      /\ emp_slpid emp = toUpperCase slpid
      /\ emp_isActive emp = match ne_isActive body with Some b => b | None => true end
      /\ (forall badge,
            toUpperCase badge = toUpperCase slpid ->
            lookupEmployee (db (snd (createEmployee newId rosterId body session w))) badge
            = Some emp)
      /\ rosterOf (db (snd (createEmployee newId rosterId body session w))) newId
         = Some (mkRoster rosterId newId
                   (orDefault (ne_shiftName body) "General")
                   (orDefault (ne_weekOff body) "Sunday"))
      /\ attendance (db (snd (createEmployee newId rosterId body session w)))
         = attendance (db w).
Proof.
  intros newId rosterId body session w slpid employeeId Hf Hrole Hs He Hl Hr.
  unfold createEmployee, guarded. rewrite Hrole.
  unfold handleDir, createEmployeeBody. rewrite Hs.
  run_ok Hf. rewrite (lookupEmployee_None_filter _ _ Hl). cbn [limit1 firstn].
  rewrite He. run_dir_ok (eq_refl (@None nat)).
  run_dir_ok (eq_refl (@None nat)).
  eexists. cbn [fst snd ret db employees rosters attendance].
  split; [reflexivity|]. repeat split.
  - intros badge Hb. unfold lookupEmployee. cbn [employees].
    rewrite filter_app, Hb, (lookupEmployee_None_filter _ _ Hl). cbn.
    now rewrite String.eqb_refl.
  - unfold rosterOf in *. cbn [rosters]. rewrite filter_app.
    destruct (filter (fun r => (ros_employeeId r =? newId)%string) (rosters (db w)));
      [|discriminate].
    cbn. now rewrite String.eqb_refl.
Qed.

Lemma created_employee_resolves_witness :
  exists emp,
    fst (createEmployee "u9" "r9"
           (mkNewEmployee "E9" (Some "slp009") (Some "emp009") "Male" "Inbound"
              None "2024-01-15" None None None)
           (mkSession (Some "admin-id") (Some "Admin")) sampleWorld)
      = mkDirResponse 201 (DEmployee emp)
    /\ emp_id emp = "u9"
    /\ emp_slpid emp = toUpperCase "slp009"
    /\ emp_isActive emp = true
    /\ (forall badge,
          toUpperCase badge = toUpperCase "slp009" ->
          lookupEmployee
            (db (snd (createEmployee "u9" "r9"
                        (mkNewEmployee "E9" (Some "slp009") (Some "emp009") "Male"
                           "Inbound" None "2024-01-15" None None None)
                        (mkSession (Some "admin-id") (Some "Admin")) sampleWorld)))
            badge
          = Some emp)
    /\ rosterOf
         (db (snd (createEmployee "u9" "r9"
                     (mkNewEmployee "E9" (Some "slp009") (Some "emp009") "Male"
                        "Inbound" None "2024-01-15" None None None)
                     (mkSession (Some "admin-id") (Some "Admin")) sampleWorld)))
         "u9"
       = Some (mkRoster "r9" "u9" "General" "Sunday")
    /\ attendance
         (db (snd (createEmployee "u9" "r9"
                     (mkNewEmployee "E9" (Some "slp009") (Some "emp009") "Male"
                        "Inbound" None "2024-01-15" None None None)
                     (mkSession (Some "admin-id") (Some "Admin")) sampleWorld)))
       = attendance (db sampleWorld).
Proof.
  apply (created_employee_resolves "u9" "r9"
           (mkNewEmployee "E9" (Some "slp009") (Some "emp009") "Male" "Inbound"
              None "2024-01-15" None None None)
           (mkSession (Some "admin-id") (Some "Admin")) sampleWorld
           "slp009" "emp009"); reflexivity.
Defined.

Lemma createEmployee_employees : forall newId rosterId body session w,
  employees (db (snd (createEmployee newId rosterId body session w)))
    = employees (db w)
  \/ exists slpid,
       ne_slpid body = Some slpid
       /\ lookupEmployee (db w) slpid = None
       /\ map emp_slpid
            (employees (db (snd (createEmployee newId rosterId body session w))))
          = (map emp_slpid (employees (db w)) ++ [toUpperCase slpid])%list.
Proof.
  intros newId rosterId body session w. unfold createEmployee, guarded.
  destruct (checkRole _ session); [|now left].
  unfold handleDir, createEmployeeBody.
  destruct (ne_slpid body) as [slpid|] eqn:Hs; [|now left].
  run_op; [left; simpl; now rewrite D|].
  rewrite limit1_hd.
  change (hd_error (filter _ (employees (db w))))
    with (lookupEmployee (db w) slpid).
  destruct (lookupEmployee (db w) slpid) as [e|] eqn:Hl; [now left|].
  destruct (ne_employeeId body) as [employeeId|]; [|now left].
  run_dir_op; [left; simpl; now rewrite D|].
  right. exists slpid. split; [reflexivity|]. split; [exact Hl|].
  run_dir_op.
  - simpl. rewrite D. cbn [employees]. now rewrite map_app.
  - simpl. now rewrite map_app.
Qed.

Lemma lookupEmployee_None_notin : forall d slpid,
  lookupEmployee d slpid = None ->
  ~ In (toUpperCase slpid) (map emp_slpid (employees d)).
Proof.
  intros d slpid Hl Hin. apply in_map_iff in Hin. destruct Hin as [e [He Hin]].
  assert (H : In e (filter (fun e => (emp_slpid e =? toUpperCase slpid)%string)
                           (employees d))).
  { apply filter_In. split; [exact Hin | now apply String.eqb_eq]. }
  now rewrite (lookupEmployee_None_filter _ _ Hl) in H.
Qed.

Lemma updateEmployee_slpids : forall id edit session w,
  map emp_slpid (employees (db (snd (updateEmployee id edit session w))))
  = map emp_slpid (employees (db w))
  /\ rosters (db (snd (updateEmployee id edit session w))) = rosters (db w)
  /\ attendance (db (snd (updateEmployee id edit session w))) = attendance (db w).
Proof.
  intros id edit session w. unfold updateEmployee, guarded.
  destruct (checkRole _ session); [|now repeat split].
  unfold handleDir. run_dir_op; [simpl; rewrite D; now repeat split|].
  assert (Hm : map emp_slpid
                 (map (fun e => if (emp_id e =? id)%string then applyEdit edit e else e)
                      (employees (db w)))
               = map emp_slpid (employees (db w))).
  { rewrite map_map. apply map_ext. intros e.
    now destruct (emp_id e =? id)%string. }
  destruct (map (applyEdit edit) (filter _ (employees (db w))));
    cbn [snd ret db employees rosters attendance]; now repeat split.
Qed.

(** An authorized creation with a badge code not yet taken. *)
Lemma createEmployee_fresh : forall newId rosterId body session w slpid employeeId,
  fault w = None ->
  checkRole ["admin"; "manager"; "mis"] session = true ->
  ne_slpid body = Some slpid ->
  ne_employeeId body = Some employeeId ->
  lookupEmployee (db w) slpid = None ->
  exists emp,
    emp_slpid emp = toUpperCase slpid
    /\ createEmployee newId rosterId body session w
       = (mkDirResponse 201 (DEmployee emp),
          mkWorld
            (mkDb (employees (db w) ++ [emp])
                  (rosters (db w)
                   ++ [mkRoster rosterId newId
                         (orDefault (ne_shiftName body) "General")
                         (orDefault (ne_weekOff body) "Sunday")])
                  (attendance (db w)))
            (log w ++ [OpSelect Employees; OpInsert Employees; OpInsert Rosters])
            None).
Proof.
  intros newId rosterId body session w slpid employeeId Hf Hrole Hs He Hl.
  unfold createEmployee, guarded. rewrite Hrole.
  unfold handleDir, createEmployeeBody. rewrite Hs.
  run_ok Hf. rewrite (lookupEmployee_None_filter _ _ Hl). cbn [limit1 firstn].
  rewrite He. run_dir_ok (eq_refl (@None nat)).
  run_dir_ok (eq_refl (@None nat)).
  eexists. split; [|cbn [ret emp_id]; rewrite <- !app_assoc; reflexivity].
  reflexivity.
Qed.

(** An authorized creation with a badge code that is taken. *)
Lemma createEmployee_taken : forall newId rosterId body session w slpid emp,
  fault w = None ->
  checkRole ["admin"; "manager"; "mis"] session = true ->
  ne_slpid body = Some slpid ->
  lookupEmployee (db w) slpid = Some emp ->
  createEmployee newId rosterId body session w
  = (mkDirResponse 400 (DMessage "Employee with this SLPID already exists"),
     mkWorld (db w) (log w ++ [OpSelect Employees]) None).
Proof.
  intros newId rosterId body session w slpid emp Hf Hrole Hs Hl.
  unfold createEmployee, guarded.
  rewrite Hrole. unfold handleDir, createEmployeeBody. rewrite Hs.
  run_ok Hf. rewrite limit1_hd.
  change (hd_error (filter _ (employees (db w))))
    with (lookupEmployee (db w) slpid).
  now rewrite Hl.
Qed.

(** X14: badge codes stay distinct when requests are served one at a time.
    If no two employees share a badge code, that still holds after a request
    to create or to edit an employee has run to its response, whoever asked
    and whatever storage faults occurred.  In particular, with a fault-free
    storage, after an authorized creation with a badge code not yet taken
    (answered 201), a second creation with that badge code in any letter
    case is answered 400 after one read, with nothing written. *)
Theorem badge_codes_stay_distinct :
  forall newId rosterId body id edit session w,
    NoDup (map emp_slpid (employees (db w))) ->
    NoDup (map emp_slpid
             (employees (db (snd (createEmployee newId rosterId body session w)))))
    /\ NoDup (map emp_slpid
                (employees (db (snd (updateEmployee id edit session w)))))
    /\ (forall slpid employeeId newId' rosterId' body' session' slpid',
          fault w = None ->
          checkRole ["admin"; "manager"; "mis"] session = true ->
          checkRole ["admin"; "manager"; "mis"] session' = true ->
          ne_slpid body = Some slpid ->
          ne_employeeId body = Some employeeId ->
          lookupEmployee (db w) slpid = None ->
          ne_slpid body' = Some slpid' ->
          toUpperCase slpid' = toUpperCase slpid ->
          dir_status (fst (createEmployee newId rosterId body session w)) = 201
          /\ List.length
               (employees (db (snd (createEmployee newId rosterId body session w))))
             = S (List.length (employees (db w)))
          /\ createEmployee newId' rosterId' body' session'
               (snd (createEmployee newId rosterId body session w))
             = (mkDirResponse 400 (DMessage "Employee with this SLPID already exists"),
                mkWorld (db (snd (createEmployee newId rosterId body session w)))
                  (log (snd (createEmployee newId rosterId body session w))
                   ++ [OpSelect Employees])
                  None)).
Proof.
  intros newId rosterId body id edit session w Hnd. split; [|split].
  - destruct (createEmployee_employees newId rosterId body session w)
      as [E | [slpid [_ [Hl E]]]]; rewrite E; [exact Hnd|].
    apply NoDup_app; [exact Hnd | repeat constructor; intros [] |].
    intros x Hx [<-|[]]. exact (lookupEmployee_None_notin _ _ Hl Hx).
  - destruct (updateEmployee_slpids id edit session w) as [E _]. now rewrite E.
  - intros slpid employeeId newId' rosterId' body' session' slpid'
           Hf Hrole Hrole' Hs He Hl Hs' Hup.
    destruct (createEmployee_fresh newId rosterId body session w slpid employeeId
                Hf Hrole Hs He Hl) as [emp [Hemp E]].
    rewrite E. cbn [fst snd].
    split; [reflexivity|].
    split; [cbn [db employees]; rewrite length_app; cbn; lia|].
    match goal with
    | |- createEmployee _ _ _ _ ?w1 = _ =>
        apply (createEmployee_taken newId' rosterId' body' session' w1 slpid' emp);
          [reflexivity | exact Hrole' | exact Hs' |]
    end.
    unfold lookupEmployee. cbn [db employees]. rewrite filter_app, Hup.
    rewrite (lookupEmployee_None_filter _ _ Hl). cbn [app filter].
    now rewrite Hemp, String.eqb_refl.
Qed.

Lemma badge_codes_stay_distinct_witness :
  let body := mkNewEmployee "E9" (Some "slp009") (Some "emp009") "Male" "Inbound"
                None "2024-01-15" None None None in
  let session := mkSession None (Some "mis") in
  let created := createEmployee "u9" "r9" body session sampleWorld in
  NoDup (map emp_slpid (employees (db (snd created))))
  /\ map emp_slpid (employees (db (snd created))) = ["SLP001"; "SLP009"]
  /\ dir_status (fst created) = 201
  /\ fst (createEmployee "u10" "r10"
            (mkNewEmployee "E10" (Some "Slp009") (Some "emp010") "Male" "Inbound"
               None "2024-01-16" None None None)
            session (snd created))
     = mkDirResponse 400 (DMessage "Employee with this SLPID already exists").
Proof.
  intros body session created.
  destruct (badge_codes_stay_distinct "u9" "r9" body
              "u1" (mkEmployeeEdit (Some "E1b") None None None (Some false))
              session sampleWorld)
    as [H1 [_ H3]].
  - repeat constructor. intros [].
  - split; [exact H1|]. split; [reflexivity|].
    destruct (H3 "slp009" "emp009" "u10" "r10"
                (mkNewEmployee "E10" (Some "Slp009") (Some "emp010") "Male" "Inbound"
                   None "2024-01-16" None None None)
                session "Slp009"
                eq_refl eq_refl eq_refl eq_refl eq_refl eq_refl eq_refl eq_refl)
      as [H201 [_ H400]].
    split; [exact H201|]. subst created. now rewrite H400.
Defined.

(** X15: for ASCII role names the role check ignores letter case on both
    sides: raising the session's role, or the roles a route lists, to
    uppercase does not change its answer.  It refuses a session without a
    role or with an empty role, and a refused request to create or edit an
    employee is answered 403 without touching the storage. *)
Theorem role_guard :
  forall roles userId role,
    (isAscii role = true ->
     checkRole roles (mkSession userId (Some (toUpperCase role)))
     = checkRole roles (mkSession userId (Some role)))
    /\ (forallb isAscii roles = true ->
        checkRole (map toUpperCase roles) (mkSession userId (Some role))
        = checkRole roles (mkSession userId (Some role)))
    /\ checkRole roles (mkSession userId None) = false
    /\ checkRole roles (mkSession userId (Some "")) = false
    /\ checkRole ["admin"; "manager"; "mis"] (mkSession userId (Some "supervisor"))
       = false
    /\ (forall session newId rosterId body id edit w,
          checkRole ["admin"; "manager"; "mis"] session = false ->
          createEmployee newId rosterId body session w = (unauthorized, w)
          /\ updateEmployee id edit session w = (unauthorized, w)).
Proof.
  intros roles userId role. unfold checkRole. cbn [sess_userRole].
  split; [|split; [|split; [|split; [|split]]]]; try reflexivity.
  - intros H. now rewrite toLowerCase_toUpperCase.
  - intros H. f_equal. f_equal. rewrite map_map. apply map_ext_in.
    intros r Hr. apply toLowerCase_toUpperCase.
    rewrite forallb_forall in H. now apply H.
  - intros session newId rosterId body id edit w H.
    unfold createEmployee, updateEmployee, guarded, checkRole in *.
    now rewrite H.
Qed.

Lemma role_guard_witness :
  checkRole ["admin"; "manager"; "mis"] (mkSession None (Some (toUpperCase "Mis")))
    = checkRole ["admin"; "manager"; "mis"] (mkSession None (Some "Mis"))
  /\ checkRole (map toUpperCase ["admin"; "manager"; "mis"])
       (mkSession None (Some "Mis"))
     = checkRole ["admin"; "manager"; "mis"] (mkSession None (Some "Mis")).
Proof.
  destruct (role_guard ["admin"; "manager"; "mis"] None "Mis") as [H1 [H2 _]].
  split; [apply H1 | apply H2]; reflexivity.
Defined.

Lemma filter_map_commute : forall {A} (p : A -> bool) (g : A -> A) l,
  (forall x, p (g x) = p x) ->
  filter p (map g l) = map g (filter p l).
Proof.
  intros A p g l H. induction l as [|x l IH]; simpl; [reflexivity|].
  rewrite H, IH. now destruct (p x).
Qed.

Lemma hd_error_map : forall {A B} (g : A -> B) l,
  hd_error (map g l) = option_map g (hd_error l).
Proof. intros A B g [|x l]; reflexivity. Qed.

(** X16: deactivating an employee shuts the gate for the badge.  After an
    authorized edit that sets the active flag of the employee a badge code
    resolves to to false, a scan of that badge is answered 403 "Employee is
    inactive" and the ledger is as it was before the edit, open sessions
    included. *)
Theorem deactivated_employee_refused :
  forall tz now newId allow badge edit session w emp,
    fault w = None ->
    checkRole ["admin"; "manager"; "mis"] session = true ->
    badge <> "" ->
    lookupEmployee (db w) badge = Some emp ->
    ed_isActive edit = Some false ->
    dir_status (fst (updateEmployee (emp_id emp) edit session w)) = 200
    /\ lookupEmployee (db (snd (updateEmployee (emp_id emp) edit session w))) badge
       = Some (applyEdit edit emp)
    /\ fst (gateEntry tz now newId (Some badge) allow
              (snd (updateEmployee (emp_id emp) edit session w)))
       = mkResponse 403 (JMessage "Employee is inactive")
    /\ attendance
         (db (snd (gateEntry tz now newId (Some badge) allow
                     (snd (updateEmployee (emp_id emp) edit session w)))))
       = attendance (db w).
Proof.
  intros tz now newId allow badge edit session w emp Hf Hrole Hb Hl Hact.
  assert (Hin : In emp (filter (fun e => (emp_id e =? emp_id emp)%string)
                               (employees (db w)))).
  { apply filter_In. split; [|apply String.eqb_refl].
    apply hd_error_In in Hl. now apply filter_In in Hl. }
  unfold updateEmployee, guarded. rewrite Hrole. unfold handleDir.
  run_dir_ok Hf.
  set (g := fun e => if (emp_id e =? emp_id emp)%string then applyEdit edit e else e).
  assert (Hl1 : lookupEmployee
                  (mkDb (map g (employees (db w))) (rosters (db w)) (attendance (db w)))
                  badge
                = Some (applyEdit edit emp)).
  { unfold lookupEmployee. cbn [employees].
    rewrite filter_map_commute
      by (intros x; unfold g; now destruct (emp_id x =? emp_id emp)%string).
    rewrite hd_error_map. unfold lookupEmployee in Hl. rewrite Hl. cbn.
    unfold g. now rewrite String.eqb_refl. }
  destruct (map (applyEdit edit)
                (filter (fun e => (emp_id e =? emp_id emp)%string) (employees (db w))))
    as [|updated0 rest] eqn:Hup.
  { apply (in_map (applyEdit edit)) in Hin. rewrite Hup in Hin. contradiction. }
  cbn [fst snd ret dir_status]. split; [reflexivity|]. split; [exact Hl1|].
  unfold gateEntry, handle, gateEntryBody. rewrite (falsy_nonempty _ Hb).
  run_ok (eq_refl (@None nat)). rewrite limit1_hd.
  change (hd_error (filter _ (employees ?d))) with (lookupEmployee d badge).
  rewrite Hl1. cbn [emp_isActive applyEdit]. rewrite Hact. now split.
Qed.

Lemma deactivated_employee_refused_witness :
  dir_status
    (fst (updateEmployee (emp_id sampleEmployee)
            (mkEmployeeEdit (Some "E1") (Some "Male") (Some "Inbound") None (Some false))
            (mkSession (Some "admin-id") (Some "admin")) sampleWorldIn)) = 200
  /\ lookupEmployee
       (db (snd (updateEmployee (emp_id sampleEmployee)
                   (mkEmployeeEdit (Some "E1") (Some "Male") (Some "Inbound") None
                      (Some false))
                   (mkSession (Some "admin-id") (Some "admin")) sampleWorldIn)))
       "slp001"
     = Some (applyEdit
               (mkEmployeeEdit (Some "E1") (Some "Male") (Some "Inbound") None (Some false))
               sampleEmployee)
  /\ fst (gateEntry 0 (wednesday9 + 33300000) "a2" (Some "slp001") false
            (snd (updateEmployee (emp_id sampleEmployee)
                    (mkEmployeeEdit (Some "E1") (Some "Male") (Some "Inbound") None
                       (Some false))
                    (mkSession (Some "admin-id") (Some "admin")) sampleWorldIn)))
     = mkResponse 403 (JMessage "Employee is inactive")
  /\ attendance
       (db (snd (gateEntry 0 (wednesday9 + 33300000) "a2" (Some "slp001") false
                   (snd (updateEmployee (emp_id sampleEmployee)
                           (mkEmployeeEdit (Some "E1") (Some "Male") (Some "Inbound")
                              None (Some false))
                           (mkSession (Some "admin-id") (Some "admin")) sampleWorldIn)))))
     = attendance (db sampleWorldIn).
Proof.
  apply (deactivated_employee_refused 0 (wednesday9 + 33300000) "a2" false "slp001"
           (mkEmployeeEdit (Some "E1") (Some "Male") (Some "Inbound") None (Some false))
           (mkSession (Some "admin-id") (Some "admin")) sampleWorldIn sampleEmployee).
  - reflexivity.
  - reflexivity.
  - discriminate.
  - reflexivity.
  - reflexivity.
Defined.

(** ** Accounts: running the routes *)

Lemma abind_run : forall {A B} (m : AM A) (k : A -> AM B) w,
  abind m k w = match m w with
                | (Ok a, w') => k a w'
                | (Thrown, w') => (Thrown, w')
                end.
Proof. reflexivity. Qed.

Lemma astorage_cases : forall op w,
  (exists w1, astorage op w = (Thrown, w1) /\ adb w1 = adb w /\ afault w <> None)
  \/ (exists f, astorage op w = (Ok tt, mkAuthWorld (adb w) (alog w ++ [op]) f)
               /\ (afault w = None -> f = None)).
Proof.
  intros op [d l [[|k]|]]; unfold astorage; simpl.
  - left. eexists; repeat split. discriminate.
  - right. eexists; split; [reflexivity | discriminate].
  - right. eexists; split; [reflexivity | reflexivity].
Qed.

Lemma aquery_cases : forall {A} op (q : AuthDb -> A) w,
  (exists w1, aquery op q w = (Thrown, w1) /\ adb w1 = adb w /\ afault w <> None)
  \/ (exists f, aquery op q w
                = (Ok (q (adb w)), mkAuthWorld (adb w) (alog w ++ [op]) f)
               /\ (afault w = None -> f = None)).
Proof.
  intros A op q w. unfold aquery. rewrite abind_run.
  destruct (astorage_cases op w) as [[w1 [E [D F]]]|[f [E F]]]; rewrite E;
    [left | right]; eauto.
Qed.

Lemma acommand_cases : forall {A} op (c : AuthDb -> AuthDb * A) w,
  (exists w1, acommand op c w = (Thrown, w1) /\ adb w1 = adb w /\ afault w <> None)
  \/ (exists f, acommand op c w
                = (Ok (snd (c (adb w))),
                   mkAuthWorld (fst (c (adb w))) (alog w ++ [op]) f)
               /\ (afault w = None -> f = None)).
Proof.
  intros A op c w. unfold acommand. rewrite abind_run.
  destruct (astorage_cases op w) as [[w1 [E [D F]]]|[f [E F]]]; rewrite E;
    [left | right]; eauto.
Qed.

(** One storage operation of an account route. *)
Ltac run_auth :=
  rewrite abind_run;
  unfold selectUsers, selectRequests, updateUsers, deleteUsers, insertRequest,
    updateRequests;
  let w1 := fresh "w1" in
  let E := fresh "E" in
  let D := fresh "D" in
  let F := fresh "F" in
  let f := fresh "f" in
  match goal with
  | |- context [aquery ?op ?q ?w] =>
      destruct (aquery_cases op q w) as [[w1 [E [D F]]]|[f [E F]]]
  | |- context [acommand ?op ?c ?w] =>
      destruct (acommand_cases op c w) as [[w1 [E [D F]]]|[f [E F]]]
  end;
  rewrite E; clear E; cbn [adb alog afault fst snd users resetRequests] in *.

Ltac run_auth_ok Hf :=
  run_auth;
  [ exfalso; eauto
  | match goal with
    | F : _ -> ?f = None |- _ => specialize (F Hf); subst f
    end ].

Lemma findUser_after_update : forall d username u id g,
  (forall x, usr_username (g x) = usr_username x) ->
  findUser d username = Some u ->
  findUser (mkAuthDb (map (fun x => if (usr_id x =? id)%string then g x else x)
                          (users d))
                     (resetRequests d))
           username
  = Some (if (usr_id u =? id)%string then g u else u).
Proof.
  intros d username u id g Hg H. unfold findUser in *. cbn [users].
  rewrite filter_map_commute.
  - rewrite hd_error_map, H. reflexivity.
  - intros x. destruct (usr_id x =? id)%string; [now rewrite Hg | reflexivity].
Qed.

(** A wrong password for an unlocked, active account. *)
Lemma login_wrong_password : forall username password session w u,
  afault w = None ->
  username <> "" ->
  password <> "" ->
  findUser (adb w) username = Some u ->
  usr_isLocked u = false ->
  usr_isActive u = true ->
  usr_password u <> password ->
  fst (login (Some username) (Some password) session w)
    = (mkAuthResponse
         (if 3 <=? usr_failedLoginAttempts u + 1 then 403 else 401)
         (if 3 <=? usr_failedLoginAttempts u + 1 then lockedMessage
          else AInvalid (3 - (usr_failedLoginAttempts u + 1))),
       session)
  /\ adb (snd (login (Some username) (Some password) session w))
     = mkAuthDb
         (map (fun x => if (usr_id x =? usr_id u)%string
                        then setAttempts (usr_failedLoginAttempts u + 1)
                               (3 <=? usr_failedLoginAttempts u + 1) x
                        else x)
              (users (adb w)))
         (resetRequests (adb w))
  /\ afault (snd (login (Some username) (Some password) session w)) = None
  /\ findUser (adb (snd (login (Some username) (Some password) session w))) username
     = Some (setAttempts (usr_failedLoginAttempts u + 1)
               (3 <=? usr_failedLoginAttempts u + 1) u).
Proof.
  intros username password session w u Hf Hu Hp Hfind Hlock Hact Hwrong.
  assert (Hfind' := Hfind).
  apply (findUser_after_update _ _ _ (usr_id u)
           (setAttempts (usr_failedLoginAttempts u + 1)
              (3 <=? usr_failedLoginAttempts u + 1))) in Hfind';
    [|reflexivity]. rewrite String.eqb_refl in Hfind'.
  unfold login, ahandle.
  rewrite (falsy_nonempty _ Hu), (falsy_nonempty _ Hp). cbn [orb].
  run_auth_ok Hf. rewrite limit1_hd.
  change (hd_error (filter _ (users (adb w)))) with (findUser (adb w) username).
  rewrite Hfind, Hlock, Hact. cbn [negb].
  apply String.eqb_neq in Hwrong. rewrite Hwrong. cbn [negb].
  run_auth_ok (eq_refl (@None nat)).
  destruct (3 <=? usr_failedLoginAttempts u + 1); cbn; repeat split; exact Hfind'.
Qed.

(** Any password for a locked account. *)
Lemma login_locked : forall username password session w u,
  afault w = None ->
  username <> "" ->
  password <> "" ->
  findUser (adb w) username = Some u ->
  usr_isLocked u = true ->
  login (Some username) (Some password) session w
  = ((mkAuthResponse 403 lockedMessage, session),
     mkAuthWorld (adb w) (alog w ++ [UsersSelect]) None).
Proof.
  intros username password session w u Hf Hu Hp Hfind Hlock.
  unfold login, ahandle.
  rewrite (falsy_nonempty _ Hu), (falsy_nonempty _ Hp). cbn [orb].
  run_auth_ok Hf. rewrite limit1_hd.
  change (hd_error (filter _ (users (adb w)))) with (findUser (adb w) username).
  now rewrite Hfind, Hlock.
Qed.

(** The right password for an unlocked, active account. *)
Lemma login_right_password : forall username session w u,
  afault w = None ->
  username <> "" ->
  usr_password u <> "" ->
  findUser (adb w) username = Some u ->
  usr_isLocked u = false ->
  usr_isActive u = true ->
  fst (login (Some username) (Some (usr_password u)) session w)
    = (mkAuthResponse 200
         (ALoggedIn (usr_id u) (usr_username u) (usr_name u) (usr_role u)
            (usr_mustChangePassword u)),
       mkSession (Some (usr_id u)) (Some (toLowerCase (usr_role u))))
  /\ adb (snd (login (Some username) (Some (usr_password u)) session w))
     = mkAuthDb
         (map (fun x => if (usr_id x =? usr_id u)%string then resetAttempts x else x)
              (users (adb w)))
         (resetRequests (adb w))
  /\ afault (snd (login (Some username) (Some (usr_password u)) session w)) = None
  /\ findUser (adb (snd (login (Some username) (Some (usr_password u)) session w)))
              username
     = Some (resetAttempts u).
Proof.
  intros username session w u Hf Hu Hp Hfind Hlock Hact.
  assert (Hfind' := Hfind).
  apply (findUser_after_update _ _ _ (usr_id u) resetAttempts) in Hfind';
    [|reflexivity]. rewrite String.eqb_refl in Hfind'.
  unfold login, ahandle.
  rewrite (falsy_nonempty _ Hu), (falsy_nonempty _ Hp). cbn [orb].
  run_auth_ok Hf. rewrite limit1_hd.
  change (hd_error (filter _ (users (adb w)))) with (findUser (adb w) username).
  rewrite Hfind, Hlock, Hact. cbn [negb]. rewrite String.eqb_refl. cbn [negb].
  run_auth_ok (eq_refl (@None nat)). cbn. repeat split. exact Hfind'.
Qed.

(** X17: a wrong password for an unlocked, active account adds one to the
    account's failed-attempt counter; the account is locked, and the answer
    is 403, as soon as the counter reaches 3, and otherwise the answer is 401
    with 3 minus the counter as the attempts remaining.  No session is
    established and no other column of the account changes. *)
Theorem failed_login_counter :
  forall username password session w u,
    afault w = None ->
    username <> "" ->
    password <> "" ->
    findUser (adb w) username = Some u ->
    usr_isLocked u = false ->
    usr_isActive u = true ->
    usr_password u <> password ->
    fst (login (Some username) (Some password) session w)
      = (mkAuthResponse
           (if 3 <=? usr_failedLoginAttempts u + 1 then 403 else 401)
           (if 3 <=? usr_failedLoginAttempts u + 1 then lockedMessage
            else AInvalid (3 - (usr_failedLoginAttempts u + 1))),
         session)
    /\ findUser (adb (snd (login (Some username) (Some password) session w))) username
       = Some (setAttempts (usr_failedLoginAttempts u + 1)
                 (3 <=? usr_failedLoginAttempts u + 1) u)
    /\ resetRequests (adb (snd (login (Some username) (Some password) session w)))
       = resetRequests (adb w).
Proof.
  intros username password session w u Hf Hu Hp Hfind Hlock Hact Hwrong.
  destruct (login_wrong_password username password session w u
              Hf Hu Hp Hfind Hlock Hact Hwrong) as [Hr [Hd [_ Hfind']]].
  split; [exact Hr|]. split; [exact Hfind'|]. now rewrite Hd.
Qed.

Lemma failed_login_counter_witness :
  fst (login (Some "admin") (Some "guess") (mkSession None None)
         (mkAuthWorld
            (mkAuthDb [mkUser "a1" "admin" "admin123" "System Administrator" "admin"
                         true false 0 false] [])
            [] None))
    = (mkAuthResponse 401 (AInvalid 2), mkSession None None)
  /\ findUser
       (adb (snd (login (Some "admin") (Some "guess") (mkSession None None)
                    (mkAuthWorld
                       (mkAuthDb [mkUser "a1" "admin" "admin123" "System Administrator"
                                    "admin" true false 0 false] [])
                       [] None))))
       "admin"
     = Some (mkUser "a1" "admin" "admin123" "System Administrator" "admin"
               true false 1 false)
  /\ resetRequests
       (adb (snd (login (Some "admin") (Some "guess") (mkSession None None)
                    (mkAuthWorld
                       (mkAuthDb [mkUser "a1" "admin" "admin123" "System Administrator"
                                    "admin" true false 0 false] [])
                       [] None))))
     = [].
Proof.
  apply (failed_login_counter "admin" "guess" (mkSession None None)
           (mkAuthWorld
              (mkAuthDb [mkUser "a1" "admin" "admin123" "System Administrator" "admin"
                           true false 0 false] [])
              [] None)
           (mkUser "a1" "admin" "admin123" "System Administrator" "admin"
              true false 0 false));
    try reflexivity; discriminate.
Defined.

Lemma loginAll_locked : forall username passwords session w u,
  afault w = None ->
  username <> "" ->
  Forall (fun p => p <> "") passwords ->
  findUser (adb w) username = Some u ->
  usr_isLocked u = true ->
  fst (loginAll username passwords session w)
    = map (fun _ => mkAuthResponse 403 lockedMessage) passwords
  /\ adb (snd (loginAll username passwords session w)) = adb w.
Proof.
  intros username passwords session. induction passwords as [|p rest IH];
    intros w u Hf Hu Hall Hfind Hlock; [now split|].
  inversion Hall as [|x xs Hp Hrest]; subst. cbn [loginAll].
  rewrite (login_locked username p session w u Hf Hu Hp Hfind Hlock).
  destruct (IH (mkAuthWorld (adb w) (alog w ++ [UsersSelect]) None) u
              eq_refl Hu Hrest Hfind Hlock) as [IH1 IH2].
  destruct (loginAll username rest session _) as [rs w2].
  cbn [fst snd map] in *. now rewrite IH1, IH2.
Qed.

(** X18: three strikes.  Starting from an unlocked, active account with no
    failed attempt, three wrong passwords in a row are answered 401 with 2
    attempts remaining, 401 with 1 remaining, and 403 "account is locked";
    every attempt after that, the right password included, is answered 403
    and changes nothing. *)
Theorem three_strikes_lock :
  forall username p1 p2 p3 rest session w u,
    afault w = None ->
    username <> "" ->
    Forall (fun p => p <> "") (p1 :: p2 :: p3 :: rest) ->
    findUser (adb w) username = Some u ->
    usr_isLocked u = false ->
    usr_isActive u = true ->
    usr_failedLoginAttempts u = 0 ->
    usr_password u <> p1 ->
    usr_password u <> p2 ->
    usr_password u <> p3 ->
    fst (loginAll username (p1 :: p2 :: p3 :: rest) session w)
      = mkAuthResponse 401 (AInvalid 2)
        :: mkAuthResponse 401 (AInvalid 1)
        :: mkAuthResponse 403 lockedMessage
        :: map (fun _ => mkAuthResponse 403 lockedMessage) rest
    /\ findUser (adb (snd (loginAll username (p1 :: p2 :: p3 :: rest) session w)))
                username
       = Some (setAttempts 3 true u).
Proof.
  intros username p1 p2 p3 rest session w u Hf Hu Hall Hfind Hlock Hact Hzero
         H1 H2 H3.
  inversion Hall as [|x1 l1 Hp1 Hall1]; subst.
  inversion Hall1 as [|x2 l2 Hp2 Hall2]; subst.
  inversion Hall2 as [|x3 l3 Hp3 Hrest]; subst.
  cbn [loginAll].
  destruct (login_wrong_password username p1 session w u
              Hf Hu Hp1 Hfind Hlock Hact H1) as [Hr1 [_ [Hf1 Hfind1]]].
  rewrite Hzero in Hr1, Hfind1. cbn in Hr1, Hfind1.
  destruct (login (Some username) (Some p1) session w) as [[r1 s1] w1].
  cbn [fst snd] in *. injection Hr1 as -> _.
  destruct (login_wrong_password username p2 session w1 _
              Hf1 Hu Hp2 Hfind1 eq_refl Hact H2) as [Hr2 [_ [Hf2 Hfind2]]].
  cbn in Hr2, Hfind2.
  destruct (login (Some username) (Some p2) session w1) as [[r2 s2] w2].
  cbn [fst snd] in *. injection Hr2 as -> _.
  destruct (login_wrong_password username p3 session w2 _
              Hf2 Hu Hp3 Hfind2 eq_refl Hact H3) as [Hr3 [_ [Hf3 Hfind3]]].
  cbn in Hr3, Hfind3.
  destruct (login (Some username) (Some p3) session w2) as [[r3 s3] w3].
  cbn [fst snd] in *. injection Hr3 as -> _.
  destruct (loginAll_locked username rest session w3 _ Hf3 Hu Hrest Hfind3 eq_refl)
    as [Hrs Hdb].
  destruct (loginAll username rest session w3) as [rs w4].
  cbn [fst snd] in *. rewrite Hrs, Hdb. now split.
Qed.

Lemma three_strikes_lock_witness :
  fst (loginAll "admin" ["a"; "b"; "c"; "admin123"] (mkSession None None)
         (mkAuthWorld
            (mkAuthDb [mkUser "a1" "admin" "admin123" "System Administrator" "admin"
                         true false 0 false] [])
            [] None))
    = mkAuthResponse 401 (AInvalid 2)
      :: mkAuthResponse 401 (AInvalid 1)
      :: mkAuthResponse 403 lockedMessage
      :: map (fun _ => mkAuthResponse 403 lockedMessage) ["admin123"]
  /\ findUser
       (adb (snd (loginAll "admin" ["a"; "b"; "c"; "admin123"] (mkSession None None)
                    (mkAuthWorld
                       (mkAuthDb [mkUser "a1" "admin" "admin123" "System Administrator"
                                    "admin" true false 0 false] [])
                       [] None))))
       "admin"
     = Some (setAttempts 3 true
               (mkUser "a1" "admin" "admin123" "System Administrator" "admin"
                  true false 0 false)).
Proof.
  apply (three_strikes_lock "admin" "a" "b" "c" ["admin123"] (mkSession None None)
           (mkAuthWorld
              (mkAuthDb [mkUser "a1" "admin" "admin123" "System Administrator" "admin"
                           true false 0 false] [])
              [] None)
           (mkUser "a1" "admin" "admin123" "System Administrator" "admin"
              true false 0 false));
    try reflexivity; try discriminate.
  repeat constructor; discriminate.
Defined.

Lemma lowerChar_idem : forall c, lowerChar (lowerChar c) = lowerChar c.
Proof. intros [[] [] [] [] [] [] [] []]; reflexivity. Qed.

Lemma toLowerCase_idem : forall s, toLowerCase (toLowerCase s) = toLowerCase s.
Proof.
  unfold toLowerCase. induction s as [|c s IH]; simpl.
  - reflexivity.
  - now rewrite lowerChar_idem, IH.
Qed.

Lemma toLowerCase_empty' : forall s,
  (toLowerCase s =? "")%string = (s =? "")%string.
Proof. intros [|c s]; reflexivity. Qed.

(** X19: the right password for an unlocked, active account logs in: the
    answer is 200 with the account's identity and its must-change-password
    flag, the session holds the user id and the role in lower case, and the
    failed-attempt counter is back at 0, so earlier failures no longer count
    towards the lock. *)
Theorem successful_login_resets_counter :
  forall username session w u,
    afault w = None ->
    username <> "" ->
    usr_password u <> "" ->
    findUser (adb w) username = Some u ->
    usr_isLocked u = false ->
    usr_isActive u = true ->
    fst (login (Some username) (Some (usr_password u)) session w)
      = (mkAuthResponse 200
           (ALoggedIn (usr_id u) (usr_username u) (usr_name u) (usr_role u)
              (usr_mustChangePassword u)),
         mkSession (Some (usr_id u)) (Some (toLowerCase (usr_role u))))
    /\ findUser (adb (snd (login (Some username) (Some (usr_password u)) session w)))
                username
       = Some (resetAttempts u)
    /\ checkRole [usr_role u]
         (snd (fst (login (Some username) (Some (usr_password u)) session w)))
       = negb (usr_role u =? "")%string.
Proof.
  intros username session w u Hf Hu Hp Hfind Hlock Hact.
  destruct (login_right_password username session w u Hf Hu Hp Hfind Hlock Hact)
    as [Hr [_ [_ Hfind']]].
  split; [exact Hr|]. split; [exact Hfind'|]. rewrite Hr.
  unfold checkRole. cbn [snd sess_userRole map existsb].
  rewrite toLowerCase_idem, String.eqb_refl, orb_true_l, andb_true_r.
  now rewrite toLowerCase_empty'.
Qed.

Lemma successful_login_resets_counter_witness :
  fst (login (Some "admin") (Some "admin123") (mkSession None None)
         (mkAuthWorld
            (mkAuthDb [mkUser "a1" "admin" "admin123" "System Administrator" "Admin"
                         true false 2 false] [])
            [] None))
    = (mkAuthResponse 200
         (ALoggedIn "a1" "admin" "System Administrator" "Admin" false),
       mkSession (Some "a1") (Some (toLowerCase "Admin")))
  /\ findUser
       (adb (snd (login (Some "admin") (Some "admin123") (mkSession None None)
                    (mkAuthWorld
                       (mkAuthDb [mkUser "a1" "admin" "admin123" "System Administrator"
                                    "Admin" true false 2 false] [])
                       [] None))))
       "admin"
     = Some (resetAttempts
               (mkUser "a1" "admin" "admin123" "System Administrator" "Admin"
                  true false 2 false))
  /\ checkRole ["Admin"]
       (snd (fst (login (Some "admin") (Some "admin123") (mkSession None None)
                    (mkAuthWorld
                       (mkAuthDb [mkUser "a1" "admin" "admin123" "System Administrator"
                                    "Admin" true false 2 false] [])
                       [] None))))
     = negb ("Admin" =? "")%string.
Proof.
  apply (successful_login_resets_counter "admin" (mkSession None None)
           (mkAuthWorld
              (mkAuthDb [mkUser "a1" "admin" "admin123" "System Administrator" "Admin"
                           true false 2 false] [])
              [] None)
           (mkUser "a1" "admin" "admin123" "System Administrator" "Admin"
              true false 2 false));
    try reflexivity; discriminate.
Defined.

Lemma updateUsers_by_id : forall g id session w u okMessage failMessage,
  afault w = None ->
  checkRole ["admin"] session = true ->
  (forall x, usr_username (g x) = usr_username x) ->
  forall username,
  findUser (adb w) username = Some u ->
  let route :=
    aguarded ["admin"] denied
      (ahandle
         (updated <~ updateUsers (fun x => (usr_id x =? id)%string) g ;;
          match updated with
          | [] => aret (mkAuthResponse 404 (AMessage "User not found"))
          | _ :: _ => aret (mkAuthResponse 200 (AMessage okMessage))
          end)
         (mkAuthResponse 500 (AMessage failMessage))) in
  usr_id u = id ->
  fst (route session w) = mkAuthResponse 200 (AMessage okMessage)
  /\ afault (snd (route session w)) = None
  /\ findUser (adb (snd (route session w))) username = Some (g u).
Proof.
  intros g id session w u okMessage failMessage Hf Hrole Hg username Hfind route Hid.
  assert (Hfind' := Hfind).
  apply (findUser_after_update _ _ _ id g) in Hfind'; [|exact Hg].
  rewrite Hid, String.eqb_refl in Hfind'.
  assert (Hin : In u (filter (fun x => (usr_id x =? id)%string) (users (adb w)))).
  { apply filter_In. split; [|rewrite Hid; apply String.eqb_refl].
    apply hd_error_In in Hfind. now apply filter_In in Hfind. }
  unfold route, aguarded. rewrite Hrole. unfold ahandle.
  run_auth_ok Hf.
  destruct (map g (filter (fun x => (usr_id x =? id)%string) (users (adb w))))
    as [|x xs] eqn:Hup.
  { apply (in_map g) in Hin. rewrite Hup in Hin. contradiction. }
  cbn. repeat split. exact Hfind'.
Qed.

(** X20: an administrator restores access.  After an unlock of a locked,
    active account, the right password logs in again; after a password
    reset, the password "Welcome" logs in, whatever the lock state and the
    old password were, and the answer carries the must-change-password
    flag. *)
Theorem admin_restores_access :
  forall username session session' w u,
    afault w = None ->
    checkRole ["admin"] session = true ->
    username <> "" ->
    findUser (adb w) username = Some u ->
    usr_isActive u = true ->
    (usr_password u <> "" ->
     fst (unlock (usr_id u) session w)
       = mkAuthResponse 200 (AMessage "Account unlocked successfully")
     /\ fst (fst (login (Some username) (Some (usr_password u)) session'
                    (snd (unlock (usr_id u) session w))))
        = mkAuthResponse 200
            (ALoggedIn (usr_id u) (usr_username u) (usr_name u) (usr_role u)
               (usr_mustChangePassword u)))
    /\ fst (fst (login (Some username) (Some "Welcome") session'
                   (snd (resetPassword (usr_id u) session w))))
       = mkAuthResponse 200
           (ALoggedIn (usr_id u) (usr_username u) (usr_name u) (usr_role u) true).
Proof.
  intros username session session' w u Hf Hrole Hu Hfind Hact. split.
  - intros Hp.
    destruct (updateUsers_by_id unlockUser (usr_id u) session w u
                "Account unlocked successfully" "Failed to unlock account"
                Hf Hrole (fun x => eq_refl) username Hfind eq_refl)
      as [Hr [Hf1 Hfind1]].
    split; [exact Hr|].
    destruct (login_right_password username session'
                (snd (unlock (usr_id u) session w)) (unlockUser u)
                Hf1 Hu Hp Hfind1 eq_refl Hact) as [Hl _].
    cbn [usr_password unlockUser] in Hl. now rewrite Hl.
  - destruct (updateUsers_by_id welcomeUser (usr_id u) session w u
                "Password reset to 'Welcome'. User must change password on next login."
                "Failed to reset password"
                Hf Hrole (fun x => eq_refl) username Hfind eq_refl)
      as [Hr [Hf1 Hfind1]].
    assert (Hw : usr_password (welcomeUser u) <> "") by discriminate.
    destruct (login_right_password username session'
                (snd (resetPassword (usr_id u) session w)) (welcomeUser u)
                Hf1 Hu Hw Hfind1 eq_refl Hact) as [Hl _].
    cbn [usr_password welcomeUser] in Hl. now rewrite Hl.
Qed.

Lemma admin_restores_access_witness :
  (usr_password lockedUser <> "" ->
   fst (unlock (usr_id lockedUser) adminSession sampleAuthWorld)
     = mkAuthResponse 200 (AMessage "Account unlocked successfully")
   /\ fst (fst (login (Some "supervisor") (Some (usr_password lockedUser))
                  (mkSession None None)
                  (snd (unlock (usr_id lockedUser) adminSession sampleAuthWorld))))
      = mkAuthResponse 200
          (ALoggedIn (usr_id lockedUser) (usr_username lockedUser)
             (usr_name lockedUser) (usr_role lockedUser)
             (usr_mustChangePassword lockedUser)))
  /\ fst (fst (login (Some "supervisor") (Some "Welcome") (mkSession None None)
                 (snd (resetPassword (usr_id lockedUser) adminSession sampleAuthWorld))))
     = mkAuthResponse 200
         (ALoggedIn (usr_id lockedUser) (usr_username lockedUser)
            (usr_name lockedUser) (usr_role lockedUser) true).
Proof.
  apply (admin_restores_access "supervisor" adminSession (mkSession None None)
           sampleAuthWorld lockedUser); try reflexivity. discriminate.
Defined.

(** X21: changing the password.  For a signed-in user whose current
    password is given, the change is answered 200; afterwards the new
    password logs in (for an unlocked, active account) with the
    must-change-password flag cleared, and the old password, when different,
    is refused as a wrong password. *)
Theorem change_password_round_trip :
  forall current newPassword session session' w u,
    afault w = None ->
    usr_id u <> "" ->
    sess_userId session = Some (usr_id u) ->
    findUserById (adb w) (usr_id u) = Some u ->
    findUser (adb w) (usr_username u) = Some u ->
    usr_username u <> "" ->
    current <> "" ->
    newPassword <> "" ->
    usr_isLocked u = false ->
    usr_isActive u = true ->
    (usr_password u = current ->
     fst (changePassword (Some current) (Some newPassword) session w)
       = mkAuthResponse 200 (AMessage "Password changed successfully")
     /\ fst (fst (login (Some (usr_username u)) (Some newPassword) session'
                    (snd (changePassword (Some current) (Some newPassword) session w))))
        = mkAuthResponse 200
            (ALoggedIn (usr_id u) (usr_username u) (usr_name u) (usr_role u) false)
     /\ (current <> newPassword ->
         auth_status
           (fst (fst (login (Some (usr_username u)) (Some current) session'
                        (snd (changePassword (Some current) (Some newPassword)
                                session w)))))
         <> 200))
    /\ (usr_password u <> current ->
        changePassword (Some current) (Some newPassword) session w
        = (mkAuthResponse 401 (AMessage "Current password is incorrect"),
           mkAuthWorld (adb w) (alog w ++ [UsersSelect]) None)).
Proof.
  intros current newPassword session session' w u
         Hf Hid Hsess Hbyid Hfind Hu Hc Hn Hlock Hact.
  assert (Hfind' := Hfind).
  apply (findUser_after_update _ _ _ (usr_id u) (setPassword newPassword)) in Hfind';
    [|reflexivity]. rewrite String.eqb_refl in Hfind'.
  split.
  - intros Hpw.
    assert (Hrun : changePassword (Some current) (Some newPassword) session w
                   = (mkAuthResponse 200 (AMessage "Password changed successfully"),
                      mkAuthWorld
                        (mkAuthDb
                           (map (fun x => if (usr_id x =? usr_id u)%string
                                          then setPassword newPassword x else x)
                                (users (adb w)))
                           (resetRequests (adb w)))
                        (alog w ++ [UsersSelect] ++ [UsersUpdate]) None)).
    { unfold changePassword, ahandle. rewrite Hsess.
      rewrite (falsy_nonempty _ Hid), (falsy_nonempty _ Hc), (falsy_nonempty _ Hn).
      cbn [orb]. run_auth_ok Hf. rewrite limit1_hd.
      change (hd_error (filter _ (users (adb w))))
        with (findUserById (adb w) (usr_id u)).
      rewrite Hbyid, Hpw, String.eqb_refl. cbn [negb].
      run_auth_ok (eq_refl (@None nat)). cbn. now rewrite <- app_assoc. }
    rewrite Hrun. cbn [fst snd]. split; [reflexivity|].
    set (w1 := mkAuthWorld _ _ None).
    assert (Hnew : usr_password (setPassword newPassword u) <> "") by exact Hn.
    destruct (login_right_password (usr_username u) session' w1
                (setPassword newPassword u) eq_refl Hu Hnew Hfind' Hlock Hact)
      as [Hl _].
    cbn [usr_password setPassword] in Hl. split; [now rewrite Hl|].
    intros Hdiff.
    assert (Hwrong : usr_password (setPassword newPassword u) <> current)
      by (cbn; congruence).
    destruct (login_wrong_password (usr_username u) current session' w1
                (setPassword newPassword u) eq_refl Hu Hc Hfind' Hlock Hact Hwrong)
      as [Hl2 _].
    rewrite Hl2. cbn [fst auth_status]. now destruct (3 <=? _).
  - intros Hpw. unfold changePassword, ahandle. rewrite Hsess.
    rewrite (falsy_nonempty _ Hid), (falsy_nonempty _ Hc), (falsy_nonempty _ Hn).
    cbn [orb]. run_auth_ok Hf. rewrite limit1_hd.
    change (hd_error (filter _ (users (adb w))))
      with (findUserById (adb w) (usr_id u)).
    rewrite Hbyid. apply String.eqb_neq in Hpw. now rewrite Hpw.
Qed.

Lemma change_password_round_trip_witness :
  (usr_password sampleAdmin = "admin123" ->
   fst (changePassword (Some "admin123") (Some "s3cret") adminSession sampleAuthWorld)
     = mkAuthResponse 200 (AMessage "Password changed successfully")
   /\ fst (fst (login (Some (usr_username sampleAdmin)) (Some "s3cret")
                  (mkSession None None)
                  (snd (changePassword (Some "admin123") (Some "s3cret")
                          adminSession sampleAuthWorld))))
      = mkAuthResponse 200
          (ALoggedIn (usr_id sampleAdmin) (usr_username sampleAdmin)
             (usr_name sampleAdmin) (usr_role sampleAdmin) false)
   /\ ("admin123" <> "s3cret" ->
       auth_status
         (fst (fst (login (Some (usr_username sampleAdmin)) (Some "admin123")
                      (mkSession None None)
                      (snd (changePassword (Some "admin123") (Some "s3cret")
                              adminSession sampleAuthWorld)))))
       <> 200))
  /\ (usr_password sampleAdmin <> "admin123" ->
      changePassword (Some "admin123") (Some "s3cret") adminSession sampleAuthWorld
      = (mkAuthResponse 401 (AMessage "Current password is incorrect"),
         mkAuthWorld (adb sampleAuthWorld) (alog sampleAuthWorld ++ [UsersSelect]) None)).
Proof.
  apply (change_password_round_trip "admin123" "s3cret" adminSession
           (mkSession None None) sampleAuthWorld sampleAdmin);
    try reflexivity; discriminate.
Defined.

(** ** Password reset requests *)

Lemma pendingFor_app : forall userId us rs r,
  pendingFor userId (mkAuthDb us (rs ++ [r]))
  = (pendingFor userId (mkAuthDb us rs)
     ++ (if (rq_userId r =? userId)%string && isPending r then [r] else []))%list.
Proof.
  intros userId us rs r. unfold pendingFor. cbn [resetRequests].
  now rewrite filter_app.
Qed.

Lemma pendingFor_resolve :
  forall userId us us' (rs : list ResetRequest) (p : ResetRequest -> bool)
         status now by_,
  (forall r, isPending (resolveRequest status now by_ r) = false) ->
  (List.length
     (pendingFor userId
        (mkAuthDb us (map (fun r => if p r then resolveRequest status now by_ r else r) rs)))
   <= List.length (pendingFor userId (mkAuthDb us' rs)))%nat.
Proof.
  intros userId us us' rs p status now by_ Hst. unfold pendingFor.
  cbn [resetRequests]. induction rs as [|r rs IH]; [apply Nat.le_refl|].
  cbn [map filter].
  destruct (p r).
  - rewrite (Hst r), andb_false_r.
    destruct ((rq_userId r =? userId)%string && isPending r); cbn [List.length]; lia.
  - destruct ((rq_userId r =? userId)%string && isPending r); cbn [List.length]; lia.
Qed.

Lemma forgotPassword_requests : forall newId username w,
  resetRequests (adb (snd (forgotPassword newId username w)))
    = resetRequests (adb w)
  \/ exists u,
       pendingFor (usr_id u) (adb w) = []
       /\ resetRequests (adb (snd (forgotPassword newId username w)))
          = (resetRequests (adb w)
             ++ [mkResetRequest newId (usr_id u) (usr_username u) "pending" None None])%list.
Proof.
  intros newId username w. unfold forgotPassword, ahandle.
  destruct (falsy username); [now left|].
  run_auth; [left; simpl; now rewrite D|].
  destruct (limit1 _) as [|user0 rest]; [now left|].
  run_auth; [left; simpl; now rewrite D|].
  rewrite limit1_hd.
  change (filter _ (resetRequests (adb w))) with (pendingFor (usr_id user0) (adb w)).
  destruct (pendingFor (usr_id user0) (adb w)) as [|r rs] eqn:Hp; [|now left].
  cbn [hd_error].
  run_auth; [left; simpl; now rewrite D|].
  right. exists user0. now split.
Qed.

Lemma approveRequest_requests : forall now id session w,
  resetRequests (adb (snd (approveRequest now id session w))) = resetRequests (adb w)
  \/ resetRequests (adb (snd (approveRequest now id session w)))
     = map (fun r => if (rq_id r =? id)%string
                     then resolveRequest "approved" now (sess_userId session) r
                     else r)
           (resetRequests (adb w)).
Proof.
  intros now id session w. unfold approveRequest, aguarded.
  destruct (checkRole _ session); [|now left]. unfold ahandle.
  run_auth; [left; simpl; now rewrite D|].
  destruct (limit1 _) as [|request0 rest]; [now left|].
  destruct (isPending request0); cbn [negb]; [|now left].
  run_auth; [left; simpl; now rewrite D|].
  run_auth; [left; simpl; now rewrite D|].
  now right.
Qed.

Lemma rejectRequest_effect : forall now id session w,
  users (adb (snd (rejectRequest now id session w))) = users (adb w)
  /\ (resetRequests (adb (snd (rejectRequest now id session w)))
        = resetRequests (adb w)
      \/ resetRequests (adb (snd (rejectRequest now id session w)))
         = map (fun r => if (rq_id r =? id)%string
                         then resolveRequest "rejected" now (sess_userId session) r
                         else r)
               (resetRequests (adb w))).
Proof.
  intros now id session w. unfold rejectRequest, aguarded.
  destruct (checkRole _ session); [|split; [reflexivity | now left]].
  unfold ahandle.
  run_auth; [simpl; rewrite D; split; [reflexivity | now left]|].
  destruct (limit1 _) as [|request0 rest]; [split; [reflexivity | now left]|].
  destruct (isPending request0); cbn [negb]; [|split; [reflexivity | now left]].
  run_auth; [simpl; rewrite D; split; [reflexivity | now left]|].
  split; [reflexivity | now right].
Qed.

(** A forgot-password request for a user with a pending request. *)
Lemma forgotPassword_pending : forall newId name w u r rs,
  afault w = None ->
  name <> "" ->
  findUser (adb w) name = Some u ->
  pendingFor (usr_id u) (adb w) = r :: rs ->
  forgotPassword newId (Some name) w
  = (mkAuthResponse 400
       (AMessage "A reset request is already pending. Please wait for Admin approval."),
     mkAuthWorld (adb w) (alog w ++ [UsersSelect; RequestsSelect]) None).
Proof.
  intros newId name w u r rs Hf Hn Hfind Hp.
  unfold forgotPassword, ahandle. rewrite (falsy_nonempty _ Hn).
  run_auth_ok Hf. rewrite limit1_hd.
  change (hd_error (filter _ (users (adb w)))) with (findUser (adb w) name).
  rewrite Hfind. run_auth_ok (eq_refl (@None nat)). rewrite limit1_hd.
  change (filter _ (resetRequests (adb w))) with (pendingFor (usr_id u) (adb w)).
  rewrite Hp. cbn. now rewrite <- app_assoc.
Qed.

(** A forgot-password request for a user without one. *)
Lemma forgotPassword_accepted : forall newId name w u,
  afault w = None ->
  name <> "" ->
  findUser (adb w) name = Some u ->
  pendingFor (usr_id u) (adb w) = [] ->
  forgotPassword newId (Some name) w
  = (mkAuthResponse 200
       (AMessage "Password reset request submitted. Please wait for Admin approval."),
     mkAuthWorld
       (mkAuthDb (users (adb w))
          (resetRequests (adb w)
           ++ [mkResetRequest newId (usr_id u) (usr_username u) "pending" None None]))
       (alog w ++ [UsersSelect; RequestsSelect; RequestsInsert]) None).
Proof.
  intros newId name w u Hf Hn Hfind Hp.
  unfold forgotPassword, ahandle. rewrite (falsy_nonempty _ Hn).
  run_auth_ok Hf. rewrite limit1_hd.
  change (hd_error (filter _ (users (adb w)))) with (findUser (adb w) name).
  rewrite Hfind. run_auth_ok (eq_refl (@None nat)). rewrite limit1_hd.
  change (filter _ (resetRequests (adb w))) with (pendingFor (usr_id u) (adb w)).
  rewrite Hp. cbn [hd_error]. run_auth_ok (eq_refl (@None nat)).
  cbn. now rewrite <- !app_assoc.
Qed.

(** X22: each user has at most one pending password-reset request when
    requests are served one at a time.  If that holds, it still holds after
    a forgot-password request, an approval or a rejection has run to its
    response, whoever asked and whatever storage faults occurred.  In
    particular, with a fault-free storage, a forgot-password request of a
    user without a pending request is answered 200 and records one, and a
    further request of that user is then answered 400 after two reads,
    without a write. *)
Theorem one_pending_request_per_user :
  forall newId username now id session w,
    atMostOnePending (adb w) ->
    atMostOnePending (adb (snd (forgotPassword newId username w)))
    /\ atMostOnePending (adb (snd (approveRequest now id session w)))
    /\ atMostOnePending (adb (snd (rejectRequest now id session w)))
    /\ (forall name u newId',
          afault w = None ->
          username = Some name ->
          name <> "" ->
          findUser (adb w) name = Some u ->
          pendingFor (usr_id u) (adb w) = [] ->
          fst (forgotPassword newId username w)
            = mkAuthResponse 200
                (AMessage "Password reset request submitted. Please wait for Admin approval.")
          /\ pendingFor (usr_id u) (adb (snd (forgotPassword newId username w)))
             = [mkResetRequest newId (usr_id u) (usr_username u) "pending" None None]
          /\ forgotPassword newId' username (snd (forgotPassword newId username w))
             = (mkAuthResponse 400
                  (AMessage "A reset request is already pending. Please wait for Admin approval."),
                mkAuthWorld (adb (snd (forgotPassword newId username w)))
                  (alog (snd (forgotPassword newId username w))
                   ++ [UsersSelect; RequestsSelect])
                  None)).
Proof.
  intros newId username now id session w Hinv.
  split; [|split; [|split]].
  - intros userId.
    destruct (forgotPassword_requests newId username w) as [E | [u [Hp E]]].
    + unfold pendingFor in *. rewrite E. apply Hinv.
    + unfold pendingFor at 1. rewrite E.
      change (filter ?q (?a ++ ?b))
        with (pendingFor userId (mkAuthDb [] (a ++ b))).
      rewrite pendingFor_app. rewrite length_app. cbn [rq_userId].
      destruct (String.eqb_spec (usr_id u) userId) as [<-|Hne]; cbn [andb].
      * unfold pendingFor in *. cbn [resetRequests]. rewrite Hp. cbn. lia.
      * specialize (Hinv userId). unfold pendingFor in *.
        cbn [resetRequests List.length]. lia.
  - intros userId.
    destruct (approveRequest_requests now id session w) as [E | E].
    + unfold pendingFor in *. rewrite E. apply Hinv.
    + eapply Nat.le_trans; [|apply (Hinv userId)].
      unfold pendingFor at 1. rewrite E.
      apply (pendingFor_resolve userId [] (users (adb w)) _
               (fun r => (rq_id r =? id)%string) "approved" now (sess_userId session)).
      intros r; reflexivity.
  - intros userId.
    destruct (rejectRequest_effect now id session w) as [_ [E | E]].
    + unfold pendingFor in *. rewrite E. apply Hinv.
    + eapply Nat.le_trans; [|apply (Hinv userId)].
      unfold pendingFor at 1. rewrite E.
      apply (pendingFor_resolve userId [] (users (adb w)) _
               (fun r => (rq_id r =? id)%string) "rejected" now (sess_userId session)).
      intros r; reflexivity.
  - intros name u newId' Hf -> Hn Hfind Hp.
    rewrite (forgotPassword_accepted newId name w u Hf Hn Hfind Hp).
    cbn [fst snd adb alog].
    assert (Hp1 : pendingFor (usr_id u)
                    (mkAuthDb (users (adb w))
                       (resetRequests (adb w)
                        ++ [mkResetRequest newId (usr_id u) (usr_username u)
                              "pending" None None]))
                  = [mkResetRequest newId (usr_id u) (usr_username u)
                       "pending" None None]).
    { rewrite pendingFor_app.
      change (pendingFor (usr_id u) (mkAuthDb (users (adb w)) (resetRequests (adb w))))
        with (pendingFor (usr_id u) (adb w)).
      rewrite Hp. cbn [rq_userId isPending rq_status app].
      now rewrite String.eqb_refl. }
    split; [reflexivity|]. split; [exact Hp1|].
    match goal with
    | |- forgotPassword _ _ ?w1 = _ =>
        apply (forgotPassword_pending newId' name w1 u
                 (mkResetRequest newId (usr_id u) (usr_username u) "pending" None None)
                 [] eq_refl Hn);
          [exact Hfind | exact Hp1]
    end.
Qed.

Lemma one_pending_request_per_user_witness :
  let asked := forgotPassword "q2" (Some "admin") sampleAuthWorld in
  atMostOnePending (adb (snd asked))
  /\ auth_status (fst asked) = 200
  /\ pendingFor "a1" (adb (snd asked))
     = [mkResetRequest "q2" "a1" "admin" "pending" None None]
  /\ auth_status (fst (forgotPassword "q3" (Some "admin") (snd asked))) = 400
  /\ adb (snd (forgotPassword "q3" (Some "admin") (snd asked))) = adb (snd asked).
Proof.
  intros asked.
  destruct (one_pending_request_per_user "q2" (Some "admin") 1000 "q1" adminSession
              sampleAuthWorld)
    as [H1 [_ [_ H4]]].
  - intros userId. unfold pendingFor, sampleAuthWorld.
    cbn [adb resetRequests filter].
    destruct (_ && _); cbn [List.length]; lia.
  - destruct (H4 "admin" sampleAdmin "q3" eq_refl eq_refl) as [H200 [Hp H400]];
      [discriminate | reflexivity | reflexivity |].
    split; [exact H1|]. subst asked. rewrite H200, H400.
    split; [reflexivity|]. split; [exact Hp|]. split; reflexivity.
Defined.

Lemma findRequest_after_update : forall us rs id g r,
  (forall x, rq_id (g x) = rq_id x) ->
  findRequest (mkAuthDb us rs) id = Some r ->
  findRequest (mkAuthDb us (map (fun x => if (rq_id x =? id)%string then g x else x) rs)) id
  = Some (g r).
Proof.
  intros us rs id g r Hg H. unfold findRequest in *. cbn [resetRequests] in *.
  induction rs as [|x rs IH]; [discriminate|].
  cbn [map filter] in *.
  destruct (rq_id x =? id)%string eqn:E.
  - rewrite Hg, E. cbn [hd_error] in *. now inversion H.
  - rewrite E. now apply IH.
Qed.

Lemma approveRequest_pending : forall now id session w r,
  afault w = None ->
  checkRole ["admin"] session = true ->
  findRequest (adb w) id = Some r ->
  isPending r = true ->
  approveRequest now id session w
  = (mkAuthResponse 200
       (AMessage "Password reset approved. User's password is now 'Welcome'."),
     mkAuthWorld
       (mkAuthDb
          (map (fun u => if (usr_id u =? rq_userId r)%string then welcomeUser u else u)
               (users (adb w)))
          (map (fun x => if (rq_id x =? id)%string
                         then resolveRequest "approved" now (sess_userId session) x
                         else x)
               (resetRequests (adb w))))
       (alog w ++ [RequestsSelect; UsersUpdate; RequestsUpdate]) None).
Proof.
  intros now id session w r Hf Hrole Hfind Hp.
  unfold approveRequest, aguarded. rewrite Hrole. unfold ahandle.
  run_auth_ok Hf. rewrite limit1_hd.
  change (hd_error (filter _ (resetRequests (adb w)))) with (findRequest (adb w) id).
  rewrite Hfind, Hp. cbn [negb].
  run_auth_ok (eq_refl (@None nat)).
  run_auth_ok (eq_refl (@None nat)).
  cbn. now rewrite <- !app_assoc.
Qed.

Lemma rejectRequest_pending : forall now id session w r,
  afault w = None ->
  checkRole ["admin"] session = true ->
  findRequest (adb w) id = Some r ->
  isPending r = true ->
  rejectRequest now id session w
  = (mkAuthResponse 200 (AMessage "Password reset request rejected."),
     mkAuthWorld
       (mkAuthDb
          (users (adb w))
          (map (fun x => if (rq_id x =? id)%string
                         then resolveRequest "rejected" now (sess_userId session) x
                         else x)
               (resetRequests (adb w))))
       (alog w ++ [RequestsSelect; RequestsUpdate]) None).
Proof.
  intros now id session w r Hf Hrole Hfind Hp.
  unfold rejectRequest, aguarded. rewrite Hrole. unfold ahandle.
  run_auth_ok Hf. rewrite limit1_hd.
  change (hd_error (filter _ (resetRequests (adb w)))) with (findRequest (adb w) id).
  rewrite Hfind, Hp. cbn [negb].
  run_auth_ok (eq_refl (@None nat)).
  cbn. now rewrite <- !app_assoc.
Qed.

Lemma resolved_request_final : forall now id session w r,
  afault w = None ->
  checkRole ["admin"] session = true ->
  findRequest (adb w) id = Some r ->
  isPending r = false ->
  approveRequest now id session w
    = (mkAuthResponse 400 (AMessage "Request already processed"),
       mkAuthWorld (adb w) (alog w ++ [RequestsSelect]) None)
  /\ rejectRequest now id session w
    = (mkAuthResponse 400 (AMessage "Request already processed"),
       mkAuthWorld (adb w) (alog w ++ [RequestsSelect]) None).
Proof.
  intros now id session w r Hf Hrole Hfind Hp. split.
  - unfold approveRequest, aguarded. rewrite Hrole. unfold ahandle.
    run_auth_ok Hf. rewrite limit1_hd.
    change (hd_error (filter _ (resetRequests (adb w)))) with (findRequest (adb w) id).
    rewrite Hfind, Hp. reflexivity.
  - unfold rejectRequest, aguarded. rewrite Hrole. unfold ahandle.
    run_auth_ok Hf. rewrite limit1_hd.
    change (hd_error (filter _ (resetRequests (adb w)))) with (findRequest (adb w) id).
    rewrite Hfind, Hp. reflexivity.
Qed.

(** X23: a password-reset request is resolved once.  For an administrator
    and a pending request, with no storage fault, approval answers 200, sets
    the password of the requesting user (and of no other) to "Welcome",
    unlocks the account and marks the request approved; rejection answers
    200, marks it rejected and leaves every account as it was.  After
    either, a further approval or rejection of the same request is answered
    400 "Request already processed" and changes nothing: a rejected request
    can never reset a password. *)
Theorem reset_request_resolved_once :
  forall now now' id session w r,
    afault w = None ->
    checkRole ["admin"] session = true ->
    findRequest (adb w) id = Some r ->
    isPending r = true ->
    let approved := approveRequest now id session w in
    let rejected := rejectRequest now id session w in
    auth_status (fst approved) = 200
    /\ users (adb (snd approved))
       = map (fun u => if (usr_id u =? rq_userId r)%string then welcomeUser u else u)
             (users (adb w))
    /\ findRequest (adb (snd approved)) id
       = Some (resolveRequest "approved" now (sess_userId session) r)
    /\ auth_status (fst rejected) = 200
    /\ users (adb (snd rejected)) = users (adb w)
    /\ findRequest (adb (snd rejected)) id
       = Some (resolveRequest "rejected" now (sess_userId session) r)
    /\ forall w1, w1 = snd approved \/ w1 = snd rejected ->
         approveRequest now' id session w1
           = (mkAuthResponse 400 (AMessage "Request already processed"),
              mkAuthWorld (adb w1) (alog w1 ++ [RequestsSelect]) None)
         /\ rejectRequest now' id session w1
           = (mkAuthResponse 400 (AMessage "Request already processed"),
              mkAuthWorld (adb w1) (alog w1 ++ [RequestsSelect]) None).
Proof.
  intros now now' id session w r Hf Hrole Hfind Hp approved rejected.
  subst approved rejected.
  rewrite (approveRequest_pending now id session w r Hf Hrole Hfind Hp).
  rewrite (rejectRequest_pending now id session w r Hf Hrole Hfind Hp).
  cbn [fst snd adb users auth_status].
  assert (Ha : forall us status,
             findRequest
               (mkAuthDb us
                  (map (fun x => if (rq_id x =? id)%string
                                 then resolveRequest status now (sess_userId session) x
                                 else x)
                       (resetRequests (adb w)))) id
             = Some (resolveRequest status now (sess_userId session) r)).
  { intros us status.
    apply (findRequest_after_update us (resetRequests (adb w)) id
             (resolveRequest status now (sess_userId session)) r).
    - reflexivity.
    - exact Hfind. }
  split; [reflexivity|]. split; [reflexivity|]. split; [apply Ha|].
  split; [reflexivity|]. split; [reflexivity|]. split; [apply Ha|].
  intros w1 [-> | ->].
  - apply (resolved_request_final now' id session _
             (resolveRequest "approved" now (sess_userId session) r));
      [reflexivity | exact Hrole | apply Ha | reflexivity].
  - apply (resolved_request_final now' id session _
             (resolveRequest "rejected" now (sess_userId session) r));
      [reflexivity | exact Hrole | apply Ha | reflexivity].
Qed.

Lemma reset_request_resolved_once_witness :
  let approved := approveRequest 1000 "q1" adminSession sampleAuthWorld in
  let rejected := rejectRequest 1000 "q1" adminSession sampleAuthWorld in
  auth_status (fst approved) = 200
  /\ users (adb (snd approved))
     = map (fun u => if (usr_id u =? "s1")%string then welcomeUser u else u)
           (users (adb sampleAuthWorld))
  /\ findRequest (adb (snd approved)) "q1"
     = Some (resolveRequest "approved" 1000 (Some "a1")
               (mkResetRequest "q1" "s1" "supervisor" "pending" None None))
  /\ auth_status (fst rejected) = 200
  /\ users (adb (snd rejected)) = users (adb sampleAuthWorld)
  /\ findRequest (adb (snd rejected)) "q1"
     = Some (resolveRequest "rejected" 1000 (Some "a1")
               (mkResetRequest "q1" "s1" "supervisor" "pending" None None))
  /\ forall w1, w1 = snd approved \/ w1 = snd rejected ->
       approveRequest 2000 "q1" adminSession w1
         = (mkAuthResponse 400 (AMessage "Request already processed"),
            mkAuthWorld (adb w1) (alog w1 ++ [RequestsSelect]) None)
       /\ rejectRequest 2000 "q1" adminSession w1
         = (mkAuthResponse 400 (AMessage "Request already processed"),
            mkAuthWorld (adb w1) (alog w1 ++ [RequestsSelect]) None).
Proof.
  apply (reset_request_resolved_once 1000 2000 "q1" adminSession sampleAuthWorld
           (mkResetRequest "q1" "s1" "supervisor" "pending" None None));
    reflexivity.
Defined.

Lemma deleteUser_cases : forall id session w,
  (adb (snd (deleteUser id session w)) = adb w
   /\ auth_status (fst (deleteUser id session w)) <> 200)
  \/ (adb (snd (deleteUser id session w))
      = mkAuthDb (filter (fun u => negb (usr_id u =? id)%string) (users (adb w)))
                 (resetRequests (adb w))
      /\ sess_userId session <> Some id).
Proof.
  intros id session w. unfold deleteUser, aguarded.
  destruct (checkRole _ session); [|left; split; [reflexivity | discriminate]].
  unfold ahandle.
  destruct (sess_userId session) as [currentUserId|] eqn:Hs.
  - destruct (String.eqb_spec id currentUserId) as [->|Hne].
    + left. split; [reflexivity | discriminate].
    + unfold deleteUsers. run_auth.
      * left. simpl. rewrite D. split; [reflexivity | discriminate].
      * right. split; [reflexivity | congruence].
  - unfold deleteUsers. run_auth.
    + left. simpl. rewrite D. split; [reflexivity | discriminate].
    + right. split; [reflexivity | discriminate].
Qed.

(** X24: deleting a user never removes the caller's own account and never
    touches another one.  Whatever the session and the storage faults, the
    route leaves the reset requests alone, adds or alters no account, keeps
    every account whose id differs from the one named and keeps the account
    of the session's user; when it answers 200 no account with the named id
    is left; and a request to delete one's own account is answered 400
    before any storage operation. *)
Theorem delete_user_spares_the_caller :
  forall id session w,
    let out := deleteUser id session w in
    resetRequests (adb (snd out)) = resetRequests (adb w)
    /\ (forall u, In u (users (adb (snd out))) -> In u (users (adb w)))
    /\ (forall u, In u (users (adb w)) -> usr_id u <> id ->
                  In u (users (adb (snd out))))
    /\ (forall u, In u (users (adb w)) -> sess_userId session = Some (usr_id u) ->
                  In u (users (adb (snd out))))
    /\ (auth_status (fst out) = 200 ->
        forall u, In u (users (adb (snd out))) -> usr_id u <> id)
    /\ (checkRole ["admin"] session = true -> sess_userId session = Some id ->
        out = (mkAuthResponse 400 (AMessage "You cannot delete your own account"), w)).
Proof.
  intros id session w out. subst out.
  destruct (deleteUser_cases id session w) as [[E Hst] | [E Hs]].
  - rewrite E.
    split; [reflexivity|]. split; [auto|]. split; [auto|]. split; [auto|].
    split; [intros H; contradiction|].
    intros Hrole Hid. unfold deleteUser, aguarded, ahandle.
    now rewrite Hrole, Hid, String.eqb_refl.
  - rewrite E. cbn [users resetRequests].
    split; [reflexivity|].
    split; [intros u Hu; apply filter_In in Hu; tauto|].
    split.
    { intros u Hu Hne. apply filter_In. split; [exact Hu|].
      now destruct (String.eqb_spec (usr_id u) id). }
    split.
    { intros u Hu Hid. apply filter_In. split; [exact Hu|].
      destruct (String.eqb_spec (usr_id u) id) as [Heq|]; [|reflexivity].
      exfalso. apply Hs. now rewrite Hid, Heq. }
    split.
    { intros _ u Hu. apply filter_In in Hu. destruct Hu as [_ Hu].
      now destruct (String.eqb_spec (usr_id u) id). }
    intros _ Hid. contradiction.
Qed.

(** ** Gate-out screen: the selection *)

Lemma setHas_In : forall s x, setHas s x = true <-> In x s.
Proof.
  intros s x. unfold setHas. rewrite existsb_exists. split.
  - intros [y [Hy E]]. apply String.eqb_eq in E. now subst.
  - intros H. exists x. split; [exact H | apply String.eqb_refl].
Qed.

Lemma setHas_false : forall s x, setHas s x = false <-> ~ In x s.
Proof.
  intros s x. rewrite <- setHas_In. destruct (setHas s x); intuition congruence.
Qed.

Lemma setAdd_NoDup : forall s x, NoDup s -> NoDup (setAdd s x).
Proof.
  intros s x H. unfold setAdd. destruct (setHas s x) eqn:E; [exact H|].
  apply setHas_false in E.
  apply NoDup_app; [exact H | repeat constructor; intros [] |].
  intros y Hy [<-|[]]. now apply E.
Qed.

Lemma setDelete_NoDup : forall s x, NoDup s -> NoDup (setDelete s x).
Proof. intros s x H. now apply NoDup_filter. Qed.

Lemma fold_setAdd_NoDup : forall xs acc, NoDup acc -> NoDup (fold_left setAdd xs acc).
Proof.
  intros xs. induction xs as [|x xs IH]; intros acc H; [exact H|].
  cbn [fold_left]. apply IH. now apply setAdd_NoDup.
Qed.

Lemma fold_setAdd_distinct : forall xs acc,
  NoDup (acc ++ xs) -> fold_left setAdd xs acc = (acc ++ xs)%list.
Proof.
  intros xs. induction xs as [|x xs IH]; intros acc H.
  - now rewrite app_nil_r.
  - cbn [fold_left]. unfold setAdd at 2.
    assert (Hx : setHas acc x = false).
    { apply setHas_false. intros Hin.
      apply NoDup_remove_2 in H. apply H. apply in_or_app. now left. }
    rewrite Hx. rewrite IH; rewrite <- app_assoc; [reflexivity | exact H].
Qed.

Lemma setOf_distinct : forall xs, NoDup xs -> setOf xs = xs.
Proof. intros xs H. unfold setOf. now rewrite fold_setAdd_distinct. Qed.

Lemma toggleSelection_NoDup : forall s id, NoDup s -> NoDup (toggleSelection s id).
Proof.
  intros s id H. unfold toggleSelection.
  destruct (setHas s id); [now apply setDelete_NoDup | now apply setAdd_NoDup].
Qed.

Lemma selectAll_NoDup : forall s present, NoDup (selectAll s present).
Proof.
  intros s present. unfold selectAll.
  destruct (_ =? _)%nat; [constructor|].
  apply fold_setAdd_NoDup. constructor.
Qed.

Lemma selection_NoDup : forall events s,
  NoDup s -> NoDup (fold_left selectionStep events s).
Proof.
  intros events. induction events as [|e events IH]; intros s H; [exact H|].
  cbn [fold_left]. apply IH. destruct e; cbn [selectionStep].
  - now apply toggleSelection_NoDup.
  - apply selectAll_NoDup.
  - constructor.
Qed.

(** X25: the selection of the gate-out screen.  A tap on a row changes the
    membership of that row's identifier and of no other.  Whatever the taps,
    select-all presses and completed gate-outs since the screen opened, the
    selection holds no identifier twice, so the list handed to the bulk
    gate-out request is never empty and never repeats an identifier. *)
Theorem selection_never_repeats :
  forall events,
    let selectedIds := fold_left selectionStep events [] in
    NoDup selectedIds
    /\ (forall id x,
          In x (toggleSelection selectedIds id)
          <-> (x <> id /\ In x selectedIds) \/ (x = id /\ ~ In id selectedIds))
    /\ (forall ids, snd (handleBulkGateOut selectedIds) = Some ids ->
          ids = selectedIds /\ ids <> [] /\ NoDup ids)
    /\ (selectedIds = [] -> snd (handleBulkGateOut selectedIds) = None).
Proof.
  intros events selectedIds.
  assert (Hnd : NoDup selectedIds) by (apply selection_NoDup; constructor).
  split; [exact Hnd|]. split; [|split].
  - intros id x. unfold toggleSelection, setAdd.
    destruct (setHas selectedIds id) eqn:E.
    + apply setHas_In in E. unfold setDelete. rewrite filter_In.
      destruct (String.eqb_spec x id) as [->|Hne]; cbn [negb]; split.
      * intros [_ H]. discriminate.
      * intros [[H _] | [_ H]]; [now elim H | now elim H].
      * intros [H _]. left. now split.
      * intros [[_ H] | [H _]]; [now split | now elim Hne].
    + apply setHas_false in E. rewrite in_app_iff. cbn [In]. split.
      * intros [H | [<- | []]]; [left | right; now split].
        split; [|exact H]. intros ->. now apply E.
      * intros [[_ H] | [-> _]]; [now left | right; now left].
  - intros ids H. unfold handleBulkGateOut in H.
    destruct selectedIds as [|i rest] eqn:Es; cbn in H; [discriminate|].
    inversion H; subst ids. split; [reflexivity|]. split; [discriminate | exact Hnd].
  - intros ->. reflexivity.
Qed.

(** ** Select all, then gate out *)

Lemma gatePresent_run : forall now w,
  fault w = None ->
  exists rows w',
    gatePresent now w = (mkResponse 200 (JPresent rows), w')
    /\ fault w' = None
    /\ db w' = db w
    /\ map pr_attendanceId rows
       = map att_id
           (sortBy (fun a b => att_gateInTime b <=? att_gateInTime a)
              (filter (fun a => isNull (att_gateOutTime a)) (attendance (db w)))).
Proof.
  intros now w Hf. unfold gatePresent, handle. run_ok Hf. rewrite bind_run.
  set (sorted := sortBy (fun a b => att_gateInTime b <=? att_gateInTime a)
                   (filter (fun a => isNull (att_gateOutTime a)) (attendance (db w)))).
  destruct (presentRows_spec now sorted
              (mkWorld (db w) (log w ++ [OpSelect AttendanceT]) None) eq_refl)
    as [rows [w' [E [Hf' [Hd [Hi _]]]]]].
  rewrite E. exists rows, w'. cbn [ret]. now repeat split.
Qed.

Lemma bulkOutLoop_fault : forall now ids count w,
  fault w = None -> fault (snd (bulkOutLoop now ids count w)) = None.
Proof.
  intros now ids. induction ids as [|attId ids IH]; intros count w Hf; [exact Hf|].
  cbn [bulkOutLoop]. run_ok Hf.
  destruct (limit1 _) as [|att0 rest].
  - now apply IH.
  - run_ok (eq_refl (@None nat)). now apply IH.
Qed.

Lemma filter_open_closeListed : forall now ids rows,
  (forall a, In a rows -> att_gateOutTime a = None -> In (att_id a) ids) ->
  filter (fun a => isNull (att_gateOutTime a)) (closeListed now ids rows) = [].
Proof.
  intros now ids rows. unfold closeListed.
  induction rows as [|a rows IH]; intros H; [reflexivity|].
  cbn [map filter]. rewrite IH by (intros b Hb; apply H; now right).
  destruct (listedIn ids a) eqn:E; [reflexivity|].
  destruct (att_gateOutTime a) eqn:Eo; cbn [isNull]; [reflexivity|].
  exfalso. assert (Hin : In (att_id a) ids) by (apply H; [now left | exact Eo]).
  unfold listedIn in E.
  assert (Ht : existsb (String.eqb (att_id a)) ids = true).
  { apply existsb_exists. exists (att_id a). split; [exact Hin | apply String.eqb_refl]. }
  congruence.
Qed.

Lemma NoDup_map_filter : forall {A B} (f : A -> B) (p : A -> bool) l,
  NoDup (map f l) -> NoDup (map f (filter p l)).
Proof.
  intros A B f p l. induction l as [|a l IH]; intros H; [constructor|].
  cbn [map filter] in *. inversion H as [|x xs Hx Hxs]; subst.
  destruct (p a); [|now apply IH].
  cbn [map]. constructor; [|now apply IH].
  intros Hin. apply Hx. apply in_map_iff in Hin. destruct Hin as [b [E Hb]].
  apply filter_In in Hb. apply in_map_iff. exists b. tauto.
Qed.

(** X8: select all, then gate out.  With a fault-free storage and distinct
    session identifiers, when the open-session list is not empty and nothing
    is selected, the select-all button selects the identifier of every listed
    session; the bulk gate-out of that selection reports as many closures as
    there were sessions listed, and the open-session list is empty
    afterwards. *)
Theorem select_all_then_gate_out :
  forall now now1 now2 w rows,
    fault w = None ->
    NoDup (map att_id (attendance (db w))) ->
    fst (gatePresent now w) = mkResponse 200 (JPresent rows) ->
    rows <> [] ->
    let ids := selectAll [] rows in
    let w1 := snd (gatePresent now w) in
    let w2 := snd (bulkOut now1 (Some ids) w1) in
    ids = map pr_attendanceId rows
    /\ handleBulkGateOut ids = (None, Some ids)
    /\ fst (bulkOut now1 (Some ids) w1)
       = mkResponse 200 (JBulkOut (List.length rows))
    /\ fst (gatePresent now2 w2) = mkResponse 200 (JPresent []).
Proof.
  intros now now1 now2 w rows Hf Hnd Hrows Hne ids w1 w2.
  destruct (gatePresent_run now w Hf) as [rows' [w' [E [Hf' [Hd Hi]]]]].
  assert (rows' = rows) by (rewrite E in Hrows; cbn in Hrows; congruence).
  subst rows'.
  assert (Hw1 : w1 = w') by (subst w1; now rewrite E). clearbody w1. subst w1.
  set (opened := filter (fun a => isNull (att_gateOutTime a)) (attendance (db w))) in *.
  assert (Hperm : Permutation (map pr_attendanceId rows) (map att_id opened)).
  { rewrite Hi. apply Permutation_map. apply sortBy_perm. }
  assert (Hnd' : NoDup (map pr_attendanceId rows)).
  { apply (Permutation_NoDup (Permutation_sym Hperm)).
    now apply NoDup_map_filter. }
  assert (Hids : ids = map pr_attendanceId rows).
  { subst ids. unfold selectAll. destruct rows as [|r rows]; [now elim Hne|].
    cbn [List.length Nat.eqb]. now apply setOf_distinct. }
  clearbody ids. subst ids.
  split; [reflexivity|].
  destruct (map pr_attendanceId rows) as [|attId ids] eqn:Em.
  { destruct rows; [now elim Hne | discriminate]. }
  split; [reflexivity|].
  assert (Hall : forall i, In i (attId :: ids) ->
            existsb (fun a => (att_id a =? i)%string) (attendance (db w')) = true).
  { intros i Hin. rewrite Hd. apply existsb_exists.
    apply (Permutation_in _ Hperm) in Hin. apply in_map_iff in Hin.
    destruct Hin as [a [<- Ha]]. exists a. split; [|apply String.eqb_refl].
    unfold opened in Ha. apply filter_In in Ha. tauto. }
  split.
  - rewrite bulkOut_count by exact Hf'.
    rewrite (filter_ext_in _ (fun _ => true) _ Hall), filter_all.
    now rewrite <- Em, length_map.
  - assert (Hnd1 : NoDup (map att_id (attendance (db w')))) by now rewrite Hd.
    assert (Hdb : db w2
                  = mkDb (employees (db w')) (rosters (db w'))
                      (closeListed now1 (attId :: ids) (attendance (db w')))).
    { subst w2. unfold bulkOut, handle. rewrite bind_run.
      pose proof (bulkOutLoop_closeListed now1 (attId :: ids) 0%nat w' Hf' Hnd1) as H.
      destruct (bulkOutLoop now1 (attId :: ids) 0%nat w') as [[count|] w'']; exact H. }
    assert (Hf2 : fault w2 = None).
    { subst w2. unfold bulkOut, handle. rewrite bind_run.
      pose proof (bulkOutLoop_fault now1 (attId :: ids) 0%nat w' Hf') as H.
      destruct (bulkOutLoop now1 (attId :: ids) 0%nat w') as [[count|] w'']; exact H. }
    clearbody w2.
    destruct (gatePresent_run now2 w2 Hf2) as [rows2 [w3 [E2 [_ [_ Hi2]]]]].
    rewrite E2. cbn [fst]. rewrite Hdb in Hi2. cbn [attendance] in Hi2.
    rewrite filter_open_closeListed in Hi2.
    + destruct rows2; [reflexivity | discriminate].
    + intros a Ha Ho. rewrite Hd in Ha.
      apply (Permutation_in _ (Permutation_sym Hperm)).
      apply in_map. unfold opened. apply filter_In. split; [exact Ha|].
      now rewrite Ho.
Qed.

Lemma select_all_then_gate_out_witness :
  exists rows,
    let ids := selectAll [] rows in
    let w1 := snd (gatePresent wednesday19 bulkWorld) in
    let w2 := snd (bulkOut wednesday19 (Some ids) w1) in
    ids = map pr_attendanceId rows
    /\ handleBulkGateOut ids = (None, Some ids)
    /\ fst (bulkOut wednesday19 (Some ids) w1)
       = mkResponse 200 (JBulkOut (List.length rows))
    /\ fst (gatePresent wednesday19 w2) = mkResponse 200 (JPresent []).
Proof.
  eexists.
  apply (select_all_then_gate_out wednesday19 wednesday19 wednesday19 bulkWorld).
  - reflexivity.
  - vm_compute. repeat constructor; cbn; intuition discriminate.
  - vm_compute. reflexivity.
  - discriminate.
Defined.

(** ** Gate-entry screen: the recent entries *)

Lemma firstn_app_cut : forall {A} (n : nat) (l p : list A) (e : A),
  firstn (S n) (l ++ e :: firstn n p) = firstn (S n) (l ++ e :: p).
Proof.
  intros A n l p e. rewrite !firstn_app. f_equal.
  destruct (S n - List.length l)%nat as [|k] eqn:E; [reflexivity|].
  cbn [firstn]. rewrite firstn_firstn.
  replace (Nat.min k n) with k by lia. reflexivity.
Qed.

Lemma entryEvent_recent : forall s e,
  snd (entryEvent s e)
  = if isOutcome e
    then addRecentEntry (hd (mkRecentEntry 0 "" "" "") (snd (entryEvent s e))) (snd s)
    else snd s.
Proof. intros [st recent] []; reflexivity. Qed.

Lemma entriesOf_cons : forall s e events,
  entriesOf s (e :: events)
  = ((if isOutcome e then [hd (mkRecentEntry 0 "" "" "") (snd (entryEvent s e))] else [])
     ++ entriesOf (entryEvent s e) events)%list.
Proof. intros s [] events; reflexivity. Qed.

Lemma entry_run_from : forall events s,
  (List.length (snd s) <= 10)%nat ->
  snd (fold_left entryEvent events s)
  = firstn 10 (rev (entriesOf s events) ++ snd s).
Proof.
  induction events as [|e events IH]; intros s H.
  - cbn [fold_left entriesOf rev app]. now rewrite firstn_all2.
  - cbn [fold_left]. rewrite entriesOf_cons.
    pose proof (entryEvent_recent s e) as Hs.
    set (h := hd (mkRecentEntry 0 "" "" "") (snd (entryEvent s e))) in *.
    rewrite IH.
    + rewrite Hs. destruct (isOutcome e).
      * unfold addRecentEntry. rewrite (firstn_app_cut 9).
        cbn [app rev]. now rewrite <- app_assoc.
      * reflexivity.
    + rewrite Hs. destruct (isOutcome e); [|exact H].
      unfold addRecentEntry. cbn [List.length].
      pose proof (firstn_le_length 9 (snd s)). lia.
Qed.

Lemma entriesOf_spec : forall events s,
  List.length (entriesOf s events) = List.length (filter isOutcome events)
  /\ Forall (fun x => re_status x = "allowed" \/ re_status x = "denied")
            (entriesOf s events).
Proof.
  induction events as [|e events IH]; intros s; [split; [reflexivity | constructor]|].
  rewrite entriesOf_cons. cbn [filter].
  destruct (IH (entryEvent s e)) as [Hl Hf].
  rewrite length_app, Hl. split.
  - destruct (isOutcome e); reflexivity.
  - apply Forall_app. split; [|exact Hf].
    destruct s as [st recent].
    destruct e; cbn [isOutcome]; constructor;
      first [left; reflexivity | right; reflexivity | constructor].
Qed.

(** X26: the list of recent entries of the gate-entry screen.  The list is
    written by the success handler of a scan ("allowed" entries) and by the
    denial at the week-off prompt ("denied" entries), and by nothing else.
    Whatever happens on the screen after it opened, the list holds the
    entries of the last ten of these outcomes, the newest first, and never
    more than ten; typing, scanning, failed scans and allowing a week-off
    entry leave it as it is. *)
Theorem recent_entries_last_ten :
  forall st events,
    let recent := snd (fold_left entryEvent events (st, [])) in
    recent = firstn 10 (rev (entriesOf (st, []) events))
    /\ (List.length recent <= 10)%nat
    /\ List.length (entriesOf (st, []) events) = List.length (filter isOutcome events)
    /\ Forall (fun x => re_status x = "allowed" \/ re_status x = "denied") recent
    /\ (forall now data s,
          hd_error (snd (onSuccessEntry now data s))
          = Some (mkRecentEntry now (orElse (employeeNameOf data) "Employee")
                    (orElse (gs_lastScanned (fst s)) (toUpperCase (gs_slpid (fst s))))
                    "allowed"))
    /\ (forall now s,
          hd_error (snd (handleWeekOffDeny now s))
          = Some (mkRecentEntry now "Employee" (toUpperCase (gs_slpid (fst s)))
                    "denied")
          /\ gs_showWeekOffModal (fst (handleWeekOffDeny now s)) = false
          /\ gs_pendingEntry (fst (handleWeekOffDeny now s)) = None).
Proof.
  intros st events recent. subst recent.
  rewrite entry_run_from by (cbn; lia). cbn [snd]. rewrite app_nil_r.
  destruct (entriesOf_spec events (st, [])) as [Hl Hf].
  split; [reflexivity|]. split; [apply firstn_le_length|]. split; [exact Hl|].
  split; [|split; [reflexivity | now repeat split]].
  rewrite Forall_forall in *. intros x Hx. apply Hf.
  apply in_rev. rewrite <- (firstn_skipn 10 (rev (entriesOf (st, []) events))).
  apply in_or_app. now left.
Qed.

(** ** The live dashboard *)

Lemma dashboardLive_run : forall now w,
  fault w = None ->
  dashboardLive now w
  = (mkLiveResponse 200
       (LData (mkLiveData
                 (map (liveRow now (filter (fun e => emp_isActive e) (employees (db w)))
                               (rosters (db w)))
                      (sortBy (fun a b => att_gateInTime b <=? att_gateInTime a)
                         (filter (fun a => isNull (att_gateOutTime a))
                                 (attendance (db w)))))
                 (filter (fun e => emp_isActive e) (employees (db w)))
                 (rosters (db w))
                 (map att_employeeId
                      (filter (fun a => att_date a =? isoDate now) (attendance (db w)))))),
     mkWorld (db w)
       (log w ++ [OpSelect Employees; OpSelect Rosters; OpSelect AttendanceT;
                  OpSelect AttendanceT])
       None).
Proof.
  intros now w Hf. unfold dashboardLive, handleLive.
  run_ok Hf. run_ok (eq_refl (@None nat)). run_ok (eq_refl (@None nat)).
  run_ok (eq_refl (@None nat)).
  cbn [ret]. rewrite filter_all, <- !app_assoc. reflexivity.
Qed.

Lemma dashboardLive_db : forall now w, db (snd (dashboardLive now w)) = db w.
Proof.
  intros now w. unfold dashboardLive, handleLive.
  run_op; [simpl; now rewrite D|].
  run_op; [simpl; now rewrite D|].
  run_op; [simpl; now rewrite D|].
  run_op; [simpl; now rewrite D|].
  reflexivity.
Qed.

Lemma hoursBetween_neg : forall start finish,
  finish < start -> (hoursBetween start finish < 0)%Q.
Proof.
  intros start finish H. unfold hoursBetween, msPerHour.
  unfold Qlt, Qdiv, Qmult, Qinv, inject_Z. cbn. lia.
Qed.

Lemma liveRow_id : forall now emps ros att,
  le_id (liveRow now emps ros att) = att_employeeId att.
Proof.
  intros now emps ros att. unfold liveRow. cbn [le_id]. unfold fieldOr.
  destruct (find _ emps) as [e|] eqn:E; [|reflexivity].
  apply find_some in E. destruct E as [_ E]. apply String.eqb_eq in E.
  rewrite E. unfold orElse. now destruct (_ =? _)%string.
Qed.

(** X27: the live-dashboard route only reads, whatever the storage faults;
    with a fault-free storage it answers 200 and lists exactly the sessions
    with a null gate-out timestamp, of any date, each once and the latest
    gate-in first.  Each row carries the employee identifier of its session,
    and its hours are the plain difference between the instant of the call
    and the gate-in: unlike the open-session list of the gate-out screen they
    are not clamped, so they are negative exactly when the gate-in lies after
    the instant of the call. *)
Theorem dashboard_live_lists_open_sessions :
  forall now w,
    db (snd (dashboardLive now w)) = db w
    /\ (fault w = None ->
        exists data,
          fst (dashboardLive now w) = mkLiveResponse 200 (LData data)
          /\ Permutation
               (map (fun r => (le_attendanceId r, le_id r)) (liveManpower data))
               (map (fun a => (att_id a, att_employeeId a))
                  (filter (fun a => isNull (att_gateOutTime a)) (attendance (db w))))
          /\ StronglySorted (fun t t' => t' <= t) (map le_gateInTime (liveManpower data))
          /\ Forall (fun r =>
                 le_hoursWorked r = hoursBetween (le_gateInTime r) now
                 /\ ((le_hoursWorked r < 0)%Q <-> now < le_gateInTime r))
               (liveManpower data)).
Proof.
  intros now w. split; [apply dashboardLive_db|]. intros Hf.
  rewrite (dashboardLive_run now w Hf). eexists. split; [reflexivity|].
  cbn [fst liveManpower].
  set (sorted := sortBy (fun a b => att_gateInTime b <=? att_gateInTime a)
                   (filter (fun a => isNull (att_gateOutTime a)) (attendance (db w)))).
  split; [|split].
  - rewrite map_map.
    rewrite (map_ext _ (fun a => (att_id a, att_employeeId a)))
      by (intros a; now rewrite liveRow_id).
    apply Permutation_map. apply sortBy_perm.
  - rewrite map_map. cbn [liveRow le_gateInTime].
    apply StronglySorted_map_key. apply sortBy_key_sorted.
  - apply Forall_forall. intros r Hr. apply in_map_iff in Hr.
    destruct Hr as [a [<- _]]. cbn [liveRow le_hoursWorked le_gateInTime].
    split; [reflexivity|]. split.
    + intros H. destruct (Z.ltb_spec now (att_gateInTime a)) as [|Hge]; [assumption|].
      exfalso. apply (Qlt_not_le _ _ H). now apply hoursBetween_nonneg.
    + apply hoursBetween_neg.
Qed.

Lemma filter_length_le : forall {A} (p : A -> bool) l,
  (List.length (filter p l) <= List.length l)%nat.
Proof.
  intros A p l. induction l as [|x l IH]; cbn [filter List.length]; [lia|].
  destruct (p x); cbn [List.length]; lia.
Qed.

Lemma filter_length_mono : forall {A} (p q : A -> bool) l,
  (forall x, p x = true -> q x = true) ->
  (List.length (filter p l) <= List.length (filter q l))%nat.
Proof.
  intros A p q l H. induction l as [|x l IH]; cbn [filter List.length]; [lia|].
  destruct (p x) eqn:E.
  - rewrite (H x E). cbn [List.length]. lia.
  - destruct (q x); cbn [List.length]; lia.
Qed.

Lemma filteredLive_all : forall l, filteredLive "All" "All" "All" l = l.
Proof. intros l. unfold filteredLive. apply filter_all. Qed.

Lemma absentEmployees_In : forall deptFilter genderFilter data e,
  In e (absentEmployees deptFilter genderFilter data) ->
  In e (allEmployees data) /\ ~ In (emp_id e) (todayEntryEmpIds data).
Proof.
  intros deptFilter genderFilter data e H. unfold absentEmployees in H.
  apply filter_In in H. destruct H as [Hin H]. split; [exact Hin|].
  apply andb_true_iff in H. destruct H as [_ H].
  apply setHas_false. now destruct (setHas _ _).
Qed.

(** X28: the counters of the dashboard over the answer of the live route
    (fault-free storage).  With no filter set, "present" is the number of
    sessions with a null gate-out timestamp, whatever their date, and the
    employees counted absent are exactly the active employees with no session
    dated the UTC day of the call, whether or not an earlier session of theirs
    is still open.  Setting filters never raises "present" or "absent", and
    the overtime and week-off counters never exceed "present". *)
Theorem dashboard_counters :
  forall tz now now' w data deptFilter shiftFilter genderFilter,
    fault w = None ->
    fst (dashboardLive now w) = mkLiveResponse 200 (LData data) ->
    let unfiltered := stats tz now' "All" "All" "All" data in
    let s := stats tz now' deptFilter shiftFilter genderFilter data in
    st_present unfiltered
      = List.length (filter (fun a => isNull (att_gateOutTime a)) (attendance (db w)))
    /\ (forall e,
          In e (absentEmployees "All" "All" data)
          <-> In e (employees (db w)) /\ emp_isActive e = true
              /\ forall a, In a (attendance (db w)) ->
                           att_employeeId a = emp_id e -> att_date a <> isoDate now)
    /\ (st_present s <= st_present unfiltered)%nat
    /\ (st_absent s <= st_absent unfiltered)%nat
    /\ (st_overtime s <= st_present s)%nat
    /\ (st_weekOffPresent s <= st_present s)%nat.
Proof.
  intros tz now now' w data deptFilter shiftFilter genderFilter Hf Hdata unfiltered s.
  rewrite (dashboardLive_run now w Hf) in Hdata. cbn [fst] in Hdata.
  injection Hdata as Hdata. subst unfiltered s. unfold stats.
  cbn [st_present st_absent st_overtime st_weekOffPresent].
  rewrite filteredLive_all.
  split; [|split; [|split; [|split; [|split]]]].
  - rewrite <- Hdata. cbn [liveManpower]. rewrite length_map.
    apply Permutation_length. apply sortBy_perm.
  - intros e. unfold absentEmployees. rewrite filter_In. rewrite <- Hdata.
    cbn [allEmployees todayEntryEmpIds]. rewrite filter_In.
    change (matchDept "All" (emp_department e)) with true.
    change (matchGender "All" (emp_gender e)) with true.
    cbn [andb]. rewrite negb_true_iff, setHas_false.
    split.
    + intros [[Hin Hact] Hno]. split; [exact Hin|]. split; [exact Hact|].
      intros a Ha He Hd. apply Hno. apply in_map_iff. exists a. split; [exact He|].
      apply filter_In. split; [exact Ha|]. now apply Z.eqb_eq.
    + intros [Hin [Hact Hno]]. split; [now split|].
      intros Hm. apply in_map_iff in Hm. destruct Hm as [a [He Ha]].
      apply filter_In in Ha. destruct Ha as [Ha Hd]. apply Z.eqb_eq in Hd.
      now apply (Hno a Ha He).
  - unfold filteredLive. apply filter_length_le.
  - unfold absentEmployees. apply filter_length_mono. intros x H.
    apply andb_true_iff in H. destruct H as [_ H]. exact H.
  - apply filter_length_le.
  - apply filter_length_le.
Qed.

Lemma dashboard_counters_witness :
  exists data,
    let unfiltered := stats 0 wednesday19 "All" "All" "All" data in
    let s := stats 0 wednesday19 "Inbound" "Shift A" "Male" data in
    st_present unfiltered
      = List.length (filter (fun a => isNull (att_gateOutTime a))
                            (attendance (db bulkWorld)))
    /\ (forall e,
          In e (absentEmployees "All" "All" data)
          <-> In e (employees (db bulkWorld)) /\ emp_isActive e = true
              /\ forall a, In a (attendance (db bulkWorld)) ->
                           att_employeeId a = emp_id e -> att_date a <> isoDate wednesday19)
    /\ (st_present s <= st_present unfiltered)%nat
    /\ (st_absent s <= st_absent unfiltered)%nat
    /\ (st_overtime s <= st_present s)%nat
    /\ (st_weekOffPresent s <= st_present s)%nat.
Proof.
  eexists.
  apply (dashboard_counters 0 wednesday19 wednesday19 bulkWorld _ "Inbound" "Shift A" "Male").
  - reflexivity.
  - vm_compute. reflexivity.
Defined.

(** X29: a gate-in shows on the dashboard.  With a fault-free storage,
    after a scan that records a gate-in, the live route called on the same
    UTC day lists the new session under the employee's identifier and badge
    code with the gate-in instant of the scan, and the dashboard does not
    count the employee absent under any filter. *)
Theorem gate_in_shows_on_dashboard :
  forall tz now now' newId allow badge w emp deptFilter genderFilter,
    fault w = None ->
    badge <> "" ->
    lookupEmployee (db w) badge = Some emp ->
    emp_isActive emp = true ->
    openSession (db w) (emp_id emp) = None ->
    isWeekOffAt tz (rosterOf (db w) (emp_id emp)) now && negb allow = false ->
    isoDate now' = isoDate now ->
    exists data,
      fst (dashboardLive now' (snd (gateEntry tz now newId (Some badge) allow w)))
        = mkLiveResponse 200 (LData data)
      /\ (exists r, In r (liveManpower data)
                    /\ le_attendanceId r = newId
                    /\ le_id r = emp_id emp
                    /\ le_slpid r = emp_slpid emp
                    /\ le_gateInTime r = now)
      /\ ~ In emp (absentEmployees deptFilter genderFilter data).
Proof.
  intros tz now now' newId allow badge w emp deptFilter genderFilter
         Hf Hb Hl Ha Ho Hw Hday.
  destruct (gateEntry_opens tz now newId allow badge w emp Hf Hb Hl Ha Ho Hw)
    as [_ [Hd Hf1]].
  rewrite (dashboardLive_run now' _ Hf1). rewrite Hd. cbn [attendance employees rosters].
  eexists. split; [reflexivity|]. cbn [fst liveManpower]. split.
  - exists (liveRow now' (filter (fun e => emp_isActive e) (employees (db w)))
              (rosters (db w)) (openedRow tz now newId allow (db w) emp)).
    split; [|split; [reflexivity|split; [apply liveRow_id | split; reflexivity]]].
    apply in_map. apply (Permutation_in _ (Permutation_sym (sortBy_perm _ _))).
    apply filter_In. split; [|reflexivity]. apply in_or_app. right. now left.
  - intros Habs. apply absentEmployees_In in Habs. destruct Habs as [_ Habs].
    apply Habs. cbn [todayEntryEmpIds]. apply in_map_iff.
    exists (openedRow tz now newId allow (db w) emp). split; [reflexivity|].
    apply filter_In. split; [apply in_or_app; right; now left|].
    cbn [openedRow att_date]. rewrite Hday. apply Z.eqb_refl.
Qed.

Lemma gate_in_shows_on_dashboard_witness :
  exists data,
    fst (dashboardLive (wednesday9 + 60000)
           (snd (gateEntry 0 wednesday9 "n1" (Some "slp001") false sampleWorld)))
      = mkLiveResponse 200 (LData data)
    /\ (exists r, In r (liveManpower data)
                  /\ le_attendanceId r = "n1"
                  /\ le_id r = emp_id sampleEmployee
                  /\ le_slpid r = emp_slpid sampleEmployee
                  /\ le_gateInTime r = wednesday9)
    /\ ~ In sampleEmployee (absentEmployees "All" "All" data).
Proof.
  apply (gate_in_shows_on_dashboard 0 wednesday9 (wednesday9 + 60000) "n1" false
           "slp001" sampleWorld sampleEmployee "All" "All");
    [reflexivity | discriminate | reflexivity | reflexivity | reflexivity
    | reflexivity | reflexivity].
Defined.

(** ** The two absents sheets *)

Lemma flat_map_filter : forall {A B} (p : A -> bool) (f : A -> list B) l,
  flat_map f (filter p l) = flat_map (fun x => if p x then f x else []) l.
Proof.
  intros A B p f l. induction l as [|x l IH]; [reflexivity|].
  cbn [filter flat_map]. destruct (p x); cbn [flat_map]; now rewrite IH.
Qed.

Lemma map_flat_map : forall {A B C} (g : B -> C) (f : A -> list B) l,
  map g (flat_map f l) = flat_map (fun x => map g (f x)) l.
Proof.
  intros A B C g f l. induction l as [|x l IH]; [reflexivity|].
  cbn [flat_map]. now rewrite map_app, IH.
Qed.

Lemma exportAbsentRows_agree : forall tz allRos allAtt dates department emp,
  exportAbsentRows tz allRos allAtt dates department emp
  = if negb (deptSkipped department emp)
    then map sheetOfRecord (absentSheetRows tz allRos allAtt dates emp)
    else [].
Proof.
  intros tz allRos allAtt dates department emp. unfold exportAbsentRows.
  destruct (deptSkipped department emp); cbn [negb]; [reflexivity|].
  unfold absentSheetRows. rewrite map_flat_map. apply flat_map_ext. intros date.
  unfold findAtt, findRoster. rewrite find_existsb.
  destruct (isWeekOffAt tz _ (dateInstant date)); cbn [negb andb]; [reflexivity|].
  destruct (find _ allAtt); reflexivity.
Qed.

(** X30: the two absents sheets agree.  For a request that carries both
    dates, [/api/reports/export-absent] performs the storage operations of
    [/api/reports/export] with [onlyAbsent=true], fails when it fails, and
    returns, row for row and in the same order, the columns it shares with
    that sheet: one row per active employee of the department and date of the
    range that is neither the employee's rest day nor a date with a
    session. *)
Theorem absent_sheets_agree :
  forall tz fromDate toDate department w,
    exportAbsent tz fromDate toDate department w
    = (sheetOfResponse
         (fst (reportsExport tz (Some fromDate) (Some toDate) department true w)),
       snd (reportsExport tz (Some fromDate) (Some toDate) department true w)).
Proof.
  intros tz fromDate toDate department w.
  unfold exportAbsent, reportsExport, handleSheet, handle.
  rewrite !bind_run.
  destruct (selectEmployees_cases (fun e => emp_isActive e) w)
    as [[w1 [E [D F]]]|[f [E F]]]; rewrite E; clear E; [reflexivity|].
  rewrite !bind_run.
  match goal with
  | |- context [selectRosters ?p ?w0] =>
      destruct (selectRosters_cases p w0) as [[w1 [E [D F']]]|[f' [E F']]]
  end; rewrite E; clear E; [reflexivity|].
  rewrite !bind_run.
  match goal with
  | |- context [selectAttendance ?p ?w0] =>
      destruct (selectAttendance_cases p w0) as [[w1 [E [D F'']]]|[f'' [E F'']]]
  end; rewrite E; clear E; [reflexivity|].
  cbn [ret fst snd db]. unfold sheetOfResponse. cbn [status body].
  rewrite export_department_filter.
  rewrite (flat_map_filter (fun e => negb (deptSkipped department e))), map_flat_map.
  match goal with
  | |- (mkSheetResponse _ (SAbsents ?l), _) = (mkSheetResponse _ (SAbsents ?r), _) =>
      assert (Hrows : l = r)
  end.
  { apply flat_map_ext. intros emp. rewrite exportAbsentRows_agree.
    destruct (deptSkipped department emp); reflexivity. }
  rewrite Hrows. reflexivity.
Qed.
